(** * Multi-perspective LLM ensemble: field extraction, stage executor,
      orchestrator and progress channel

    A shallow embedding of the parts of the repository that the
    specification's testable properties talk about:

    - [graph/multi_perspective_nodes.py]: the tag-delimited field
      extraction ([_extract_section], [_extract_confidence],
      [_extract_judge_section], [_extract_judge_score]) and the stage
      nodes of the pipeline;
    - [utils/judge.py]: [UnbiasedJudge._extract_section] and
      [UnbiasedJudge._extract_score];
    - [graph/multi_perspective_state.py]: the state records and
      [InputPackage.validate_inputs];
    - [graph/multi_perspective_ensemble_graph.py]: the orchestrator
      [process_multi_perspective_query] and [_calculate_advantage_metrics];
    - [backend_websocket_server.py]: [handle_client_message].

    Conventions of the model.
    - A Python [str] is a [string]; every character is a code point below
      256.
    - A Python [float] is a [pyfloat]: a rational, one of the two
      infinities, or NaN.  Rounding to binary64 is not modelled; the
      comparisons that the code makes ([min], [max] against [0.0], [1.0]
      and [5.0]) are exact on such values.
    - A call that may raise returns an [outcome]; [Raised msg] carries
      [str(e)].
    - The external model backends are not code: all that the pipeline sees
      of a backend call is its outcome, which is an input of the model. *)

From Stdlib Require Import String Ascii List Bool Arith Lia QArith Qminmax.
From stdpp Require Import base option gmap strings.
Import ListNotations.

Local Open Scope string_scope.
Local Open Scope list_scope.

(** ** Python text primitives *)

Module PyStr.

(** [str.isspace] on one code point below 256: TAB..CR, FS..US, space,
    NEL and NBSP. *)
Definition is_space (c : ascii) : bool :=
  let n := nat_of_ascii c in
  ((9 <=? n)%nat && (n <=? 13)%nat) || ((28 <=? n)%nat && (n <=? 31)%nat)
  || (n =? 32)%nat || (n =? 133)%nat || (n =? 160)%nat.

(** [s.lstrip()] *)
Fixpoint lstrip (s : string) : string :=
  match s with
  | EmptyString => EmptyString
  | String c s' => if is_space c then lstrip s' else s
  end.

(** [s.rstrip()] *)
Fixpoint rstrip (s : string) : string :=
  match s with
  | EmptyString => EmptyString
  | String c s' =>
      match rstrip s' with
      | EmptyString => if is_space c then EmptyString else String c EmptyString
      | r => String c r
      end
  end.

(** [s.strip()] *)
Definition strip (s : string) : string := rstrip (lstrip s).

(** [s.startswith(p)] *)
Definition startswith (s p : string) : bool := String.prefix p s.

(** [s.split(sep)] for a one-character separator: never the empty list. *)
Fixpoint split (sep : ascii) (s : string) : list string :=
  match s with
  | EmptyString => [EmptyString]
  | String c s' =>
      if Ascii.eqb c sep then EmptyString :: split sep s'
      else match split sep s' with
           | l :: ls => String c l :: ls
           | [] => [String c EmptyString]
           end
  end.

(** [s.split(sep, 1)[1]]: the text after the first separator;
    [None] is the [IndexError] of a line without separator. *)
Fixpoint split1_snd (sep : ascii) (s : string) : option string :=
  match s with
  | EmptyString => None
  | String c s' => if Ascii.eqb c sep then Some s' else split1_snd sep s'
  end.

(** [sep.join(ls)] *)
Fixpoint join (sep : string) (ls : list string) : string :=
  match ls with
  | [] => EmptyString
  | [l] => l
  | l :: ls' => l +:+ sep +:+ join sep ls'
  end.

(** [s.replace(c, '')] for a one-character [c]. *)
Fixpoint remove_char (c : ascii) (s : string) : string :=
  match s with
  | EmptyString => EmptyString
  | String d s' => if Ascii.eqb d c then remove_char c s' else String d (remove_char c s')
  end.

Definition newline : ascii := ascii_of_nat 10.
Definition colon : ascii := ":"%char.

(** [content.split('\n')] *)
Definition lines (content : string) : list string := split newline content.

(** ['\n'.join(ls)] *)
Definition unlines (ls : list string) : string := join (String newline EmptyString) ls.

(** [line.strip().startswith(f"{name}:")] *)
Definition tagged (name line : string) : bool :=
  startswith (strip line) (name +:+ ":").

(** Truthiness of a [str]. *)
Definition truthy (s : string) : bool :=
  match s with EmptyString => false | _ => true end.

(** [c in s] *)
Fixpoint occurs (c : ascii) (s : string) : bool :=
  match s with
  | EmptyString => false
  | String d s' => Ascii.eqb d c || occurs c s'
  end.

(** The number of characters of a list of lines, each counted with its
    line break: [len('\n'.join(ls)) + 1] for a list that is not empty. *)
Fixpoint weight (ls : list string) : nat :=
  match ls with
  | [] => 0
  | l :: ls' => S (String.length l) + weight ls'
  end.

End PyStr.

(** ** Python floats *)

Module PyFloat.
Local Open Scope Q_scope.

Inductive pyfloat : Type :=
| Fin (q : Q)
| PInf
| NInf
| NaN.

(** [a < b]; every comparison with NaN is false. *)
Definition lt (a b : pyfloat) : bool :=
  match a, b with
  | NaN, _ | _, NaN => false
  | _, NInf => false
  | NInf, _ => true
  | PInf, _ => false
  | _, PInf => true
  | Fin x, Fin y => match x ?= y with Lt => true | _ => false end
  end.

(** The builtin [min(a, b)]: the later argument wins only when it is
    strictly smaller. *)
Definition min (a b : pyfloat) : pyfloat := if lt b a then b else a.

(** The builtin [max(a, b)]: the later argument wins only when it is
    strictly greater. *)
Definition max (a b : pyfloat) : pyfloat := if lt a b then b else a.

(** [a + b] *)
Definition add (a b : pyfloat) : pyfloat :=
  match a, b with
  | NaN, _ | _, NaN => NaN
  | PInf, NInf | NInf, PInf => NaN
  | PInf, _ | _, PInf => PInf
  | NInf, _ | _, NInf => NInf
  | Fin x, Fin y => Fin (Qred (x + y))
  end.

(** [a - b] *)
Definition sub (a b : pyfloat) : pyfloat :=
  match a, b with
  | NaN, _ | _, NaN => NaN
  | PInf, PInf | NInf, NInf => NaN
  | PInf, _ | _, NInf => PInf
  | NInf, _ | _, PInf => NInf
  | Fin x, Fin y => Fin (Qred (x - y))
  end.

(** [a / b]; [None] is [ZeroDivisionError]. *)
Definition div (a b : pyfloat) : option pyfloat :=
  match b with
  | Fin y =>
      match y ?= 0 with
      | Eq => None
      | sgn =>
          Some match a with
               | Fin x => Fin (Qred (x / y))
               | NaN => NaN
               | PInf => match sgn with Gt => PInf | _ => NInf end
               | NInf => match sgn with Gt => NInf | _ => PInf end
               end
      end
  | NaN => Some NaN
  | _ => Some match a with Fin _ => Fin 0 | _ => NaN end
  end.

(** [float(n)] of a non-negative integer. *)
Definition of_nat (n : nat) : pyfloat := Fin (Z.of_nat n # 1).

(** [sum(xs)]: starts from the integer 0. *)
Definition sum (xs : list pyfloat) : pyfloat := fold_left add xs (Fin 0).

(** The value is a number of the closed interval [0, 1]. *)
Definition in_unit (a : pyfloat) : Prop :=
  match a with
  | Fin x => 0 <= x /\ x <= 1
  | _ => False
  end.

End PyFloat.

Abbreviation pyfloat := PyFloat.pyfloat.
Abbreviation Fin := PyFloat.Fin.
Abbreviation PInf := PyFloat.PInf.
Abbreviation NInf := PyFloat.NInf.
Abbreviation NaN := PyFloat.NaN.

(** ** Calls that may raise *)

Inductive outcome (A : Type) : Type :=
| Returned (a : A)
| Raised (msg : string).
Arguments Returned {A} a.
Arguments Raised {A} msg.

(** ** Field extraction of the stage nodes
    ([graph/multi_perspective_nodes.py]) *)

Module Nodes.
Import PyStr.

(** The tags that end a captured section of a model response. *)
Definition section_stops : list string :=
  ["PERSPECTIVE_ANALYSIS"; "REASONING"; "CONFIDENCE"; "ENVIRONMENTAL_ANALYSIS";
   "COMPARISON"; "SYNTHESIS"; "TECHNOLOGICAL_ANALYSIS"; "COMPLETE_SYNTHESIS";
   "FINAL_CONFIDENCE"].

(** The tags that end a captured section of the judge's response. *)
Definition judge_stops : list string :=
  ["EVALUATION"; "AGREEMENTS_DISAGREEMENTS"; "BEST_INSIGHTS"; "FINAL_SYNTHESIS";
   "CLAUDE_SCORE"; "GPT_SCORE"; "GROK_SCORE"].

(** The [for line in lines] loop shared by [_extract_section] and
    [_extract_judge_section], with its two variables [capturing] and
    [section_content]; [None] is an exception escaping the loop. *)
Fixpoint capture (stops : list string) (section_name : string)
    (ls : list string) (capturing : bool) (section_content : list string)
    : option (list string) :=
  match ls with
  | [] => Some section_content
  | line :: rest =>
      if tagged section_name line then
        match split1_snd colon line with
        | Some v => capture stops section_name rest true (section_content ++ [strip v])
        | None => None
        end
      else if capturing && existsb (fun s => tagged s line) stops then
        Some section_content
      else if capturing then
        capture stops section_name rest true (section_content ++ [line])
      else
        capture stops section_name rest false section_content
  end.

(** [MultiPerspectiveNodes._extract_section] *)
Definition _extract_section (content section_name : string) : string :=
  match capture section_stops section_name (lines content) false [] with
  | Some section_content => strip (unlines section_content)
  | None => content
  end.

(** [MultiPerspectiveNodes._extract_judge_section] *)
Definition _extract_judge_section (content section_name : string) : string :=
  match capture judge_stops section_name (lines content) false [] with
  | Some section_content => strip (unlines section_content)
  | None => content
  end.

Section Floats.

(** The builtin [float(s)] on a [str]: [None] is its [ValueError]. *)
Variable float_of_str : string -> option pyfloat.

(** The loop of [_extract_confidence]; [None] is an exception raised
    inside the [try]. *)
Fixpoint confidence_scan (ls : list string) : option pyfloat :=
  match ls with
  | [] => Some (Fin (7 # 10))
  | line :: rest =>
      if tagged "CONFIDENCE" line || tagged "FINAL_CONFIDENCE" line then
        match split1_snd colon line with
        | Some v => float_of_str (strip v)
        | None => None
        end
      else confidence_scan rest
  end.

(** [MultiPerspectiveNodes._extract_confidence] *)
Definition _extract_confidence (content : string) : pyfloat :=
  match confidence_scan (lines content) with
  | Some c => c
  | None => Fin (7 # 10)
  end.

(** The loop of [_extract_judge_score]. *)
Fixpoint judge_score_scan (score_name : string) (ls : list string) : option pyfloat :=
  match ls with
  | [] => Some (Fin (1 # 2))
  | line :: rest =>
      if tagged score_name line then
        match split1_snd colon line with
        | Some v =>
            match float_of_str (strip v) with
            | Some x => Some (PyFloat.max (Fin 0) (PyFloat.min (Fin 1) x))
            | None => None
            end
        | None => None
        end
      else judge_score_scan score_name rest
  end.

(** [MultiPerspectiveNodes._extract_judge_score] *)
Definition _extract_judge_score (content score_name : string) : pyfloat :=
  match judge_score_scan score_name (lines content) with
  | Some c => c
  | None => Fin (1 # 2)
  end.

End Floats.

End Nodes.

(** ** The judge's own parser ([utils/judge.py]) *)

Module UnbiasedJudge.
Import PyStr.

(** The prefixes of the [startswith] tuple that end a captured section. *)
Definition stop_prefixes : list string :=
  ["ANALYSIS:"; "SYNTHESIS:"; "SCORES:"; "REASONING:"; "CLAUDE_SCORE:";
   "GPT_SCORE:"; "GROK_SCORE:"].

(** The loop of [UnbiasedJudge._extract_section]: the text after the
    colon is kept only when it is not empty. *)
Fixpoint capture (section_name : string) (ls : list string)
    (capturing : bool) (section_content : list string) : option (list string) :=
  match ls with
  | [] => Some section_content
  | line :: rest =>
      if tagged section_name line then
        match split1_snd colon line with
        | Some v =>
            let after_colon := strip v in
            if truthy after_colon
            then capture section_name rest true (section_content ++ [after_colon])
            else capture section_name rest true section_content
        | None => None
        end
      else if capturing && existsb (fun p => startswith (strip line) p) stop_prefixes then
        Some section_content
      else if capturing then
        capture section_name rest true (section_content ++ [line])
      else
        capture section_name rest false section_content
  end.

(** [UnbiasedJudge._extract_section] *)
Definition _extract_section (content section_name : string) : string :=
  match capture section_name (lines content) false [] with
  | Some section_content =>
      let result := strip (unlines section_content) in
      if truthy result then result else content
  | None => content
  end.

(** [score_str] after [.strip()] and
    [.replace('[', '').replace(']', '').strip()]. *)
Definition score_str (v : string) : string :=
  strip (remove_char "]" (remove_char "[" (strip v))).

Section Floats.

Variable float_of_str : string -> option pyfloat.

(** The loop of [UnbiasedJudge._extract_score]: square brackets are
    removed before the conversion. *)
Fixpoint score_scan (score_name : string) (ls : list string) : option pyfloat :=
  match ls with
  | [] => Some (Fin (1 # 2))
  | line :: rest =>
      if tagged score_name line then
        match split1_snd colon line with
        | Some v =>
            match float_of_str (score_str v) with
            | Some x => Some (PyFloat.max (Fin 0) (PyFloat.min (Fin 1) x))
            | None => None
            end
        | None => None
        end
      else score_scan score_name rest
  end.

(** [UnbiasedJudge._extract_score]: [ValueError] and [IndexError] are the
    only exceptions the loop can raise, and both give the default. *)
Definition _extract_score (content score_name : string) : pyfloat :=
  match score_scan score_name (lines content) with
  | Some c => c
  | None => Fin (1 # 2)
  end.

End Floats.

End UnbiasedJudge.

(** A decimal reader for the literals used in the examples below: an
    optional sign, digits, and an optional fraction.  On these literals it
    agrees with the builtin [float]; the theorems hold for every reader. *)
Module Decimal.

Definition digit (c : ascii) : option Z :=
  let n := nat_of_ascii c in
  if (48 <=? n)%nat && (n <=? 57)%nat then Some (Z.of_nat (n - 48)) else None.

(** Digits of the fraction: numerator and denominator so far. *)
Fixpoint frac (s : string) (num : Z) (den : positive) : option Q :=
  match s with
  | EmptyString => Some (Qred (num # den))
  | String c s' =>
      match digit c with
      | Some d => frac s' (10 * num + d) (10 * den)
      | None => None
      end
  end.

(** Digits of the integer part, up to the point. *)
Fixpoint int (s : string) (num : Z) (seen : bool) : option Q :=
  match s with
  | EmptyString => if seen then Some (num # 1) else None
  | String c s' =>
      if Ascii.eqb c "."%char then
        match s' with
        | EmptyString => if seen then Some (num # 1) else None
        | _ => frac s' num 1
        end
      else
        match digit c with
        | Some d => int s' (10 * num + d) true
        | None => None
        end
  end.

Definition float_of_str (s : string) : option pyfloat :=
  match s with
  | String "-" s' => option_map (fun q => Fin (Qred (- q))) (int s' 0 false)
  | String "+" s' => option_map Fin (int s' 0 false)
  | _ => option_map Fin (int s 0 false)
  end.

End Decimal.

(** ** The data model ([graph/multi_perspective_state.py]) *)

Inductive Perspective : Type := ECONOMIC | ENVIRONMENTAL | TECHNOLOGICAL.

Inductive ModelType : Type := CLAUDE | GPT | GROK | JUDGE.

Module PerspectiveResponse.
Record t : Type := mk {
  perspective : Perspective;
  content : string;
  reasoning : string;
  confidence : pyfloat
}.
End PerspectiveResponse.

Module BaselineResponse.
Record t : Type := mk {
  model_type : ModelType;
  content : string;
  confidence : pyfloat
}.
End BaselineResponse.

Module MultiPerspectiveAnalysis.
Record t : Type := mk {
  model_type : ModelType;
  step1_economic : option PerspectiveResponse.t;
  step2_economic_environmental : string;
  step3_complete_synthesis : string;
  final_confidence : pyfloat;
  reasoning_evolution : list string
}.

(** The class defaults of the fields that a constructor call leaves out. *)
Definition new (m : ModelType) (step1 : PerspectiveResponse.t)
    (evolution : list string) : t :=
  mk m (Some step1) EmptyString EmptyString (Fin 0) evolution.
End MultiPerspectiveAnalysis.

Module InputPackage.
Record t : Type := mk {
  query : string;
  perspective_1 : string;
  perspective_2 : string;
  perspective_3 : string;
  universal_cot : string;
  perspective_specific_cots : gmap string string
}.

(** [InputPackage.validate_inputs]: raises [ValueError("Query is required")]
    when the query is empty after [strip]. *)
Definition validate_inputs (self : t) : outcome bool :=
  if PyStr.truthy (PyStr.strip (query self)) then Returned true
  else Raised "Query is required".
End InputPackage.

(** [MultiPerspectiveEnsembleState].  The free-form dictionaries
    [baseline_comparison], [quality_analysis] and
    [methodology_effectiveness] and the counter [total_tokens_used] are
    written but never read by the code modelled here, and are left out. *)
Module State.
Record t : Type := mk {
  input_package : InputPackage.t;
  claude_baseline : option BaselineResponse.t;
  gpt_baseline : option BaselineResponse.t;
  grok_baseline : option BaselineResponse.t;
  claude_analysis : option MultiPerspectiveAnalysis.t;
  gpt_analysis : option MultiPerspectiveAnalysis.t;
  grok_analysis : option MultiPerspectiveAnalysis.t;
  judge_initial_assessment : string;
  judge_step1_assessment : string;
  judge_step2_assessment : string;
  judge_step3_assessment : string;
  judge_analysis : string;
  agreements_disagreements : string;
  best_insights : string;
  final_synthesis : string;
  methodology_assessment : string;
  quality_scores : gmap string pyfloat;
  improvement_metrics : gmap string pyfloat;
  baselines_complete : bool;
  step1_complete : bool;
  step2_complete : bool;
  step3_complete : bool;
  judging_complete : bool;
  logging_complete : bool;
  processing_time : pyfloat
}.

(** The state a run starts from: every field but the input package has
    its class default. *)
Definition initial (p : InputPackage.t) : t :=
  mk p None None None None None None
     EmptyString EmptyString EmptyString EmptyString
     EmptyString EmptyString EmptyString EmptyString EmptyString
     ∅ ∅ false false false false false false (Fin 0).

(** One entry of the [updates] dictionary that a node returns. *)
Inductive update : Type :=
| U_claude_baseline (v : BaselineResponse.t)
| U_gpt_baseline (v : BaselineResponse.t)
| U_grok_baseline (v : BaselineResponse.t)
| U_claude_analysis (v : MultiPerspectiveAnalysis.t)
| U_gpt_analysis (v : MultiPerspectiveAnalysis.t)
| U_grok_analysis (v : MultiPerspectiveAnalysis.t)
| U_judge_initial_assessment (v : string)
| U_judge_step1_assessment (v : string)
| U_judge_step2_assessment (v : string)
| U_judge_step3_assessment (v : string)
| U_judge_analysis (v : string)
| U_agreements_disagreements (v : string)
| U_best_insights (v : string)
| U_final_synthesis (v : string)
| U_methodology_assessment (v : string)
| U_quality_scores (v : gmap string pyfloat)
| U_improvement_metrics (v : gmap string pyfloat)
| U_baselines_complete (v : bool)
| U_step1_complete (v : bool)
| U_step2_complete (v : bool)
| U_step3_complete (v : bool)
| U_judging_complete (v : bool)
| U_logging_complete (v : bool).

(** The graph merges an entry into the state by overwriting the field. *)
Definition apply_update (st : t) (u : update) : t :=
  match u with
  | U_claude_baseline v =>
      mk (input_package st) (Some v) (gpt_baseline st) (grok_baseline st)
         (claude_analysis st) (gpt_analysis st) (grok_analysis st)
         (judge_initial_assessment st) (judge_step1_assessment st)
         (judge_step2_assessment st) (judge_step3_assessment st)
         (judge_analysis st) (agreements_disagreements st)
         (best_insights st) (final_synthesis st)
         (methodology_assessment st) (quality_scores st)
         (improvement_metrics st) (baselines_complete st)
         (step1_complete st) (step2_complete st) (step3_complete st)
         (judging_complete st) (logging_complete st) (processing_time st)
  | U_gpt_baseline v =>
      mk (input_package st) (claude_baseline st) (Some v) (grok_baseline st)
         (claude_analysis st) (gpt_analysis st) (grok_analysis st)
         (judge_initial_assessment st) (judge_step1_assessment st)
         (judge_step2_assessment st) (judge_step3_assessment st)
         (judge_analysis st) (agreements_disagreements st)
         (best_insights st) (final_synthesis st)
         (methodology_assessment st) (quality_scores st)
         (improvement_metrics st) (baselines_complete st)
         (step1_complete st) (step2_complete st) (step3_complete st)
         (judging_complete st) (logging_complete st) (processing_time st)
  | U_grok_baseline v =>
      mk (input_package st) (claude_baseline st) (gpt_baseline st) (Some v)
         (claude_analysis st) (gpt_analysis st) (grok_analysis st)
         (judge_initial_assessment st) (judge_step1_assessment st)
         (judge_step2_assessment st) (judge_step3_assessment st)
         (judge_analysis st) (agreements_disagreements st)
         (best_insights st) (final_synthesis st)
         (methodology_assessment st) (quality_scores st)
         (improvement_metrics st) (baselines_complete st)
         (step1_complete st) (step2_complete st) (step3_complete st)
         (judging_complete st) (logging_complete st) (processing_time st)
  | U_claude_analysis v =>
      mk (input_package st) (claude_baseline st) (gpt_baseline st)
         (grok_baseline st) (Some v) (gpt_analysis st) (grok_analysis st)
         (judge_initial_assessment st) (judge_step1_assessment st)
         (judge_step2_assessment st) (judge_step3_assessment st)
         (judge_analysis st) (agreements_disagreements st)
         (best_insights st) (final_synthesis st)
         (methodology_assessment st) (quality_scores st)
         (improvement_metrics st) (baselines_complete st)
         (step1_complete st) (step2_complete st) (step3_complete st)
         (judging_complete st) (logging_complete st) (processing_time st)
  | U_gpt_analysis v =>
      mk (input_package st) (claude_baseline st) (gpt_baseline st)
         (grok_baseline st) (claude_analysis st) (Some v) (grok_analysis st)
         (judge_initial_assessment st) (judge_step1_assessment st)
         (judge_step2_assessment st) (judge_step3_assessment st)
         (judge_analysis st) (agreements_disagreements st)
         (best_insights st) (final_synthesis st)
         (methodology_assessment st) (quality_scores st)
         (improvement_metrics st) (baselines_complete st)
         (step1_complete st) (step2_complete st) (step3_complete st)
         (judging_complete st) (logging_complete st) (processing_time st)
  | U_grok_analysis v =>
      mk (input_package st) (claude_baseline st) (gpt_baseline st)
         (grok_baseline st) (claude_analysis st) (gpt_analysis st) (Some v)
         (judge_initial_assessment st) (judge_step1_assessment st)
         (judge_step2_assessment st) (judge_step3_assessment st)
         (judge_analysis st) (agreements_disagreements st)
         (best_insights st) (final_synthesis st)
         (methodology_assessment st) (quality_scores st)
         (improvement_metrics st) (baselines_complete st)
         (step1_complete st) (step2_complete st) (step3_complete st)
         (judging_complete st) (logging_complete st) (processing_time st)
  | U_judge_initial_assessment v =>
      mk (input_package st) (claude_baseline st) (gpt_baseline st)
         (grok_baseline st) (claude_analysis st) (gpt_analysis st)
         (grok_analysis st) v (judge_step1_assessment st)
         (judge_step2_assessment st) (judge_step3_assessment st)
         (judge_analysis st) (agreements_disagreements st)
         (best_insights st) (final_synthesis st)
         (methodology_assessment st) (quality_scores st)
         (improvement_metrics st) (baselines_complete st)
         (step1_complete st) (step2_complete st) (step3_complete st)
         (judging_complete st) (logging_complete st) (processing_time st)
  | U_judge_step1_assessment v =>
      mk (input_package st) (claude_baseline st) (gpt_baseline st)
         (grok_baseline st) (claude_analysis st) (gpt_analysis st)
         (grok_analysis st) (judge_initial_assessment st) v
         (judge_step2_assessment st) (judge_step3_assessment st)
         (judge_analysis st) (agreements_disagreements st)
         (best_insights st) (final_synthesis st)
         (methodology_assessment st) (quality_scores st)
         (improvement_metrics st) (baselines_complete st)
         (step1_complete st) (step2_complete st) (step3_complete st)
         (judging_complete st) (logging_complete st) (processing_time st)
  | U_judge_step2_assessment v =>
      mk (input_package st) (claude_baseline st) (gpt_baseline st)
         (grok_baseline st) (claude_analysis st) (gpt_analysis st)
         (grok_analysis st) (judge_initial_assessment st)
         (judge_step1_assessment st) v (judge_step3_assessment st)
         (judge_analysis st) (agreements_disagreements st)
         (best_insights st) (final_synthesis st)
         (methodology_assessment st) (quality_scores st)
         (improvement_metrics st) (baselines_complete st)
         (step1_complete st) (step2_complete st) (step3_complete st)
         (judging_complete st) (logging_complete st) (processing_time st)
  | U_judge_step3_assessment v =>
      mk (input_package st) (claude_baseline st) (gpt_baseline st)
         (grok_baseline st) (claude_analysis st) (gpt_analysis st)
         (grok_analysis st) (judge_initial_assessment st)
         (judge_step1_assessment st) (judge_step2_assessment st) v
         (judge_analysis st) (agreements_disagreements st)
         (best_insights st) (final_synthesis st)
         (methodology_assessment st) (quality_scores st)
         (improvement_metrics st) (baselines_complete st)
         (step1_complete st) (step2_complete st) (step3_complete st)
         (judging_complete st) (logging_complete st) (processing_time st)
  | U_judge_analysis v =>
      mk (input_package st) (claude_baseline st) (gpt_baseline st)
         (grok_baseline st) (claude_analysis st) (gpt_analysis st)
         (grok_analysis st) (judge_initial_assessment st)
         (judge_step1_assessment st) (judge_step2_assessment st)
         (judge_step3_assessment st) v (agreements_disagreements st)
         (best_insights st) (final_synthesis st)
         (methodology_assessment st) (quality_scores st)
         (improvement_metrics st) (baselines_complete st)
         (step1_complete st) (step2_complete st) (step3_complete st)
         (judging_complete st) (logging_complete st) (processing_time st)
  | U_agreements_disagreements v =>
      mk (input_package st) (claude_baseline st) (gpt_baseline st)
         (grok_baseline st) (claude_analysis st) (gpt_analysis st)
         (grok_analysis st) (judge_initial_assessment st)
         (judge_step1_assessment st) (judge_step2_assessment st)
         (judge_step3_assessment st) (judge_analysis st) v
         (best_insights st) (final_synthesis st)
         (methodology_assessment st) (quality_scores st)
         (improvement_metrics st) (baselines_complete st)
         (step1_complete st) (step2_complete st) (step3_complete st)
         (judging_complete st) (logging_complete st) (processing_time st)
  | U_best_insights v =>
      mk (input_package st) (claude_baseline st) (gpt_baseline st)
         (grok_baseline st) (claude_analysis st) (gpt_analysis st)
         (grok_analysis st) (judge_initial_assessment st)
         (judge_step1_assessment st) (judge_step2_assessment st)
         (judge_step3_assessment st) (judge_analysis st)
         (agreements_disagreements st) v (final_synthesis st)
         (methodology_assessment st) (quality_scores st)
         (improvement_metrics st) (baselines_complete st)
         (step1_complete st) (step2_complete st) (step3_complete st)
         (judging_complete st) (logging_complete st) (processing_time st)
  | U_final_synthesis v =>
      mk (input_package st) (claude_baseline st) (gpt_baseline st)
         (grok_baseline st) (claude_analysis st) (gpt_analysis st)
         (grok_analysis st) (judge_initial_assessment st)
         (judge_step1_assessment st) (judge_step2_assessment st)
         (judge_step3_assessment st) (judge_analysis st)
         (agreements_disagreements st) (best_insights st) v
         (methodology_assessment st) (quality_scores st)
         (improvement_metrics st) (baselines_complete st)
         (step1_complete st) (step2_complete st) (step3_complete st)
         (judging_complete st) (logging_complete st) (processing_time st)
  | U_methodology_assessment v =>
      mk (input_package st) (claude_baseline st) (gpt_baseline st)
         (grok_baseline st) (claude_analysis st) (gpt_analysis st)
         (grok_analysis st) (judge_initial_assessment st)
         (judge_step1_assessment st) (judge_step2_assessment st)
         (judge_step3_assessment st) (judge_analysis st)
         (agreements_disagreements st) (best_insights st)
         (final_synthesis st) v (quality_scores st)
         (improvement_metrics st) (baselines_complete st)
         (step1_complete st) (step2_complete st) (step3_complete st)
         (judging_complete st) (logging_complete st) (processing_time st)
  | U_quality_scores v =>
      mk (input_package st) (claude_baseline st) (gpt_baseline st)
         (grok_baseline st) (claude_analysis st) (gpt_analysis st)
         (grok_analysis st) (judge_initial_assessment st)
         (judge_step1_assessment st) (judge_step2_assessment st)
         (judge_step3_assessment st) (judge_analysis st)
         (agreements_disagreements st) (best_insights st)
         (final_synthesis st) (methodology_assessment st) v
         (improvement_metrics st) (baselines_complete st)
         (step1_complete st) (step2_complete st) (step3_complete st)
         (judging_complete st) (logging_complete st) (processing_time st)
  | U_improvement_metrics v =>
      mk (input_package st) (claude_baseline st) (gpt_baseline st)
         (grok_baseline st) (claude_analysis st) (gpt_analysis st)
         (grok_analysis st) (judge_initial_assessment st)
         (judge_step1_assessment st) (judge_step2_assessment st)
         (judge_step3_assessment st) (judge_analysis st)
         (agreements_disagreements st) (best_insights st)
         (final_synthesis st) (methodology_assessment st)
         (quality_scores st) v (baselines_complete st) (step1_complete st)
         (step2_complete st) (step3_complete st) (judging_complete st)
         (logging_complete st) (processing_time st)
  | U_baselines_complete v =>
      mk (input_package st) (claude_baseline st) (gpt_baseline st)
         (grok_baseline st) (claude_analysis st) (gpt_analysis st)
         (grok_analysis st) (judge_initial_assessment st)
         (judge_step1_assessment st) (judge_step2_assessment st)
         (judge_step3_assessment st) (judge_analysis st)
         (agreements_disagreements st) (best_insights st)
         (final_synthesis st) (methodology_assessment st)
         (quality_scores st) (improvement_metrics st) v
         (step1_complete st) (step2_complete st) (step3_complete st)
         (judging_complete st) (logging_complete st) (processing_time st)
  | U_step1_complete v =>
      mk (input_package st) (claude_baseline st) (gpt_baseline st)
         (grok_baseline st) (claude_analysis st) (gpt_analysis st)
         (grok_analysis st) (judge_initial_assessment st)
         (judge_step1_assessment st) (judge_step2_assessment st)
         (judge_step3_assessment st) (judge_analysis st)
         (agreements_disagreements st) (best_insights st)
         (final_synthesis st) (methodology_assessment st)
         (quality_scores st) (improvement_metrics st)
         (baselines_complete st) v (step2_complete st) (step3_complete st)
         (judging_complete st) (logging_complete st) (processing_time st)
  | U_step2_complete v =>
      mk (input_package st) (claude_baseline st) (gpt_baseline st)
         (grok_baseline st) (claude_analysis st) (gpt_analysis st)
         (grok_analysis st) (judge_initial_assessment st)
         (judge_step1_assessment st) (judge_step2_assessment st)
         (judge_step3_assessment st) (judge_analysis st)
         (agreements_disagreements st) (best_insights st)
         (final_synthesis st) (methodology_assessment st)
         (quality_scores st) (improvement_metrics st)
         (baselines_complete st) (step1_complete st) v (step3_complete st)
         (judging_complete st) (logging_complete st) (processing_time st)
  | U_step3_complete v =>
      mk (input_package st) (claude_baseline st) (gpt_baseline st)
         (grok_baseline st) (claude_analysis st) (gpt_analysis st)
         (grok_analysis st) (judge_initial_assessment st)
         (judge_step1_assessment st) (judge_step2_assessment st)
         (judge_step3_assessment st) (judge_analysis st)
         (agreements_disagreements st) (best_insights st)
         (final_synthesis st) (methodology_assessment st)
         (quality_scores st) (improvement_metrics st)
         (baselines_complete st) (step1_complete st) (step2_complete st) v
         (judging_complete st) (logging_complete st) (processing_time st)
  | U_judging_complete v =>
      mk (input_package st) (claude_baseline st) (gpt_baseline st)
         (grok_baseline st) (claude_analysis st) (gpt_analysis st)
         (grok_analysis st) (judge_initial_assessment st)
         (judge_step1_assessment st) (judge_step2_assessment st)
         (judge_step3_assessment st) (judge_analysis st)
         (agreements_disagreements st) (best_insights st)
         (final_synthesis st) (methodology_assessment st)
         (quality_scores st) (improvement_metrics st)
         (baselines_complete st) (step1_complete st) (step2_complete st)
         (step3_complete st) v (logging_complete st) (processing_time st)
  | U_logging_complete v =>
      mk (input_package st) (claude_baseline st) (gpt_baseline st)
         (grok_baseline st) (claude_analysis st) (gpt_analysis st)
         (grok_analysis st) (judge_initial_assessment st)
         (judge_step1_assessment st) (judge_step2_assessment st)
         (judge_step3_assessment st) (judge_analysis st)
         (agreements_disagreements st) (best_insights st)
         (final_synthesis st) (methodology_assessment st)
         (quality_scores st) (improvement_metrics st)
         (baselines_complete st) (step1_complete st) (step2_complete st)
         (step3_complete st) (judging_complete st) v (processing_time st)
  end.

(** Merging a whole [updates] dictionary. *)
Definition merge (st : t) (updates : list update) : t :=
  fold_left apply_update updates st.

End State.

(** ** The stage nodes ([graph/multi_perspective_nodes.py]) *)

(** The stages in which a backend is called. *)
Inductive stage : Type := BASELINE | STEP1 | STEP2 | STEP3 | JUDGE_EVALUATION.

(** What a run does to the outside world. *)
Inductive effect : Type :=
| Invoke (m : ModelType) (s : stage)
| LogResult (query final_synthesis : string).

Module Pipeline.
Import PyStr State.

(** [if not isinstance(r, Exception): updates[key] = r], for one result
    of [asyncio.gather(..., return_exceptions=True)]. *)
Definition on_value {A : Type} (key : A -> update) (r : outcome A) : list update :=
  match r with
  | Returned a => [key a]
  | Raised _ => []
  end.

Definition set_step2 (a : MultiPerspectiveAnalysis.t) (v : string)
    : MultiPerspectiveAnalysis.t :=
  MultiPerspectiveAnalysis.mk
    (MultiPerspectiveAnalysis.model_type a)
    (MultiPerspectiveAnalysis.step1_economic a)
    v
    (MultiPerspectiveAnalysis.step3_complete_synthesis a)
    (MultiPerspectiveAnalysis.final_confidence a)
    (MultiPerspectiveAnalysis.reasoning_evolution a
       ++ ["Step 2: Environmental comparison completed"]).

Definition set_step3 (a : MultiPerspectiveAnalysis.t) (synthesis : string)
    (confidence : pyfloat) : MultiPerspectiveAnalysis.t :=
  MultiPerspectiveAnalysis.mk
    (MultiPerspectiveAnalysis.model_type a)
    (MultiPerspectiveAnalysis.step1_economic a)
    (MultiPerspectiveAnalysis.step2_economic_environmental a)
    synthesis
    confidence
    (MultiPerspectiveAnalysis.reasoning_evolution a
       ++ ["Step 3: Complete synthesis with technological perspective"]).

(** [state.<model>_analysis] and [state.<model>_baseline] *)
Definition analysis_of (m : ModelType) (st : State.t) : option MultiPerspectiveAnalysis.t :=
  match m with
  | CLAUDE => claude_analysis st
  | GPT => gpt_analysis st
  | GROK => grok_analysis st
  | JUDGE => None
  end.

Definition baseline_of (m : ModelType) (st : State.t) : option BaselineResponse.t :=
  match m with
  | CLAUDE => claude_baseline st
  | GPT => gpt_baseline st
  | GROK => grok_baseline st
  | JUDGE => None
  end.

Section Run.

(** The builtin [float]. *)
Variable float_of_str : string -> option pyfloat.

(** The outcome of the call that model [m] receives in stage [s]: the
    text of the response, or the exception of the client. *)
Variable backend : ModelType -> stage -> outcome string.

Definition invoke (m : ModelType) (s : stage) : outcome string * list effect :=
  (backend m s, [Invoke m s]).

(** [_get_baseline_claude], [_get_baseline_gpt], [_get_baseline_grok] *)
Definition _get_baseline (m : ModelType) : outcome BaselineResponse.t * list effect :=
  let '(response, fx) := invoke m BASELINE in
  (Returned match response with
            | Returned content => BaselineResponse.mk m content (Fin (1 # 2))
            | Raised e => BaselineResponse.mk m ("Error: " +:+ e) (Fin 0)
            end, fx).

(** The judge's text, or the error text of the [except] branch. *)
Definition judge_text (s : stage) (error_prefix : string) : string * list effect :=
  let '(response, fx) := invoke JUDGE s in
  (match response with
   | Returned content => content
   | Raised e => error_prefix +:+ e
   end, fx).

Definition baseline_analysis_node (st : State.t) : list update * list effect :=
  let '(claude_baseline, fx1) := _get_baseline CLAUDE in
  let '(gpt_baseline, fx2) := _get_baseline GPT in
  let '(grok_baseline, fx3) := _get_baseline GROK in
  let '(judge_initial, fx4) := judge_text BASELINE "Error in initial judge assessment: " in
  ([U_baselines_complete true]
     ++ on_value U_claude_baseline claude_baseline
     ++ on_value U_gpt_baseline gpt_baseline
     ++ on_value U_grok_baseline grok_baseline
     ++ [U_judge_initial_assessment judge_initial],
   fx1 ++ fx2 ++ fx3 ++ fx4).

(** [_analyze_perspective_claude], [_analyze_perspective_gpt],
    [_analyze_perspective_grok] *)
Definition _analyze_perspective (m : ModelType) (perspective : Perspective)
    : outcome PerspectiveResponse.t * list effect :=
  let '(response, fx) := invoke m STEP1 in
  (Returned match response with
            | Returned content =>
                PerspectiveResponse.mk perspective
                  (Nodes._extract_section content "PERSPECTIVE_ANALYSIS")
                  (Nodes._extract_section content "REASONING")
                  (Nodes._extract_confidence float_of_str content)
            | Raised e =>
                PerspectiveResponse.mk perspective ("Error: " +:+ e)
                  "Error occurred" (Fin 0)
            end, fx).

Definition new_analysis (m : ModelType) (r : PerspectiveResponse.t)
    : MultiPerspectiveAnalysis.t :=
  MultiPerspectiveAnalysis.new m r ["Step 1: Economic analysis completed"].

Definition step1_economic_analysis_node (st : State.t) : list update * list effect :=
  let '(r0, fx0) := _analyze_perspective CLAUDE ECONOMIC in
  let '(r1, fx1) := _analyze_perspective GPT ECONOMIC in
  let '(r2, fx2) := _analyze_perspective GROK ECONOMIC in
  let '(judge_step1, fx3) := judge_text STEP1 "Error in Step 1 judge assessment: " in
  ([U_step1_complete true]
     ++ on_value (fun r => U_claude_analysis (new_analysis CLAUDE r)) r0
     ++ on_value (fun r => U_gpt_analysis (new_analysis GPT r)) r1
     ++ on_value (fun r => U_grok_analysis (new_analysis GROK r)) r2
     ++ [U_judge_step1_assessment judge_step1],
   fx0 ++ fx1 ++ fx2 ++ fx3).

(** [_step2_analysis_claude], [_step2_analysis_gpt], [_step2_analysis_grok]:
    no call is made without a stage-1 analysis. *)
Definition _step2_analysis (m : ModelType) (st : State.t) : outcome string * list effect :=
  match analysis_of m st with
  | Some a =>
      match MultiPerspectiveAnalysis.step1_economic a with
      | Some _ =>
          let '(response, fx) := invoke m STEP2 in
          (Returned match response with
                    | Returned content => content
                    | Raised e => "Error in Step 2 analysis: " +:+ e
                    end, fx)
      | None => (Returned "No economic analysis available for comparison", [])
      end
  | None => (Returned "No economic analysis available for comparison", [])
  end.

(** [if not isinstance(r, Exception) and state.<model>_analysis: ...] *)
Definition on_analysis {A : Type} (key : MultiPerspectiveAnalysis.t -> update)
    (change : MultiPerspectiveAnalysis.t -> A -> MultiPerspectiveAnalysis.t)
    (r : outcome A) (analysis : option MultiPerspectiveAnalysis.t) : list update :=
  match r, analysis with
  | Returned v, Some a => [key (change a v)]
  | _, _ => []
  end.

Definition step2_environmental_analysis_node (st : State.t) : list update * list effect :=
  let '(r0, fx0) := _step2_analysis CLAUDE st in
  let '(r1, fx1) := _step2_analysis GPT st in
  let '(r2, fx2) := _step2_analysis GROK st in
  let '(judge_step2, fx3) := judge_text STEP2 "Error in Step 2 judge assessment: " in
  ([U_step2_complete true]
     ++ on_analysis U_claude_analysis set_step2 r0 (claude_analysis st)
     ++ on_analysis U_gpt_analysis set_step2 r1 (gpt_analysis st)
     ++ on_analysis U_grok_analysis set_step2 r2 (grok_analysis st)
     ++ [U_judge_step2_assessment judge_step2],
   fx0 ++ fx1 ++ fx2 ++ fx3).

(** The dictionary [{"synthesis": ..., "confidence": ...}]. *)
Record synthesis_result : Type := mk_synthesis {
  synthesis : string;
  confidence : pyfloat
}.

(** [_step3_synthesis_claude], [_step3_synthesis_gpt], [_step3_synthesis_grok] *)
Definition _step3_synthesis (m : ModelType) (st : State.t)
    : outcome synthesis_result * list effect :=
  let '(response, fx) := invoke m STEP3 in
  (Returned match response with
            | Returned content =>
                mk_synthesis
                  (Nodes._extract_section content "COMPREHENSIVE_SYNTHESIS")
                  (Nodes._extract_confidence float_of_str content)
            | Raised e =>
                mk_synthesis ("Error in final synthesis: " +:+ e) (Fin 0)
            end, fx).

Definition set_step3_result (a : MultiPerspectiveAnalysis.t) (r : synthesis_result)
    : MultiPerspectiveAnalysis.t :=
  set_step3 a (synthesis r) (confidence r).

Definition step3_technological_synthesis_node (st : State.t) : list update * list effect :=
  let '(r0, fx0) := _step3_synthesis CLAUDE st in
  let '(r1, fx1) := _step3_synthesis GPT st in
  let '(r2, fx2) := _step3_synthesis GROK st in
  let '(judge_step3, fx3) := judge_text STEP3 "Error in Step 3 judge assessment: " in
  ([U_step3_complete true]
     ++ on_analysis U_claude_analysis set_step3_result r0 (claude_analysis st)
     ++ on_analysis U_gpt_analysis set_step3_result r1 (gpt_analysis st)
     ++ on_analysis U_grok_analysis set_step3_result r2 (grok_analysis st)
     ++ [U_judge_step3_assessment judge_step3],
   fx0 ++ fx1 ++ fx2 ++ fx3).

Definition judge_evaluation_node (st : State.t) : list update * list effect :=
  let '(response, fx) := invoke JUDGE JUDGE_EVALUATION in
  (match response with
   | Returned content =>
       let scores : gmap string pyfloat :=
         <["grok" := Nodes._extract_judge_score float_of_str content "GROK_SCORE"]>
           (<["gpt" := Nodes._extract_judge_score float_of_str content "GPT_SCORE"]>
              (<["claude" := Nodes._extract_judge_score float_of_str content "CLAUDE_SCORE"]> ∅)) in
       [U_judge_analysis (Nodes._extract_judge_section content "FINAL_EVALUATION");
        U_agreements_disagreements (Nodes._extract_judge_section content "AGREEMENTS_DISAGREEMENTS");
        U_best_insights (Nodes._extract_judge_section content "BEST_INSIGHTS");
        U_final_synthesis (Nodes._extract_judge_section content "FINAL_SYNTHESIS");
        U_methodology_assessment (Nodes._extract_judge_section content "METHODOLOGY_ASSESSMENT");
        U_quality_scores scores;
        U_judging_complete true]
   | Raised e =>
       [U_judge_analysis ("Error in judge evaluation: " +:+ e);
        U_final_synthesis "Unable to complete judge evaluation";
        U_judging_complete true]
   end, fx).

(** The length-based comparison of one backend:
    [min(len(ensemble_synthesis) / max(len(baseline.content), 1), 5.0)]
    stored under [key], when the baseline is there.  [None] is the
    [ZeroDivisionError] of the division. *)
Definition length_improvement (key : string) (ensemble_synthesis : string)
    (baseline : option BaselineResponse.t)
    (improvement_metrics : gmap string pyfloat) : option (gmap string pyfloat) :=
  match baseline with
  | Some b =>
      improvement ←
        PyFloat.div (PyFloat.of_nat (String.length ensemble_synthesis))
          (PyFloat.of_nat (Nat.max (String.length (BaselineResponse.content b)) 1));
      Some (<[key := PyFloat.min improvement (Fin 5)]> improvement_metrics)
  | None => Some improvement_metrics
  end.

(** The value stored by [length_improvement], with the quotient of the
    two lengths written as a rational. *)
Definition capped_ratio (ensemble_synthesis : string) (b : BaselineResponse.t) : pyfloat :=
  PyFloat.min
    (Fin (Qred (inject_Z (Z.of_nat (String.length ensemble_synthesis))
                / inject_Z (Z.of_nat
                    (Nat.max (String.length (BaselineResponse.content b)) 1)))))
    (Fin 5).

(** A list built by [if x: xs.append(f(x))] over the three backends. *)
Definition present {A B : Type} (f : A -> B) (xs : list (option A)) : list B :=
  omap (fun x => f <$> x) xs.

(** [sum(xs) / len(xs)] *)
Definition average (xs : list pyfloat) : option pyfloat :=
  PyFloat.div (PyFloat.sum xs) (PyFloat.of_nat (List.length xs)).

(** The key of a backend's entry. *)
Definition length_key (m : ModelType) : string :=
  match m with
  | CLAUDE => "claude_length_improvement"
  | GPT => "gpt_length_improvement"
  | GROK => "grok_length_improvement"
  | JUDGE => "judge_length_improvement"
  end.

Definition length_keys : list string :=
  [length_key CLAUDE; length_key GPT; length_key GROK].

(** [performance_logging_node], "Detailed comparison metrics": the
    length-based entries, made only when there is a final synthesis. *)
Definition length_metrics (st : State.t) : option (gmap string pyfloat) :=
  let ensemble_synthesis := final_synthesis st in
  if truthy (final_synthesis st) then
    m1 ← length_improvement (length_key CLAUDE)
           ensemble_synthesis (claude_baseline st) ∅;
    m2 ← length_improvement (length_key GPT)
           ensemble_synthesis (gpt_baseline st) m1;
    length_improvement (length_key GROK)
      ensemble_synthesis (grok_baseline st) m2
  else Some ∅.

(** [performance_logging_node], "Calculate confidence improvements". *)
Definition confidence_metrics (st : State.t)
    (improvement_metrics : gmap string pyfloat) : option (gmap string pyfloat) :=
  let final_confidences :=
    present MultiPerspectiveAnalysis.final_confidence
      [claude_analysis st; gpt_analysis st; grok_analysis st] in
  let baseline_confidences :=
    present BaselineResponse.confidence
      [claude_baseline st; gpt_baseline st; grok_baseline st] in
  match final_confidences, baseline_confidences with
  | _ :: _, _ :: _ =>
      avg_final_confidence ← average final_confidences;
      avg_baseline_confidence ← average baseline_confidences;
      Some (<["average_baseline_confidence" := avg_baseline_confidence]>
              (<["average_final_confidence" := avg_final_confidence]>
                 (<["confidence_improvement" :=
                      PyFloat.sub avg_final_confidence avg_baseline_confidence]>
                    improvement_metrics)))
  | _, _ => Some improvement_metrics
  end.

(** [performance_logging_node], "Calculate overall improvement metrics":
    the average of the values whose key contains [length_improvement],
    which are the entries of the three backends. *)
Definition overall_metrics (improvement_metrics : gmap string pyfloat)
    : option (gmap string pyfloat) :=
  match omap (fun k => improvement_metrics !! k) length_keys with
  | [] => Some improvement_metrics
  | length_improvements =>
      avg ← average length_improvements;
      Some (<["average_length_improvement" := avg]> improvement_metrics)
  end.

(** [performance_logging_node]: the entries of [improvement_metrics], the
    record handed to the run logger, and the updates.  [None] is an
    exception escaping the node. *)
Definition performance_logging_node (st : State.t)
    : option (list update) * list effect :=
  let improvement_metrics :=
    m0 ← length_metrics st;
    m3 ← confidence_metrics st m0;
    overall_metrics m3 in
  match improvement_metrics with
  | Some m =>
      (Some [U_improvement_metrics m; U_logging_complete true],
       [LogResult (InputPackage.query (input_package st)) (final_synthesis st)])
  | None => (None, [])
  end.

End Run.
End Pipeline.

(** ** The orchestrator ([graph/multi_perspective_ensemble_graph.py]) *)

(** A value of a result dictionary. *)
Inductive pyval : Type :=
| VStr (s : string)
| VFloat (x : pyfloat).

Module RunResult.
(** The dictionary of a completed run.  Its entries [baseline_responses],
    [multi_perspective_analyses], [judge_evaluation],
    [performance_comparison] and [completion_status] are read off
    [final_state] field by field; [multi_perspective_advantage] is
    computed from it. *)
Record t : Type := mk {
  query : string;
  final_state : State.t;
  multi_perspective_advantage : gmap string pyfloat;
  processing_time : pyfloat
}.
End RunResult.

Inductive result : Type :=
| Completed (r : RunResult.t)
| Failed (d : gmap string pyval).

Module MultiPerspectiveEnsembleGraph.
Import PyStr State Pipeline.

(** [_calculate_advantage_metrics], "Compare synthesis lengths". *)
Definition comprehensiveness_metrics (final_state : State.t)
    : option (gmap string pyfloat) :=
  let synthesis_lengths : list pyfloat :=
    omap (fun a : option MultiPerspectiveAnalysis.t =>
            a ≫= fun a =>
              let s := MultiPerspectiveAnalysis.step3_complete_synthesis a in
              if truthy s then Some (PyFloat.of_nat (String.length s)) else None)
         [claude_analysis final_state; gpt_analysis final_state;
          grok_analysis final_state] in
  let baseline_lengths : list pyfloat :=
    present (fun b => PyFloat.of_nat (String.length (BaselineResponse.content b)))
      [claude_baseline final_state; gpt_baseline final_state;
       grok_baseline final_state] in
  match synthesis_lengths, baseline_lengths with
  | _ :: _, _ :: _ =>
      avg_synthesis_length ← average synthesis_lengths;
      avg_baseline_length ← average baseline_lengths;
      improvement ← PyFloat.div avg_synthesis_length
                      (PyFloat.max avg_baseline_length (Fin 1));
      Some (<["average_baseline_length" := avg_baseline_length]>
              (<["average_synthesis_length" := avg_synthesis_length]>
                 (<["comprehensiveness_improvement" := improvement]> ∅)))
  | _, _ => Some ∅
  end.

(** [_calculate_advantage_metrics]; [None] is an exception.  The second
    half, "Calculate confidence improvements", compares with the constant
    list [[0.5, 0.5, 0.5]]. *)
Definition _calculate_advantage_metrics (final_state : State.t)
    : option (gmap string pyfloat) :=
  metrics ← comprehensiveness_metrics final_state;
  let final_confidences :=
    present MultiPerspectiveAnalysis.final_confidence
      [claude_analysis final_state; gpt_analysis final_state;
       grok_analysis final_state] in
  let baseline_confidences := [Fin (1 # 2); Fin (1 # 2); Fin (1 # 2)] in
  match final_confidences with
  | _ :: _ =>
      avg_final_confidence ← average final_confidences;
      avg_baseline_confidence ← average baseline_confidences;
      Some (<["average_final_confidence" := avg_final_confidence]>
              (<["confidence_improvement" :=
                   PyFloat.sub avg_final_confidence avg_baseline_confidence]> metrics))
  | [] => Some metrics
  end.

(** [validate_and_prepare_inputs] *)
Definition validate_and_prepare_inputs
    (query perspective_1 perspective_2 perspective_3 universal_cot
       chain_of_thought_1 chain_of_thought_2 chain_of_thought_3 : string)
    : outcome InputPackage.t :=
  let perspective_specific_cots : gmap string string :=
    <[perspective_3 := chain_of_thought_3]>
      (<[perspective_2 := chain_of_thought_2]>
         (<[perspective_1 := chain_of_thought_1]> ∅)) in
  let input_package :=
    InputPackage.mk query perspective_1 perspective_2 perspective_3
      universal_cot perspective_specific_cots in
  match InputPackage.validate_inputs input_package with
  | Returned _ => Returned input_package
  | Raised e => Raised e
  end.

Section Run.

Variable float_of_str : string -> option pyfloat.
Variable backend : ModelType -> stage -> outcome string.

(** One node of the compiled graph: run it on the state, merge its
    updates, and record what it did. *)
Definition run_node (node : State.t -> list update * list effect)
    (acc : State.t * list effect) : State.t * list effect :=
  let '(st, fx) := acc in
  let '(updates, fx') := node st in
  (merge st updates, fx ++ fx').

(** [self.graph.ainvoke]: the six nodes along the edges of [_build_graph]. *)
Definition ainvoke (initial_state : State.t) : outcome State.t * list effect :=
  let acc := (initial_state, []) in
  let acc := run_node (baseline_analysis_node backend) acc in
  let acc := run_node (step1_economic_analysis_node float_of_str backend) acc in
  let acc := run_node (step2_environmental_analysis_node backend) acc in
  let acc := run_node (step3_technological_synthesis_node float_of_str backend) acc in
  let '(st, fx) := run_node (judge_evaluation_node float_of_str backend) acc in
  match performance_logging_node st with
  | (Some updates, fx') => (Returned (merge st updates), fx ++ fx')
  | (None, fx') => (Raised "float division by zero", fx ++ fx')
  end.

(** [process_multi_perspective_query].  [start_time] is the reading of
    [time.time()] on entry and [end_time] the reading where the result is
    built. *)
Definition process_multi_perspective_query (start_time end_time : pyfloat)
    (query perspective_1 perspective_2 perspective_3 universal_cot
       chain_of_thought_1 chain_of_thought_2 chain_of_thought_3 : string)
    : result * list effect :=
  match validate_and_prepare_inputs query perspective_1 perspective_2
          perspective_3 universal_cot chain_of_thought_1 chain_of_thought_2
          chain_of_thought_3 with
  | Raised e =>
      (Failed (<["processing_time" := VFloat (PyFloat.sub end_time start_time)]>
                 (<["query" := VStr query]>
                    (<["error" := VStr ("Input validation failed: " +:+ e)]> ∅))),
       [])
  | Returned input_package =>
      let initial_state := State.initial input_package in
      match ainvoke initial_state with
      | (Returned final_state, fx) =>
          match _calculate_advantage_metrics final_state with
          | Some advantage =>
              (Completed (RunResult.mk query final_state advantage
                            (PyFloat.sub end_time start_time)), fx)
          | None =>
              (Failed (<["completion_status" := VStr "failed"]>
                         (<["processing_time" := VFloat (PyFloat.sub end_time start_time)]>
                            (<["error" := VStr "float division by zero"]>
                               (<["query" := VStr query]> ∅)))), fx)
          end
      | (Raised e, fx) =>
          (Failed (<["completion_status" := VStr "failed"]>
                     (<["processing_time" := VFloat (PyFloat.sub end_time start_time)]>
                        (<["error" := VStr e]>
                           (<["query" := VStr query]> ∅)))), fx)
      end
  end.

End Run.
End MultiPerspectiveEnsembleGraph.

(** ** The progress channel ([backend_websocket_server.py]) *)

Module WebSocketServer.

(** What [json.loads] returns. *)
#[warnings="-register-all"]
Inductive json : Type :=
| JNull
| JBool (b : bool)
| JInt (z : Z)
| JFloat (x : pyfloat)
| JString (s : string)
| JArray (items : list json)
| JObject (entries : list (string * json)).

(** The two [except] clauses of [handle_client_message] tell these apart. *)
Inductive exn : Type :=
| JSONDecodeError (msg : string)
| Exception (msg : string).

(** A message handed to [websocket.send], after [json.dumps]. *)
Inductive server_message : Type :=
| pong
| error (message : string)
| run_event (type : string).

(** [d.get(key)] on a decoded dictionary. *)
Fixpoint dict_get (key : string) (entries : list (string * json)) : json :=
  match entries with
  | [] => JNull
  | (k, v) :: rest => if String.eqb k key then v else dict_get key rest
  end.

(** [data.get(key)]: only a dictionary has the method; the other values
    raise [AttributeError]. *)
Definition get (data : json) (key : string) : outcome json :=
  match data with
  | JObject entries => Returned (dict_get key entries)
  | JNull => Raised "'NoneType' object has no attribute 'get'"
  | JBool _ => Raised "'bool' object has no attribute 'get'"
  | JInt _ => Raised "'int' object has no attribute 'get'"
  | JFloat _ => Raised "'float' object has no attribute 'get'"
  | JString _ => Raised "'str' object has no attribute 'get'"
  | JArray _ => Raised "'list' object has no attribute 'get'"
  end.

(** [v == s] for a [str] literal [s]. *)
Definition eq_str (v : json) (s : string) : bool :=
  match v with
  | JString t => String.eqb t s
  | _ => false
  end.

Section Server.

(** [json.loads]. *)
Variable json_loads : string -> json + exn.

(** [repr] of the numbers, lists and dictionaries of Python. *)
Variable py_repr : json -> string.

(** [websocket.send]: raises on a closed connection. *)
Variable websocket_send : server_message -> outcome unit.

(** [handle_start_analysis]: the messages it sends, and how it ends. *)
Variable handle_start_analysis : json -> outcome unit * list server_message.

(** [f"{v}"] *)
Definition py_str (v : json) : string :=
  match v with
  | JString s => s
  | JNull => "None"
  | JBool true => "True"
  | JBool false => "False"
  | other => py_repr other
  end.

(** [send_to_client]: both [except] clauses only log. *)
Definition send_to_client (message : server_message) : outcome unit * list server_message :=
  (match websocket_send message with
   | Returned _ => Returned tt
   | Raised _ => Returned tt
   end, [message]).

(** [handle_client_message]: how the coroutine ends, and the messages
    handed to [websocket.send] on the way. *)
Definition handle_client_message (message_str : string)
    : outcome unit * list server_message :=
  let body : outcome unit * list server_message + exn :=
    match json_loads message_str with
    | inr e => inr e
    | inl data =>
        match get data "type" with
        | Raised e => inr (Exception e)
        | Returned message_type =>
            if eq_str message_type "start_analysis" then
              match handle_start_analysis data with
              | (Returned _, sent) => inl (Returned tt, sent)
              | (Raised e, sent) =>
                  inl (let '(r, sent') :=
                         send_to_client (error ("Server error: " +:+ e)) in
                       (r, sent ++ sent'))
              end
            else if eq_str message_type "ping" then
              inl (send_to_client pong)
            else
              inl (send_to_client
                     (error ("Unknown message type: " +:+ py_str message_type)))
        end
    end in
  match body with
  | inl r => r
  | inr (JSONDecodeError _) => send_to_client (error "Invalid JSON format")
  | inr (Exception e) => send_to_client (error ("Server error: " +:+ e))
  end.

(** The loop of [websocket_handler]: the messages of a connection are
    handled in turn, and an exception of the handler ends the loop.  The
    result counts the messages handled before the connection is left. *)
Fixpoint serve (incoming : list string) : nat * list server_message :=
  match incoming with
  | [] => (0, [])
  | message :: rest =>
      match handle_client_message message with
      | (Returned _, sent) =>
          let '(n, sent') := serve rest in (S n, sent ++ sent')
      | (Raised _, sent) => (0, sent)
      end
  end.

End Server.
End WebSocketServer.

(** ** Inputs of the examples *)

Module Examples.

(** A line break. *)
Definition nl : string := String PyStr.newline EmptyString.

(** A self-report above the unit interval. *)
Definition over_confident : string :=
  "PERSPECTIVE_ANALYSIS: markets adapt" +:+ nl +:+ "CONFIDENCE: 1.5".

(** A response with one tagged field. *)
Definition tagged_reasoning : string := "REASONING: hello".

(** A judge response: two scores out of range, one that is no number. *)
Definition judge_reply : string :=
  "FINAL_SYNTHESIS: solar wins" +:+ nl +:+ "CLAUDE_SCORE: 7" +:+ nl
  +:+ "GPT_SCORE: -3" +:+ nl +:+ "GROK_SCORE: high".

(** A response without any tag. *)
Definition untagged : string := "hello".

(** Backends that answer, except that Claude's client raises in the
    baseline stage and in stage 2. *)
Definition flaky_backend (m : ModelType) (s : stage) : outcome string :=
  match m, s with
  | CLAUDE, BASELINE => Raised "timeout"
  | CLAUDE, STEP2 => Raised "timeout"
  | _, _ => Returned ("PERSPECTIVE_ANALYSIS: markets adapt" +:+ nl +:+ "CONFIDENCE: 0.8")
  end.

(** The state of a run of [flaky_backend] after the baseline stage and
    stage 1. *)
Definition after_step1 : State.t :=
  let p := InputPackage.mk "Is solar power viable?" "economic" "environmental"
             "technological" EmptyString ∅ in
  let run := MultiPerspectiveEnsembleGraph.run_node in
  fst (run (Pipeline.step1_economic_analysis_node Decimal.float_of_str flaky_backend)
         (run (Pipeline.baseline_analysis_node flaky_backend) (State.initial p, []))).

(** A final synthesis of 10000 characters against a baseline of one
    character. *)
Definition long_synthesis : string :=
  string_of_list_ascii (repeat "a"%char (100 * 100)).

Definition short_baseline_state : State.t :=
  State.merge after_step1
    [State.U_claude_baseline (BaselineResponse.mk CLAUDE "x" (Fin (1 # 2)));
     State.U_final_synthesis long_synthesis].

(** The same state after stage 2. *)
Definition after_step2 : State.t :=
  fst (MultiPerspectiveEnsembleGraph.run_node
         (Pipeline.step2_environmental_analysis_node flaky_backend)
         (after_step1, [])).

(** The same state after stage 3. *)
Definition after_step3 : State.t :=
  fst (MultiPerspectiveEnsembleGraph.run_node
         (Pipeline.step3_technological_synthesis_node Decimal.float_of_str flaky_backend)
         (after_step2, [])).

(** The payload [{"type": "shutdown"}], written with the code of the
    double quote. *)
Definition dq : string := String (ascii_of_nat 34) EmptyString.

Definition shutdown_payload : string :=
  "{" +:+ dq +:+ "type" +:+ dq +:+ ": " +:+ dq +:+ "shutdown" +:+ dq +:+ "}".

(** [json.loads] on the two payloads of the examples: the one above, and
    a text that is no JSON. *)
Definition loads (s : string) : WebSocketServer.json + WebSocketServer.exn :=
  if String.eqb s shutdown_payload
  then inl (WebSocketServer.JObject [("type", WebSocketServer.JString "shutdown")])
  else inr (WebSocketServer.JSONDecodeError "Expecting value").

(** A connection whose peer has gone: every send raises. *)
Definition closed_send (m : WebSocketServer.server_message) : outcome unit :=
  Raised "connection closed".

(** An analysis that announces its start and then fails. *)
Definition failing_analysis (data : WebSocketServer.json)
    : outcome unit * list WebSocketServer.server_message :=
  (Raised "backend unavailable", [WebSocketServer.run_event "analysis_started"]).

End Examples.

From Stdlib Require Import Lqa.

(** The float is a number between [lo] and [hi]. *)
Definition in_interval (lo hi : Q) (v : pyfloat) : Prop :=
  exists q, v = Fin q /\ (lo <= q /\ q <= hi)%Q.

(** ** A whole run: what it calls *)

(** The calls of the five stages, in the order of the tasks. *)
Definition stage_calls : list effect :=
  [Invoke CLAUDE BASELINE; Invoke GPT BASELINE; Invoke GROK BASELINE;
   Invoke JUDGE BASELINE;
   Invoke CLAUDE STEP1; Invoke GPT STEP1; Invoke GROK STEP1; Invoke JUDGE STEP1;
   Invoke CLAUDE STEP2; Invoke GPT STEP2; Invoke GROK STEP2; Invoke JUDGE STEP2;
   Invoke CLAUDE STEP3; Invoke GPT STEP3; Invoke GROK STEP3; Invoke JUDGE STEP3;
   Invoke JUDGE JUDGE_EVALUATION].

#[global] Instance ModelType_eq_dec : EqDecision ModelType.
Proof. solve_decision. Defined.

#[global] Instance stage_eq_dec : EqDecision stage.
Proof. solve_decision. Defined.

(** The effect is the call of model [m] in stage [s]. *)
Definition is_call (m : ModelType) (s : stage) (e : effect) : bool :=
  match e with
  | Invoke m' s' => bool_decide (m' = m) && bool_decide (s' = s)
  | LogResult _ _ => false
  end.

(** The text is empty or begins with a character that is no blank. *)
Definition headed (s : string) : Prop :=
  match s with
  | EmptyString => True
  | String c _ => PyStr.is_space c = false
  end.

(** ** Inputs of further examples *)

Module MoreExamples.
Import Examples.

(** A judge response in the format of the final evaluation prompt. *)
Definition final_evaluation : string :=
  "FINAL_SYNTHESIS: Solar is viable." +:+ nl
  +:+ "  It pays back in ten years." +:+ nl
  +:+ "METHODOLOGY_ASSESSMENT: three lenses helped" +:+ nl
  +:+ "CLAUDE_SCORE: 0.9" +:+ nl
  +:+ "GPT_SCORE: 0.8".

End MoreExamples.

(** ** The system entry point ([multi_perspective_main.py]) *)

Module EnhancedLLMEnsembleSystem.
Import PyStr.

(** The dictionary [validated_package]. *)
Record package : Type := mk_package {
  query : string;
  perspective_1 : string;
  perspective_2 : string;
  perspective_3 : string;
  universal_cot : string;
  chain_of_thought_1 : string;
  chain_of_thought_2 : string;
  chain_of_thought_3 : string
}.

(** [kwargs.get(key, default)] *)
Definition get (kwargs : gmap string string) (key default : string) : string :=
  match kwargs !! key with
  | Some v => v
  | None => default
  end.

(** [validate_inputs]: the query is passed on trimmed. *)
Definition validate_inputs (query : string) (kwargs : gmap string string)
    : outcome package :=
  if negb (truthy query) || negb (truthy (strip query)) then
    Raised "Query is required and cannot be empty"
  else
    Returned
      (mk_package (strip query)
         (get kwargs "perspective_1" "economic")
         (get kwargs "perspective_2" "environmental")
         (get kwargs "perspective_3" "technological")
         (get kwargs "universal_cot" EmptyString)
         (get kwargs "chain_of_thought_1" EmptyString)
         (get kwargs "chain_of_thought_2" EmptyString)
         (get kwargs "chain_of_thought_3" EmptyString)).

(** What the entry point does to the outside world: the effects of the
    graph, and the record it hands to its own run logger.  The result
    dictionary of the graph has no entry [final_synthesis] at its top
    level, so that [log_result] stores the query only. *)
Inductive system_effect : Type :=
| Graph (e : effect)
| SystemLog (query : string).

(** The entry [query] of a result dictionary. *)
Definition result_query (r : result) : string :=
  match r with
  | Completed r => RunResult.query r
  | Failed d =>
      match d !! "query" with
      | Some (VStr q) => q
      | _ => EmptyString
      end
  end.

Section Run.

Variable float_of_str : string -> option pyfloat.
Variable backend : ModelType -> stage -> outcome string.

(** [process_multi_perspective_query] of the entry point.  The graph
    catches its own exceptions, so that the [except] branch is that of
    [validate_inputs]. *)
Definition process_multi_perspective_query (start_time end_time : pyfloat)
    (query : string) (kwargs : gmap string string)
    : result * list system_effect :=
  match validate_inputs query kwargs with
  | Returned v =>
      let '(r, fx) :=
        MultiPerspectiveEnsembleGraph.process_multi_perspective_query
          float_of_str backend start_time end_time
          (EnhancedLLMEnsembleSystem.query v) (perspective_1 v) (perspective_2 v)
          (perspective_3 v) (universal_cot v) (chain_of_thought_1 v)
          (chain_of_thought_2 v) (chain_of_thought_3 v) in
      (r, map Graph fx ++ [SystemLog (result_query r)])
  | Raised e =>
      (Failed (<["completion_status" := VStr "failed"]>
                 (<["processing_time" := VFloat (Fin 0)]>
                    (<["error" := VStr e]>
                       (<["query" := VStr query]> ∅)))), [])
  end.

End Run.

(** The dictionary that [analyze_performance_improvement] returns for a
    result without error. *)
Record analysis : Type := mk_analysis {
  baseline_vs_ensemble_comparison : gmap string pyfloat;
  multi_perspective_advantages : gmap string pyfloat;
  summary : string
}.

(** [d.get(key, default)] on a dictionary of metrics. *)
Definition metric (d : gmap string pyfloat) (key : string) (default : pyfloat) : pyfloat :=
  match d !! key with
  | Some v => v
  | None => default
  end.

(** A dictionary is true when it is not empty. *)
Definition nonempty (d : gmap string pyfloat) : bool :=
  negb (bool_decide (d = ∅)).

(** The part of the summary made from the improvement metrics; the
    thresholds 1.2 and 1.05 are taken as the rationals they denote. *)
Definition improvement_summary (improvement_metrics : gmap string pyfloat) : string :=
  if nonempty improvement_metrics then
    let avg_improvement := metric improvement_metrics "average_improvement" (Fin 1) in
    let improvement_level :=
      if PyFloat.lt (Fin (6 # 5)) avg_improvement then "Significant"
      else if PyFloat.lt (Fin (21 # 20)) avg_improvement then "Moderate"
      else "Minimal" in
    improvement_level +:+ " improvement over baselines. "
  else EmptyString.

(** The part of the summary made from the advantage metrics. *)
Definition advantage_summary (advantage_metrics : gmap string pyfloat) : string :=
  if nonempty advantage_metrics then
    let comprehensiveness :=
      metric advantage_metrics "comprehensiveness_improvement" (Fin 1) in
    let confidence := metric advantage_metrics "confidence_improvement" (Fin 0) in
    (if PyFloat.lt (Fin (3 # 2)) comprehensiveness
     then "Multi-perspective approach significantly more comprehensive. "
     else EmptyString)
    +:+ (if PyFloat.lt (Fin (1 # 10)) confidence
         then "Notable confidence improvement through multi-step analysis."
         else EmptyString)
  else EmptyString.

(** [analyze_performance_improvement]; [inl] is the dictionary
    [{"analysis": ...}] of a result with an [error] entry. *)
Definition analyze_performance_improvement (r : result) : string + analysis :=
  match r with
  | Failed d =>
      if bool_decide (is_Some (d !! "error")) then
        inl "Cannot analyze performance due to processing error"
      else
        inr (mk_analysis ∅ ∅ EmptyString)
  | Completed r =>
      let improvement_metrics := State.improvement_metrics (RunResult.final_state r) in
      let advantage_metrics := RunResult.multi_perspective_advantage r in
      inr (mk_analysis improvement_metrics advantage_metrics
             (improvement_summary improvement_metrics
              +:+ advantage_summary advantage_metrics))
  end.

End EnhancedLLMEnsembleSystem.

(** ** More text primitives *)

Module PyText.

(** [c.lower()] on a code point below 256: the letters A-Z and the
    capital letters of Latin-1 (U+00C0 to U+00DE without the
    multiplication sign) move up by 32. *)
Definition lower_char (c : ascii) : ascii :=
  let n := nat_of_ascii c in
  if ((65 <=? n)%nat && (n <=? 90)%nat)
     || ((192 <=? n)%nat && (n <=? 222)%nat && negb (n =? 215)%nat)
  then ascii_of_nat (n + 32) else c.

(** [s.lower()] *)
Fixpoint lower (s : string) : string :=
  match s with
  | EmptyString => EmptyString
  | String c s' => String (lower_char c) (lower s')
  end.

(** [needle in hay] *)
Fixpoint contains (needle hay : string) : bool :=
  match hay with
  | EmptyString => String.prefix needle EmptyString
  | String _ hay' => String.prefix needle hay || contains needle hay'
  end.

(** [sum(1 for x in xs if p(x))] *)
Definition count {A : Type} (p : A -> bool) (xs : list A) : nat :=
  List.length (List.filter p xs).

End PyText.

(** ** Statistics over logged scores
    ([utils/judge.py], [utils/memory.py]) *)

Module Stats.

(** The loop of both functions: the scores of one model, in the order of
    the history; a record without [confidence_scores] is an empty
    dictionary. *)
Definition collect (history : list (gmap string pyfloat)) (model : string)
    : list pyfloat :=
  omap (fun scores : gmap string pyfloat => scores !! model) history.

(** The builtin [max(xs, key=key)] on a sequence that starts with [best]:
    a later element wins only when its key is strictly greater. *)
Fixpoint max_by {A : Type} (key : A -> pyfloat) (best : A) (rest : list A) : A :=
  match rest with
  | [] => best
  | x :: rest' =>
      max_by key (if PyFloat.lt (key best) (key x) then x else best) rest'
  end.

(** [sum(scores) / len(scores) if scores else 0.0]; [None] is an
    exception of the division. *)
Definition average_or_zero (scores : list pyfloat) : option pyfloat :=
  match scores with
  | [] => Some (Fin 0)
  | _ :: _ => Pipeline.average scores
  end.

End Stats.

Module CompareModels.

(** One entry of [stats]. *)
Record model_stat : Type := mk_stat {
  average_score : pyfloat;
  max_score : pyfloat;
  min_score : pyfloat;
  total_evaluations : nat
}.

(** The statistics of one model. *)
Definition stat_of (scores : list pyfloat) : option model_stat :=
  match scores with
  | [] => Some (mk_stat (Fin 0) (Fin 0) (Fin 0) 0)
  | x :: xs =>
      avg ← Pipeline.average scores;
      Some (mk_stat avg (fold_left PyFloat.max xs x) (fold_left PyFloat.min xs x)
              (List.length scores))
  end.

(** What [compare_models] returns without error; [model_statistics] is
    the dictionary [stats], with its keys in the order of insertion. *)
Record comparison : Type := mk_comparison {
  model_statistics : list (string * model_stat);
  best_performing_model : string;
  total : nat
}.

(** [UnbiasedJudge.compare_models]; [inl] is the dictionary
    [{"error": ...}], [None] an exception. *)
Definition compare_models (evaluation_history : list (gmap string pyfloat))
    : option (string + comparison) :=
  match evaluation_history with
  | [] => Some (inl "No evaluation history provided")
  | _ :: _ =>
      claude ← stat_of (Stats.collect evaluation_history "claude");
      gpt ← stat_of (Stats.collect evaluation_history "gpt");
      grok ← stat_of (Stats.collect evaluation_history "grok");
      let stats := [("claude", claude); ("gpt", gpt); ("grok", grok)] in
      let best_model :=
        fst (Stats.max_by (fun kv : string * model_stat => average_score (snd kv))
               ("claude", claude) [("gpt", gpt); ("grok", grok)]) in
      Some (inr (mk_comparison stats best_model (List.length evaluation_history)))
  end.

End CompareModels.

Module MemoryLogger.

(** A record of the log, as far as the functions below read it. *)
Record entry : Type := mk_entry {
  query : string;
  confidence_scores : gmap string pyfloat
}.

(** [search_memory] *)
Definition search_memory (memory : list entry) (query_keyword : string) : list entry :=
  List.filter
    (fun result => PyText.contains (PyText.lower query_keyword)
                     (PyText.lower (query result)))
    memory.

(** What [get_best_performing_model] returns for a log that is not
    empty; [model_averages] is the dictionary [averages], with its keys in
    the order of insertion. *)
Record best : Type := mk_best {
  best_performing_model : string;
  model_averages : list (string * pyfloat);
  total_evaluations : nat
}.

(** [get_best_performing_model]; [inl] is the dictionary
    [{"message": ...}], [None] an exception. *)
Definition get_best_performing_model (memory : list entry) : option (string + best) :=
  match memory with
  | [] => Some (inl "No data available")
  | _ :: _ =>
      let history := map confidence_scores memory in
      claude ← Stats.average_or_zero (Stats.collect history "claude");
      gpt ← Stats.average_or_zero (Stats.collect history "gpt");
      grok ← Stats.average_or_zero (Stats.collect history "grok");
      let averages := [("claude", claude); ("gpt", gpt); ("grok", grok)] in
      let best_model :=
        fst (Stats.max_by (fun kv : string * pyfloat => snd kv)
               ("claude", claude) [("gpt", gpt); ("grok", grok)]) in
      Some (inr (mk_best best_model averages (List.length memory)))
  end.

End MemoryLogger.

(** ** Reasoning quality ([utils/chain_of_thought.py]) *)

Module ChainOfThoughtEnhancer.

Definition basic_components : list string :=
  ["understanding"; "analysis"; "reasoning"; "synthesis"; "validation"].

Definition perspective_components : list string :=
  ["perspective_frame"; "perspective_understanding"; "perspective_reasoning";
   "perspective_synthesis"].

Definition logical_words : list string :=
  ["because"; "therefore"; "thus"; "consequently"; "since"; "given that";
   "however"; "moreover"].

(** [reasoning_chain.get(comp)] is true. *)
Definition has (reasoning_chain : gmap string string) (comp : string) : bool :=
  match reasoning_chain !! comp with
  | Some text => PyStr.truthy text
  | None => false
  end.

(** [reasoning_chain.get(key, "")] *)
Definition text_of (reasoning_chain : gmap string string) (key : string) : string :=
  match reasoning_chain !! key with
  | Some text => text
  | None => EmptyString
  end.

(** [analyze_reasoning_quality]; [None] is an exception of a division. *)
Definition analyze_reasoning_quality (reasoning_chain : gmap string string)
    : option (gmap string pyfloat) :=
  let quality_metrics : gmap string pyfloat :=
    <["perspective_integration" := Fin 0]>
      (<["clarity" := Fin 0]>
         (<["depth" := Fin 0]>
            (<["logical_consistency" := Fin 0]>
               (<["completeness" := Fin 0]> ∅)))) in
  let completed_basic := PyText.count (has reasoning_chain) basic_components in
  completeness ←
    PyFloat.div (PyFloat.of_nat completed_basic)
      (PyFloat.of_nat (List.length basic_components));
  let quality_metrics := <["completeness" := completeness]> quality_metrics in
  let completed_perspective :=
    PyText.count (has reasoning_chain) perspective_components in
  quality_metrics ←
    (if (0 <? completed_perspective)%nat then
       integration ←
         PyFloat.div (PyFloat.of_nat completed_perspective)
           (PyFloat.of_nat (List.length perspective_components));
       Some (<["perspective_integration" := integration]> quality_metrics)
     else Some quality_metrics);
  let reasoning_text :=
    text_of reasoning_chain "reasoning"
    +:+ text_of reasoning_chain "perspective_reasoning" in
  quality_metrics ←
    (if (200 <? String.length reasoning_text)%nat then
       ratio ← PyFloat.div (PyFloat.of_nat (String.length reasoning_text))
                 (PyFloat.of_nat 500);
       Some (<["depth" := PyFloat.min (Fin 1) ratio]> quality_metrics)
     else Some quality_metrics);
  let connector_count :=
    PyText.count (fun word => PyText.contains word (PyText.lower reasoning_text))
      logical_words in
  ratio ← PyFloat.div (PyFloat.of_nat connector_count) (PyFloat.of_nat 3);
  let quality_metrics :=
    <["logical_consistency" := PyFloat.min (Fin 1) ratio]> quality_metrics in
  completeness' ← quality_metrics !! "completeness";
  integration' ← quality_metrics !! "perspective_integration";
  clarity ← PyFloat.div (PyFloat.add completeness' integration') (PyFloat.of_nat 2);
  Some (<["clarity" := clarity]> quality_metrics).

End ChainOfThoughtEnhancer.

Module StatsExamples.

(** Three evaluations: Grok scores best, GPT is missing once. *)
Definition history : list (gmap string pyfloat) :=
  [<["grok" := Fin (9 # 10)]> (<["gpt" := Fin (1 # 2)]> (<["claude" := Fin (7 # 10)]> ∅));
   <["grok" := Fin (4 # 5)]> (<["claude" := Fin (3 # 5)]> ∅);
   <["grok" := Fin 1]> (<["gpt" := Fin (7 # 10)]> (<["claude" := Fin (4 # 5)]> ∅))].

(** A log of two runs. *)
Definition memory : list MemoryLogger.entry :=
  [MemoryLogger.mk_entry "Is Solar power viable?" ∅;
   MemoryLogger.mk_entry "How do tides work?" ∅].

End StatsExamples.

Module QualityExamples.

(** A reasoning chain with two of the basic components. *)
Definition chain : gmap string string :=
  <["reasoning" := "costs fall because panels get cheaper, therefore adoption grows"]>
    (<["analysis" := "supply and demand"]> ∅).

End QualityExamples.

(** ** The registry of connections ([backend_websocket_server.py]) *)

Module Registry.
Import WebSocketServer.

(** A connection object; two connections are equal when they are the same
    object. *)
Definition websocket : Type := nat.

(** A Python dictionary with [str] keys, in the order of insertion. *)
Definition dict (V : Type) : Type := list (string * V).

(** [key in d] *)
Definition dict_has {V : Type} (d : dict V) (key : string) : bool :=
  existsb (fun kv => String.eqb (fst kv) key) d.

(** [d[key] = v]: an existing key keeps its place. *)
Fixpoint dict_set {V : Type} (d : dict V) (key : string) (v : V) : dict V :=
  match d with
  | [] => [(key, v)]
  | (k, v') :: d' =>
      if String.eqb k key then (key, v) :: d' else (k, v') :: dict_set d' key v
  end.

(** [del d[key]], for a key of the dictionary. *)
Fixpoint dict_del {V : Type} (d : dict V) (key : string) : dict V :=
  match d with
  | [] => []
  | (k, v) :: d' => if String.eqb k key then d' else (k, v) :: dict_del d' key
  end.

(** The two dictionaries of the server; [info] stands for the time of
    connection and the remote address. *)
Record server (info : Type) : Type := mk_server {
  connected_clients : dict websocket;
  client_info : dict info
}.
Arguments mk_server {info} _ _.
Arguments connected_clients {info} _.
Arguments client_info {info} _.

Section Server.

Context {info : Type}.

(** [websocket.send] of a connection: raises when it is closed. *)
Variable send : websocket -> server_message -> outcome unit.

(** [register_client]: the state after it, and the message handed to
    the connection. *)
Definition register_client (self : server info) (ws : websocket)
    (client_id : string) (i : info)
    : server info * list (websocket * server_message) :=
  (mk_server (dict_set (connected_clients self) client_id ws)
             (dict_set (client_info self) client_id i),
   [(ws, run_event "connection_confirmed")]).

(** The loop of [unregister_client]: the first identifier registered for
    the connection. *)
Fixpoint find_client (d : dict websocket) (ws : websocket) : option string :=
  match d with
  | [] => None
  | (cid, ws') :: d' => if Nat.eqb ws' ws then Some cid else find_client d' ws
  end.

(** [unregister_client] *)
Definition unregister_client (self : server info) (ws : websocket) : server info :=
  match find_client (connected_clients self) ws with
  | Some client_id =>
      if PyStr.truthy client_id then
        mk_server (dict_del (connected_clients self) client_id)
                  (if dict_has (client_info self) client_id
                   then dict_del (client_info self) client_id
                   else client_info self)
      else self
  | None => self
  end.

(** The first loop of [broadcast_to_all]: the identifiers whose send
    raised. *)
Definition disconnected (d : dict websocket) (message : server_message) : list string :=
  map fst
    (List.filter
       (fun kv => match send (snd kv) message with
                  | Returned _ => false
                  | Raised _ => true
                  end) d).

(** The second loop: one disconnected client is removed. *)
Definition remove_client (self : server info) (client_id : string) : server info :=
  mk_server
    (if dict_has (connected_clients self) client_id
     then dict_del (connected_clients self) client_id
     else connected_clients self)
    (if dict_has (client_info self) client_id
     then dict_del (client_info self) client_id
     else client_info self).

(** [broadcast_to_all]: the state after it, and the sends it made. *)
Definition broadcast_to_all (self : server info) (message : server_message)
    : server info * list (websocket * server_message) :=
  match connected_clients self with
  | [] => (self, [])
  | _ :: _ =>
      (fold_left remove_client (disconnected (connected_clients self) message) self,
       map (fun kv => (snd kv, message)) (connected_clients self))
  end.

End Server.

(** The connection answers. *)
Definition reachable (send : websocket -> server_message -> outcome unit)
    (message : server_message) (kv : string * websocket) : bool :=
  match send (snd kv) message with
  | Returned _ => true
  | Raised _ => false
  end.

End Registry.

Module RegistryExamples.

(** Three clients; the connection of the second is closed. *)
Definition three : Registry.server unit :=
  Registry.mk_server [("a", 1); ("b", 2); ("c", 3)] [("a", tt); ("b", tt); ("c", tt)].

Definition send (ws : Registry.websocket) (m : WebSocketServer.server_message)
    : outcome unit :=
  if Nat.eqb ws 2 then Raised "connection closed" else Returned tt.

End RegistryExamples.

(** * Properties *)

(** ** Text primitives *)

Section TextFacts.
Import PyStr.

Lemma length_lstrip s : String.length (lstrip s) <= String.length s.
Proof. induction s as [|c s IH]; simpl; [lia|]. destruct (is_space c); simpl; lia. Qed.

Lemma length_rstrip s : String.length (rstrip s) <= String.length s.
Proof.
  induction s as [|c s IH]; simpl; [lia|].
  destruct (rstrip s) eqn:E; [destruct (is_space c)|]; simpl in *; lia.
Qed.

Lemma length_strip s : String.length (strip s) <= String.length s.
Proof. unfold strip. etransitivity; [apply length_rstrip | apply length_lstrip]. Qed.

Lemma occurs_lstrip c s : occurs c (lstrip s) = true -> occurs c s = true.
Proof.
  induction s as [|d s IH]; simpl; [done|].
  destruct (is_space d); simpl; [|done]. intros H. rewrite IH by done. apply orb_true_r.
Qed.

Lemma occurs_rstrip c s : occurs c (rstrip s) = true -> occurs c s = true.
Proof.
  induction s as [|d s IH]; simpl; [done|].
  destruct (rstrip s) eqn:E.
  - destruct (is_space d); simpl; [done|]. rewrite orb_false_r. intros ->. done.
  - simpl in *. intros H. apply orb_true_iff in H as [H|H]; [by rewrite H|].
    rewrite IH by done. apply orb_true_r.
Qed.

Lemma occurs_prefix c p s :
  String.prefix p s = true -> occurs c p = true -> occurs c s = true.
Proof.
  revert s. induction p as [|d p IH]; intros s; simpl; [done|].
  destruct s as [|e s]; [done|]. simpl. destruct (ascii_dec d e) as [->|]; [|done].
  intros Hp H. apply orb_true_iff in H as [H|H]; [by rewrite H|].
  rewrite (IH s) by done. apply orb_true_r.
Qed.

Lemma occurs_app_r c a b : occurs c b = true -> occurs c (a +:+ b) = true.
Proof.
  induction a as [|d a IH]; simpl; [done|].
  intros H. rewrite IH by done. apply orb_true_r.
Qed.

(** A string in which the separator occurs has a second part, and it is
    shorter. *)
Lemma split1_snd_occurs c s :
  occurs c s = true ->
  exists v, split1_snd c s = Some v /\ String.length v < String.length s.
Proof.
  induction s as [|d s IH]; simpl; [done|].
  destruct (Ascii.eqb d c); simpl.
  - intros _. eexists; split; [done|lia].
  - intros H. destruct (IH H) as (v & -> & Hl). eexists; split; [done|lia].
Qed.

(** The [IndexError] of [line.split(':', 1)[1]] cannot happen on a line
    that passed the [startswith] test. *)
Lemma tagged_colon name line :
  tagged name line = true ->
  exists v, split1_snd colon line = Some v /\ String.length v < String.length line.
Proof.
  unfold tagged, startswith. intros H. apply split1_snd_occurs.
  apply occurs_lstrip, occurs_rstrip. eapply occurs_prefix; [exact H|].
  apply occurs_app_r. done.
Qed.

Lemma tagged_empty name : tagged name EmptyString = false.
Proof. unfold tagged, startswith. simpl. by destruct name. Qed.

Lemma weight_app a b : weight (a ++ b) = weight a + weight b.
Proof. induction a as [|x a IH]; simpl; [done|]. rewrite IH. lia. Qed.

Lemma length_append (a b : string) :
  String.length (a +:+ b) = String.length a + String.length b.
Proof. induction a as [|c a IH]; simpl; [done|]. by rewrite IH. Qed.

Lemma length_unlines ls : String.length (unlines ls) = weight ls - 1.
Proof.
  unfold unlines. induction ls as [|l ls IH]; [done|].
  destruct ls as [|l' ls]; [simpl; lia|].
  change (join ?s (l :: l' :: ls)) with (l +:+ s +:+ join s (l' :: ls)).
  rewrite !length_append, IH. simpl. lia.
Qed.

Lemma weight_lines s : weight (lines s) = S (String.length s).
Proof.
  unfold lines. induction s as [|d s IH]; [done|]. simpl.
  destruct (Ascii.eqb d newline); simpl; [lia|].
  destruct (split newline s) eqn:E; simpl in *; lia.
Qed.

End TextFacts.

(** ** The capture loop *)

Section CaptureFacts.
Import PyStr.
Variable stops : list string.
Variable name : string.

(** Without a tagged line nothing is captured. *)
Lemma capture_untagged ls acc :
  (forall line, In line ls -> tagged name line = false) ->
  Nodes.capture stops name ls false acc = Some acc.
Proof.
  induction ls as [|l ls IH]; intros H; simpl; [done|].
  rewrite (H l) by (by left). simpl. apply IH. intros; apply H; by right.
Qed.

(** The loop never raises, what it captures is no longer than what it
    read, and strictly shorter when a tagged line was among it. *)
Lemma capture_weight ls : forall capturing acc,
  exists out, Nodes.capture stops name ls capturing acc = Some out /\
    weight out <= weight acc + weight ls /\
    (existsb (tagged name) ls = true -> weight out < weight acc + weight ls).
Proof.
  induction ls as [|l ls IH]; intros capturing acc; simpl.
  - exists acc. split; [done|]. split; [lia|done].
  - destruct (tagged name l) eqn:Ht; simpl.
    + destruct (tagged_colon _ _ Ht) as (v & -> & Hv).
      destruct (IH true (acc ++ [strip v])) as (out & -> & Hw & _).
      exists out. split; [done|]. rewrite weight_app in Hw. simpl in Hw.
      pose proof (length_strip v). split; [lia|]. intros _. lia.
    + destruct (capturing && existsb (fun s => tagged s l) stops) eqn:Hs.
      * exists acc. split; [done|]. split; [lia|]. intros _. lia.
      * destruct capturing.
        -- destruct (IH true (acc ++ [l])) as (out & -> & Hw & Hlt).
           exists out. split; [done|]. rewrite weight_app in Hw, Hlt. simpl in *.
           split; [lia|]. intros H. specialize (Hlt H). lia.
        -- destruct (IH false acc) as (out & -> & Hw & Hlt).
           exists out. split; [done|]. split; [lia|]. intros H. specialize (Hlt H). lia.
Qed.

End CaptureFacts.

Lemma judge_capture_untagged name ls acc :
  (forall line, In line ls -> PyStr.tagged name line = false) ->
  UnbiasedJudge.capture name ls false acc = Some acc.
Proof.
  induction ls as [|l ls IH]; intros H; simpl; [done|].
  rewrite (H l) by (by left). simpl. apply IH. intros; apply H; by right.
Qed.

Lemma untagged_existsb name ls :
  existsb (PyStr.tagged name) ls = false ->
  forall line, In line ls -> PyStr.tagged name line = false.
Proof.
  intros He line Hin. destruct (PyStr.tagged name line) eqn:Ht; [|done].
  rewrite <- He. symmetry. apply existsb_exists. eauto.
Qed.

(** ** Section extraction *)

(** C8, as the specification states it, fails on the judge's own parser:
    on a text without any tag [UnbiasedJudge._extract_section] returns the
    text, not the empty string. *)
Lemma judge_missing_section_returns_content :
  (forall line, In line (PyStr.lines Examples.untagged) ->
     PyStr.tagged "ANALYSIS" line = false) /\
  UnbiasedJudge._extract_section Examples.untagged "ANALYSIS" = "hello" /\
  UnbiasedJudge._extract_section Examples.untagged "ANALYSIS" <> EmptyString.
Proof.
  split; [|split; [reflexivity | discriminate]].
  intros line [<-|[]]. reflexivity.
Qed.

(** C8 (amended).  When no line of the text begins, after trimming, with
    the tag, the two section extractors of the stage nodes return the
    empty string, and the parser of [utils/judge.py] returns the whole
    text unchanged. *)
Theorem missing_section_result (content section_name : string) :
  (forall line, In line (PyStr.lines content) ->
     PyStr.tagged section_name line = false) ->
  Nodes._extract_section content section_name = EmptyString /\
  Nodes._extract_judge_section content section_name = EmptyString /\
  UnbiasedJudge._extract_section content section_name = content.
Proof.
  intros H.
  unfold Nodes._extract_section, Nodes._extract_judge_section,
    UnbiasedJudge._extract_section.
  rewrite !capture_untagged, judge_capture_untagged by exact H.
  done.
Qed.

Lemma missing_section_result_witness :
  Nodes._extract_section Examples.untagged "REASONING" = EmptyString /\
  Nodes._extract_judge_section Examples.untagged "REASONING" = EmptyString /\
  UnbiasedJudge._extract_section Examples.untagged "REASONING" = Examples.untagged.
Proof.
  apply (missing_section_result Examples.untagged "REASONING").
  intros line [<-|[]]. reflexivity.
Defined.

(** C3, as the specification states it, fails: the value extracted from
    [REASONING: hello] is [hello], and extracting from [hello] gives the
    empty string. *)
Lemma extract_section_not_idempotent :
  Nodes._extract_section Examples.tagged_reasoning "REASONING" = "hello" /\
  Nodes._extract_section
    (Nodes._extract_section Examples.tagged_reasoning "REASONING") "REASONING"
  <> Nodes._extract_section Examples.tagged_reasoning "REASONING".
Proof. split; [reflexivity | discriminate]. Qed.

Lemma extract_section_empty name :
  Nodes._extract_section EmptyString name = EmptyString.
Proof. unfold Nodes._extract_section. simpl. by rewrite tagged_empty. Qed.

(** C3 (amended).  Re-parsing an extracted value for the same tag returns
    that value exactly when the value is empty: the empty string is the
    only text that section extraction leaves unchanged. *)
Theorem extract_section_fixed_iff_empty (content section_name : string) :
  let v := Nodes._extract_section content section_name in
  Nodes._extract_section v section_name = v <-> v = EmptyString.
Proof.
  intros v. generalize v. clear v content. intros v.
  split; [|intros ->; apply extract_section_empty].
  unfold Nodes._extract_section. intros Heq.
  destruct (existsb (PyStr.tagged section_name) (PyStr.lines v)) eqn:He.
  - destruct (capture_weight Nodes.section_stops section_name (PyStr.lines v) false [])
      as (out & Hc & _ & Hlt).
    specialize (Hlt He). rewrite weight_lines in Hlt. simpl in Hlt.
    rewrite Hc in Heq. pose proof (length_strip (PyStr.unlines out)) as Hs.
    rewrite Heq, length_unlines in Hs.
    destruct v; [done|]. simpl in *. lia.
  - rewrite capture_untagged in Heq by (by apply untagged_existsb). done.
Qed.

(** ** Confidence values and judge scores *)

Section FloatFacts.
Local Open Scope Q_scope.

(** [max(0.0, min(1.0, x))] is a number of the unit interval for every
    float [x], the infinities and NaN included. *)
Lemma clamp_in_unit (x : pyfloat) :
  PyFloat.in_unit (PyFloat.max (Fin 0) (PyFloat.min (Fin 1) x)).
Proof.
  destruct x as [q| | |]; unfold PyFloat.min, PyFloat.max; simpl;
    try (split; discriminate).
  destruct (q ?= 1) eqn:E1; simpl; try (split; discriminate).
  destruct (0 ?= q) eqn:E0; simpl; try (split; discriminate).
  apply Qlt_alt in E1, E0. split; apply Qlt_le_weak; assumption.
Qed.

Lemma default_score_in_unit : PyFloat.in_unit (Fin (1 # 2)).
Proof. split; discriminate. Qed.

End FloatFacts.

Section ScanFacts.
Import PyStr.
Variable float_of_str : string -> option pyfloat.

(** The loop of [_extract_confidence] stops at the first line carrying
    one of the two tags. *)
Lemma confidence_scan_find ls :
  Nodes.confidence_scan float_of_str ls =
  match find (fun line => tagged "CONFIDENCE" line || tagged "FINAL_CONFIDENCE" line) ls with
  | None => Some (Fin (7 # 10))
  | Some line =>
      match split1_snd colon line with
      | Some v => float_of_str (strip v)
      | None => None
      end
  end.
Proof.
  induction ls as [|l ls IH]; simpl; [done|].
  destruct (tagged "CONFIDENCE" l || tagged "FINAL_CONFIDENCE" l); done.
Qed.

Lemma judge_score_scan_find name ls :
  Nodes.judge_score_scan float_of_str name ls =
  match find (tagged name) ls with
  | None => Some (Fin (1 # 2))
  | Some line =>
      match split1_snd colon line with
      | Some v =>
          match float_of_str (strip v) with
          | Some x => Some (PyFloat.max (Fin 0) (PyFloat.min (Fin 1) x))
          | None => None
          end
      | None => None
      end
  end.
Proof.
  induction ls as [|l ls IH]; simpl; [done|].
  destruct (tagged name l); done.
Qed.

Lemma score_scan_find name ls :
  UnbiasedJudge.score_scan float_of_str name ls =
  match find (tagged name) ls with
  | None => Some (Fin (1 # 2))
  | Some line =>
      match split1_snd colon line with
      | Some v =>
          match float_of_str (UnbiasedJudge.score_str v) with
          | Some x => Some (PyFloat.max (Fin 0) (PyFloat.min (Fin 1) x))
          | None => None
          end
      | None => None
      end
  end.
Proof.
  induction ls as [|l ls IH]; simpl; [done|].
  destruct (tagged name l); done.
Qed.

End ScanFacts.

(** C1, as the specification states it, fails: a self-report of [1.5] is
    returned as it is, outside the unit interval. *)
Lemma extract_confidence_out_of_range :
  Nodes._extract_confidence Decimal.float_of_str Examples.over_confident = Fin (3 # 2) /\
  ~ PyFloat.in_unit (Nodes._extract_confidence Decimal.float_of_str Examples.over_confident).
Proof.
  split; [reflexivity|]. intros [_ H]. apply H. reflexivity.
Qed.

(** C1 (amended).  The confidence is read from the first line that begins,
    after trimming, with [CONFIDENCE:] or [FINAL_CONFIDENCE:]: it is the
    float parsed from the trimmed text after the first colon of that line,
    returned as parsed, without clamping or range check.  The default
    [0.7] is substituted only when there is no such line or when that text
    does not parse as a float. *)
Theorem extract_confidence_first_tagged_line
    (float_of_str : string -> option pyfloat) (content : string) :
  match find (fun line => PyStr.tagged "CONFIDENCE" line
                          || PyStr.tagged "FINAL_CONFIDENCE" line)
             (PyStr.lines content) with
  | None => Nodes._extract_confidence float_of_str content = Fin (7 # 10)
  | Some line =>
      exists v, PyStr.split1_snd PyStr.colon line = Some v /\
        Nodes._extract_confidence float_of_str content =
        match float_of_str (PyStr.strip v) with
        | Some x => x
        | None => Fin (7 # 10)
        end
  end.
Proof.
  unfold Nodes._extract_confidence. rewrite confidence_scan_find.
  destruct (find _ _) as [line|] eqn:Hf; [|done].
  apply find_some in Hf as [_ Ht].
  assert (exists v, PyStr.split1_snd PyStr.colon line = Some v) as [v Hv].
  { apply orb_true_iff in Ht as [Ht|Ht];
      destruct (tagged_colon _ _ Ht) as (v & Hv & _); eauto. }
  exists v. rewrite Hv. split; [done|]. by destruct (float_of_str _).
Qed.



(** ** The stage nodes *)

Section StageFacts.
Import PyStr State Pipeline.
Variable float_of_str : string -> option pyfloat.
Variable backend : ModelType -> stage -> outcome string.

Lemma baseline_node_slot (st : State.t) (m : ModelType) :
  m <> JUDGE ->
  baseline_of m (merge st (fst (baseline_analysis_node backend st))) =
  Some match backend m BASELINE with
       | Returned content => BaselineResponse.mk m content (Fin (1 # 2))
       | Raised e => BaselineResponse.mk m ("Error: " +:+ e) (Fin 0)
       end.
Proof. by destruct m. Qed.

End StageFacts.

(** C6.  After the baseline stage every backend has a BaselineResponse
    that depends on the outcome of its own call only: the text of the
    response with the fixed confidence 0.5 when the call succeeds, the
    placeholder [Error: <message>] with confidence 0.0 when the call
    raises.  Whatever the calls of the other backends do, it is the same. *)
Theorem baseline_responses_independent
    (backend backend' : ModelType -> stage -> outcome string)
    (st : State.t) (m : ModelType) :
  m <> JUDGE ->
  let after b := State.merge st (fst (Pipeline.baseline_analysis_node b st)) in
  (forall content, backend m BASELINE = Returned content ->
     Pipeline.baseline_of m (after backend) =
     Some (BaselineResponse.mk m content (Fin (1 # 2)))) /\
  (forall e, backend m BASELINE = Raised e ->
     Pipeline.baseline_of m (after backend) =
     Some (BaselineResponse.mk m ("Error: " +:+ e) (Fin 0))) /\
  (backend' m BASELINE = backend m BASELINE ->
     Pipeline.baseline_of m (after backend') = Pipeline.baseline_of m (after backend)).
Proof.
  intros Hm after. unfold after. rewrite !baseline_node_slot by done.
  repeat split.
  - by intros content ->.
  - by intros e ->.
  - by intros ->.
Qed.

(** Claude's call raises, the calls of GPT and Grok succeed. *)
Lemma baseline_responses_independent_witness :
  Pipeline.baseline_of CLAUDE
    (State.merge Examples.after_step1
       (fst (Pipeline.baseline_analysis_node Examples.flaky_backend Examples.after_step1))) =
  Some (BaselineResponse.mk CLAUDE "Error: timeout" (Fin 0)).
Proof.
  refine (proj1 (proj2 (baseline_responses_independent Examples.flaky_backend
                          Examples.flaky_backend Examples.after_step1 CLAUDE _))
                "timeout" eq_refl).
  discriminate.
Defined.

(** C2, as the specification states it, fails: in stage 2 Claude's client
    raises, and the stage-2 slot of Claude's analysis is populated all the
    same, with the error text. *)
Lemma step2_error_populates_slot :
  Examples.flaky_backend CLAUDE STEP2 = Raised "timeout" /\
  MultiPerspectiveAnalysis.step2_economic_environmental
    <$> Pipeline.analysis_of CLAUDE Examples.after_step2 =
  Some "Error in Step 2 analysis: timeout" /\
  ~ (PyStr.truthy "Error in Step 2 analysis: timeout" = true <->
     ~ exists e, Examples.flaky_backend CLAUDE STEP2 = Raised e).
Proof.
  split; [reflexivity|]. split; [reflexivity|].
  intros [H _]. apply H; [reflexivity|]. by exists "timeout".
Qed.

Section SlotFacts.
Import PyStr State Pipeline.
Variable float_of_str : string -> option pyfloat.
Variable backend : ModelType -> stage -> outcome string.

Lemma step1_slot st m :
  m <> JUDGE ->
  analysis_of m
    (merge st (fst (step1_economic_analysis_node float_of_str backend st))) =
  Some (new_analysis m
          match backend m STEP1 with
          | Returned content =>
              PerspectiveResponse.mk ECONOMIC
                (Nodes._extract_section content "PERSPECTIVE_ANALYSIS")
                (Nodes._extract_section content "REASONING")
                (Nodes._extract_confidence float_of_str content)
          | Raised e =>
              PerspectiveResponse.mk ECONOMIC ("Error: " +:+ e) "Error occurred" (Fin 0)
          end).
Proof. by destruct m. Qed.

Ltac case_analyses st :=
  destruct (claude_analysis st) as [[? [?|] ? ? ? ?]|] eqn:?;
  destruct (gpt_analysis st) as [[? [?|] ? ? ? ?]|] eqn:?;
  destruct (grok_analysis st) as [[? [?|] ? ? ? ?]|] eqn:?.

Lemma step2_slot st m a r :
  analysis_of m st = Some a ->
  MultiPerspectiveAnalysis.step1_economic a = Some r ->
  analysis_of m
    (merge st (fst (step2_environmental_analysis_node backend st))) =
  Some (set_step2 a
          match backend m STEP2 with
          | Returned content => content
          | Raised e => "Error in Step 2 analysis: " +:+ e
          end).
Proof.
  unfold step2_environmental_analysis_node, _step2_analysis.
  destruct m; simpl; intros Ha Hr; [| | |done];
    case_analyses st; simplify_eq/=; done.
Qed.

Lemma step3_slot st m a :
  analysis_of m st = Some a ->
  analysis_of m
    (merge st (fst (step3_technological_synthesis_node float_of_str backend st))) =
  Some (set_step3_result a
          match backend m STEP3 with
          | Returned content =>
              mk_synthesis
                (Nodes._extract_section content "COMPREHENSIVE_SYNTHESIS")
                (Nodes._extract_confidence float_of_str content)
          | Raised e => mk_synthesis ("Error in final synthesis: " +:+ e) (Fin 0)
          end).
Proof.
  unfold step3_technological_synthesis_node, _step3_synthesis.
  destruct m; simpl; intros Ha; [| | |done];
    case_analyses st; simplify_eq/=; done.
Qed.

Lemma no_analysis_no_slot st m :
  analysis_of m st = None ->
  analysis_of m
    (merge st (fst (step2_environmental_analysis_node backend st))) = None /\ analysis_of m
    (merge st (fst (step3_technological_synthesis_node float_of_str backend st))) = None.
Proof.
  unfold step2_environmental_analysis_node, _step2_analysis,
    step3_technological_synthesis_node, _step3_synthesis.
  destruct m; simpl; intros Ha; [| | |done];
    case_analyses st; simplify_eq/=; done.
Qed.

End SlotFacts.

(** C2 (amended).  A stage writes a backend's slot whether or not that
    backend's adapter raised.  Stage 1 always creates the analysis record;
    stages 2 and 3 write the slot of every backend that has a record (with
    a stage-1 response, for stage 2).  When the adapter call succeeds the
    slot holds the response (stage 2) or the fields extracted from it
    (stages 1 and 3), which may be empty; when it raises the slot holds a
    placeholder: [Error: <message>] with confidence 0.0 in stage 1,
    [Error in Step 2 analysis: <message>] in stage 2,
    [Error in final synthesis: <message>] with final confidence 0.0 in
    stage 3.  The slots of stages 2 and 3 stay unpopulated only for a
    backend without analysis record. *)
Theorem stage_slots_hold_placeholders
    (float_of_str : string -> option pyfloat)
    (backend : ModelType -> stage -> outcome string)
    (st : State.t) (m : ModelType) :
  m <> JUDGE ->
  let after1 :=
    State.merge st (fst (Pipeline.step1_economic_analysis_node float_of_str backend st)) in
  let after2 :=
    State.merge st (fst (Pipeline.step2_environmental_analysis_node backend st)) in
  let after3 :=
    State.merge st (fst (Pipeline.step3_technological_synthesis_node float_of_str backend st)) in
  Pipeline.analysis_of m after1 ≫= MultiPerspectiveAnalysis.step1_economic =
    Some match backend m STEP1 with
         | Returned content =>
             PerspectiveResponse.mk ECONOMIC
               (Nodes._extract_section content "PERSPECTIVE_ANALYSIS")
               (Nodes._extract_section content "REASONING")
               (Nodes._extract_confidence float_of_str content)
         | Raised e =>
             PerspectiveResponse.mk ECONOMIC ("Error: " +:+ e) "Error occurred" (Fin 0)
         end /\
  (forall a, Pipeline.analysis_of m st = Some a ->
     is_Some (MultiPerspectiveAnalysis.step1_economic a) ->
     MultiPerspectiveAnalysis.step2_economic_environmental
       <$> Pipeline.analysis_of m after2 =
     Some match backend m STEP2 with
          | Returned content => content
          | Raised e => "Error in Step 2 analysis: " +:+ e
          end) /\
  (forall a, Pipeline.analysis_of m st = Some a ->
     MultiPerspectiveAnalysis.step3_complete_synthesis
       <$> Pipeline.analysis_of m after3 =
     Some match backend m STEP3 with
          | Returned content =>
              Nodes._extract_section content "COMPREHENSIVE_SYNTHESIS"
          | Raised e => "Error in final synthesis: " +:+ e
          end /\
     MultiPerspectiveAnalysis.final_confidence
       <$> Pipeline.analysis_of m after3 =
     Some match backend m STEP3 with
          | Returned content => Nodes._extract_confidence float_of_str content
          | Raised e => Fin 0
          end) /\
  (Pipeline.analysis_of m st = None ->
     Pipeline.analysis_of m after2 = None /\ Pipeline.analysis_of m after3 = None).
Proof.
  intros Hm after1 after2 after3. unfold after1, after2, after3.
  split; [|split; [|split]].
  - rewrite step1_slot by done. done.
  - intros a Ha [r Hr]. rewrite (step2_slot _ _ _ _ _ Ha Hr). done.
  - intros a Ha. rewrite (step3_slot _ _ _ _ _ Ha).
    by destruct (backend m STEP3).
  - apply no_analysis_no_slot.
Qed.

(** The run of [Examples.flaky_backend]: Claude's stage-2 slot holds the
    error text. *)
Lemma stage_slots_hold_placeholders_witness :
  MultiPerspectiveAnalysis.step2_economic_environmental
    <$> Pipeline.analysis_of CLAUDE Examples.after_step2 =
  Some "Error in Step 2 analysis: timeout".
Proof.
  assert (CLAUDE <> JUDGE) as Hm by discriminate.
  destruct (stage_slots_hold_placeholders Decimal.float_of_str
              Examples.flaky_backend Examples.after_step1 CLAUDE Hm)
    as (_ & H2 & _).
  refine (H2 _ eq_refl _). vm_compute. eauto.
Defined.

(** ** The orchestrator *)

(** C7.  A query that is empty after trimming fails validation with the
    error [Query is required]; the orchestrator then returns the error
    dictionary with the validation message, the query and the elapsed
    time, and the run has done nothing: no node has run and no backend
    has been called. *)
Theorem empty_query_fails_validation
    (float_of_str : string -> option pyfloat)
    (backend : ModelType -> stage -> outcome string)
    (start_time end_time : pyfloat)
    (query perspective_1 perspective_2 perspective_3 universal_cot
       chain_of_thought_1 chain_of_thought_2 chain_of_thought_3 : string) :
  PyStr.strip query = EmptyString ->
  (forall p, InputPackage.query p = query ->
     InputPackage.validate_inputs p = Raised "Query is required") /\
  MultiPerspectiveEnsembleGraph.process_multi_perspective_query
    float_of_str backend start_time end_time query perspective_1
    perspective_2 perspective_3 universal_cot chain_of_thought_1
    chain_of_thought_2 chain_of_thought_3 =
  (Failed (<["processing_time" := VFloat (PyFloat.sub end_time start_time)]>
             (<["query" := VStr query]>
                (<["error" := VStr "Input validation failed: Query is required"]> ∅))),
   []).
Proof.
  intros Hq. split.
  - intros p <-. unfold InputPackage.validate_inputs. by rewrite Hq.
  - unfold MultiPerspectiveEnsembleGraph.process_multi_perspective_query,
      MultiPerspectiveEnsembleGraph.validate_and_prepare_inputs,
      InputPackage.validate_inputs.
    simpl. by rewrite Hq.
Qed.

(** A query of blanks and a line break. *)
Lemma empty_query_fails_validation_witness :
  snd (MultiPerspectiveEnsembleGraph.process_multi_perspective_query
         Decimal.float_of_str Examples.flaky_backend (Fin 10) (Fin 11)
         ("  " +:+ Examples.nl) "economic" "environmental" "technological"
         EmptyString EmptyString EmptyString EmptyString) = [].
Proof.
  rewrite (proj2 (empty_query_fails_validation Decimal.float_of_str
                    Examples.flaky_backend (Fin 10) (Fin 11)
                    ("  " +:+ Examples.nl) "economic" "environmental"
                    "technological" EmptyString EmptyString EmptyString
                    EmptyString eq_refl)).
  reflexivity.
Defined.

Section MetricFacts.
Import PyStr State Pipeline.
Local Open Scope Q_scope.

Lemma of_nat_positive n :
  (n <> 0)%nat -> (Z.of_nat n # 1 ?= 0) = Gt.
Proof. intros H. apply Qgt_alt. unfold Qlt. simpl. lia. Qed.

(** A length divided by a length that is not zero. *)
Lemma div_of_nat a b :
  (b <> 0)%nat ->
  PyFloat.div (PyFloat.of_nat a) (PyFloat.of_nat b) =
  Some (Fin (Qred (inject_Z (Z.of_nat a) / inject_Z (Z.of_nat b)))).
Proof. intros H. unfold PyFloat.div, PyFloat.of_nat. by rewrite of_nat_positive. Qed.

(** [min(r, 5.0)] of a number. *)
Lemma min_cap r :
  exists q, PyFloat.min (Fin r) (Fin 5) = Fin q /\ q == Qmin r 5 /\ q <= 5.
Proof.
  unfold PyFloat.min. simpl. destruct (5 ?= r) eqn:E.
  - apply Qeq_alt in E. exists r. split; [done|]. split.
    + symmetry. apply Q.min_l. rewrite E. apply Qle_refl.
    + rewrite E. apply Qle_refl.
  - apply Qlt_alt in E. exists 5. split; [done|]. split.
    + symmetry. apply Q.min_r. by apply Qlt_le_weak.
    + apply Qle_refl.
  - apply Qgt_alt in E. exists r. split; [done|]. split.
    + symmetry. apply Q.min_l. by apply Qlt_le_weak.
    + by apply Qlt_le_weak.
Qed.

(** The average of a list that is not empty never raises. *)
Lemma average_cons x xs : is_Some (average (x :: xs)).
Proof.
  unfold average, PyFloat.div, PyFloat.of_nat.
  rewrite of_nat_positive by done. eauto.
Qed.

End MetricFacts.

Section PerformanceFacts.
Import PyStr State Pipeline.
Local Open Scope Q_scope.

Lemma length_improvement_baseline key ens b metrics :
  length_improvement key ens (Some b) metrics = Some (<[key := capped_ratio ens b]> metrics).
Proof. unfold length_improvement. rewrite div_of_nat by lia. done. Qed.

Lemma length_improvement_none key ens metrics :
  length_improvement key ens None metrics = Some metrics.
Proof. done. Qed.

Lemma length_metrics_entries (st : State.t) :
  truthy (final_synthesis st) = true ->
  exists m0, length_metrics st = Some m0 /\
    forall m b, baseline_of m st = Some b ->
      m0 !! length_key m = Some (capped_ratio (final_synthesis st) b).
Proof.
  intros Ht. unfold length_metrics. rewrite Ht.
  destruct (claude_baseline st) as [cb|] eqn:Hc;
    destruct (gpt_baseline st) as [gb|] eqn:Hg;
    destruct (grok_baseline st) as [kb|] eqn:Hk;
    repeat (rewrite ?length_improvement_baseline, ?length_improvement_none;
            cbn [mbind option_bind]);
    (eexists; split; [reflexivity|]);
    intros [] b; unfold baseline_of; rewrite ?Hc, ?Hg, ?Hk; intros [= <-];
    by simplify_map_eq.
Qed.

Lemma confidence_metrics_keeps (st : State.t) m0 :
  exists m3, confidence_metrics st m0 = Some m3 /\
    forall m, m3 !! length_key m = m0 !! length_key m.
Proof.
  unfold confidence_metrics.
  destruct (present MultiPerspectiveAnalysis.final_confidence _) as [|f fs];
    [by eexists|].
  destruct (present BaselineResponse.confidence _) as [|b bs]; [by eexists|].
  destruct (average_cons f fs) as [af ->], (average_cons b bs) as [ab ->].
  eexists; split; [reflexivity|]. intros []; by simplify_map_eq.
Qed.

Lemma overall_metrics_keeps m3 :
  exists metrics, overall_metrics m3 = Some metrics /\
    forall m, metrics !! length_key m = m3 !! length_key m.
Proof.
  unfold overall_metrics.
  destruct (omap _ length_keys) as [|x xs]; [by eexists|].
  destruct (average_cons x xs) as [avg ->].
  eexists; split; [reflexivity|]. intros []; by simplify_map_eq.
Qed.

End PerformanceFacts.

(** C5.  For a state with a final synthesis that is not empty, the
    performance node returns its updates (no division by zero occurs), and
    in the [improvement_metrics] it records, the length improvement of
    every backend with a baseline is the ratio of the length of the final
    synthesis to the length of that baseline, a baseline of length zero
    counting as length one, capped at 5.0. *)
Theorem length_improvement_capped (st : State.t) :
  PyStr.truthy (State.final_synthesis st) = true ->
  exists metrics,
    fst (Pipeline.performance_logging_node st) =
      Some [State.U_improvement_metrics metrics; State.U_logging_complete true] /\
    forall m b, Pipeline.baseline_of m st = Some b ->
      exists q, metrics !! Pipeline.length_key m = Some (Fin q) /\
        (q == Qmin (inject_Z (Z.of_nat (String.length (State.final_synthesis st)))
                    / inject_Z (Z.of_nat
                        (Nat.max (String.length (BaselineResponse.content b)) 1)))
                   5)%Q /\
        (q <= 5)%Q.
Proof.
  intros Ht. unfold Pipeline.performance_logging_node.
  destruct (length_metrics_entries st Ht) as (m0 & -> & H0).
  destruct (confidence_metrics_keeps st m0) as (m3 & H3 & K3).
  destruct (overall_metrics_keeps m3) as (metrics & H & K).
  cbn [mbind option_bind]. rewrite H3. cbn [mbind option_bind]. rewrite H.
  exists metrics. split; [done|].
  intros m b Hb. rewrite K, K3, (H0 m b Hb). unfold Pipeline.capped_ratio.
  destruct (min_cap (Qred (inject_Z (Z.of_nat (String.length (State.final_synthesis st)))
                           / inject_Z (Z.of_nat
                               (Nat.max (String.length (BaselineResponse.content b)) 1)))))
    as (q & -> & Hq & Hle).
  exists q. split; [done|]. split; [|done].
  rewrite Hq. by rewrite Qred_correct.
Qed.

(** A baseline of length 1 and a final synthesis of length 10000: the
    metric is 5.0. *)
Lemma length_improvement_capped_witness :
  String.length (State.final_synthesis Examples.short_baseline_state) = 100 * 100 /\
  exists metrics,
    fst (Pipeline.performance_logging_node Examples.short_baseline_state) =
      Some [State.U_improvement_metrics metrics; State.U_logging_complete true] /\
    exists q, metrics !! Pipeline.length_key CLAUDE = Some (Fin q) /\ (q == 5)%Q.
Proof.
  split; [by vm_compute|].
  destruct (length_improvement_capped Examples.short_baseline_state eq_refl)
    as (metrics & Hm & H).
  exists metrics. split; [exact Hm|].
  destruct (H CLAUDE (BaselineResponse.mk CLAUDE "x" (Fin (1 # 2))) eq_refl)
    as (q & Hq & Heq & _).
  exists q. split; [exact Hq|]. rewrite Heq. by vm_compute.
Defined.

Section AdvantageFacts.
Import PyStr State Pipeline.
Local Open Scope Q_scope.

(** [x / max(a, 1)] never divides by zero. *)
Lemma div_max_one x a : is_Some (PyFloat.div x (PyFloat.max a (Fin 1))).
Proof.
  destruct a as [q| | |]; unfold PyFloat.max; simpl;
    try by (destruct x; eauto).
  destruct (q ?= 1) eqn:E; simpl.
  - apply Qeq_alt in E. assert ((q ?= 0) = Gt) as ->; [|eauto].
    apply Qgt_alt. by rewrite E.
  - destruct x; eauto.
  - apply Qgt_alt in E. assert ((q ?= 0) = Gt) as ->; [|eauto].
    apply Qgt_alt. by apply Qlt_trans with 1.
Qed.

Lemma comprehensiveness_metrics_returns final_state :
  is_Some (MultiPerspectiveEnsembleGraph.comprehensiveness_metrics final_state).
Proof.
  unfold MultiPerspectiveEnsembleGraph.comprehensiveness_metrics.
  destruct (omap _ _) as [|s ss]; [by eexists|].
  destruct (present _ _) as [|b bs]; [by eexists|].
  destruct (average_cons s ss) as [avs ->], (average_cons b bs) as [avb ->].
  cbn [mbind option_bind].
  destruct (div_max_one avs avb) as [d ->]. by eexists.
Qed.

(** The three constants of [baseline_confidences] average to 0.5. *)
Lemma average_default_baseline :
  average [Fin (1 # 2); Fin (1 # 2); Fin (1 # 2)] = Some (Fin (1 # 2)).
Proof. reflexivity. Qed.

End AdvantageFacts.

(** C10.  Whenever the final state has the analysis of at least one
    backend, [_calculate_advantage_metrics] returns its metrics, and the
    [confidence_improvement] among them is the average of the final
    confidences of the backends that have an analysis, minus the constant
    0.5: the confidences of the baseline responses are not read. *)
Theorem advantage_confidence_against_constant (final_state : State.t) :
  let final_confidences :=
    Pipeline.present MultiPerspectiveAnalysis.final_confidence
      [State.claude_analysis final_state; State.gpt_analysis final_state;
       State.grok_analysis final_state] in
  final_confidences <> [] ->
  exists metrics avg_final_confidence,
    MultiPerspectiveEnsembleGraph._calculate_advantage_metrics final_state = Some metrics /\
    Pipeline.average final_confidences = Some avg_final_confidence /\
    metrics !! "confidence_improvement" =
      Some (PyFloat.sub avg_final_confidence (Fin (1 # 2))).
Proof.
  intros final_confidences Hne.
  unfold MultiPerspectiveEnsembleGraph._calculate_advantage_metrics.
  fold final_confidences.
  destruct (comprehensiveness_metrics_returns final_state) as [metrics0 ->].
  cbn [mbind option_bind].
  destruct final_confidences as [|f fs]; [done|].
  destruct (average_cons f fs) as [avg Havg]. rewrite Havg.
  rewrite average_default_baseline. cbn [mbind option_bind].
  eexists _, avg. split; [reflexivity|]. split; [reflexivity|].
  by simplify_map_eq.
Qed.

(** In the run of [Examples.flaky_backend] Claude's baseline call failed
    and its BaselineResponse has confidence 0.0; the three final
    confidences are 0.8, and the improvement is 0.8 - 0.5. *)
Lemma advantage_confidence_against_constant_witness :
  BaselineResponse.confidence <$> State.claude_baseline Examples.after_step3 =
    Some (Fin 0) /\
  exists metrics,
    MultiPerspectiveEnsembleGraph._calculate_advantage_metrics Examples.after_step3 =
      Some metrics /\
    metrics !! "confidence_improvement" = Some (Fin (3 # 10)).
Proof.
  split; [reflexivity|].
  destruct (advantage_confidence_against_constant Examples.after_step3)
    as (metrics & avg & Hm & Ha & Hc); [discriminate|].
  exists metrics. split; [exact Hm|].
  rewrite Hc. vm_compute in Ha. injection Ha as <-. reflexivity.
Defined.

(** ** The progress channel *)

Section ChannelFacts.
Import WebSocketServer.
Variable json_loads : string -> json + exn.
Variable py_repr : json -> string.
Variable websocket_send : server_message -> outcome unit.
Variable handle_start_analysis : json -> outcome unit * list server_message.

Lemma eq_str_false v s : v <> JString s -> eq_str v s = false.
Proof.
  destruct v; simpl; try done. intros H.
  apply String.eqb_neq. congruence.
Qed.

Lemma send_to_client_returns m :
  send_to_client websocket_send m = (Returned tt, [m]).
Proof. unfold send_to_client. by destruct (websocket_send m) as [[]|]. Qed.

(** No exception leaves the handler. *)
Lemma handle_client_message_returns message_str :
  fst (handle_client_message json_loads py_repr websocket_send
         handle_start_analysis message_str) = Returned tt.
Proof.
  unfold handle_client_message.
  destruct (json_loads message_str) as [data|[msg|msg]];
    rewrite ?send_to_client_returns; try done.
  destruct (get data "type") as [message_type|e];
    rewrite ?send_to_client_returns; try done.
  destruct (eq_str message_type "start_analysis").
  - destruct (handle_start_analysis data) as [[[]|e] sent];
      rewrite ?send_to_client_returns; done.
  - destruct (eq_str message_type "ping"); by rewrite ?send_to_client_returns.
Qed.

(** The loop handles every message of the connection. *)
Lemma serve_handles_all incoming :
  fst (serve json_loads py_repr websocket_send handle_start_analysis incoming)
  = List.length incoming.
Proof.
  induction incoming as [|message rest IH]; simpl; [done|].
  pose proof (handle_client_message_returns message) as H.
  destruct (handle_client_message _ _ _ _ message) as [r sent]. simpl in H. subst r.
  destruct (serve _ _ _ _ rest) as [n sent']. simpl in *. by rewrite IH.
Qed.

End ChannelFacts.



(** * Further properties of the code *)

(** ** A whole run *)

Section RunFacts.
Import PyStr State Pipeline MultiPerspectiveEnsembleGraph.
Variable float_of_str : string -> option pyfloat.
Variable backend : ModelType -> stage -> outcome string.

Lemma length_metrics_returns st : is_Some (length_metrics st).
Proof.
  destruct (truthy (final_synthesis st)) eqn:Ht.
  - destruct (length_metrics_entries st Ht) as (m0 & -> & _). eauto.
  - unfold length_metrics. rewrite Ht. eauto.
Qed.

(** No exception leaves the performance node. *)
Lemma performance_logging_node_returns st :
  exists metrics,
    performance_logging_node st =
    (Some [U_improvement_metrics metrics; U_logging_complete true],
     [LogResult (InputPackage.query (input_package st)) (final_synthesis st)]).
Proof.
  unfold performance_logging_node.
  destruct (length_metrics_returns st) as [m0 ->].
  destruct (confidence_metrics_keeps st m0) as (m3 & H3 & _).
  destruct (overall_metrics_keeps m3) as (metrics & H & _).
  cbn [mbind option_bind]. rewrite H3. cbn [mbind option_bind]. rewrite H.
  by exists metrics.
Qed.

(** The state before the performance node and the calls made so far. *)
Lemma run_before_logging st0 :
  exists st,
    run_node (judge_evaluation_node float_of_str backend)
      (run_node (step3_technological_synthesis_node float_of_str backend)
         (run_node (step2_environmental_analysis_node backend)
            (run_node (step1_economic_analysis_node float_of_str backend)
               (run_node (baseline_analysis_node backend) (st0, [])))))
    = (st, stage_calls) /\
    (baselines_complete st = true /\ step1_complete st = true /\
     step2_complete st = true /\ step3_complete st = true /\
     judging_complete st = true) /\
    input_package st = input_package st0 /\
    forall m, m <> JUDGE ->
      is_Some (baseline_of m st) /\
      exists a r,
        analysis_of m st = Some a /\
        MultiPerspectiveAnalysis.model_type a = m /\
        MultiPerspectiveAnalysis.step1_economic a = Some r /\
        MultiPerspectiveAnalysis.step2_economic_environmental a =
          match backend m STEP2 with
          | Returned content => content
          | Raised e => "Error in Step 2 analysis: " +:+ e
          end /\
        MultiPerspectiveAnalysis.reasoning_evolution a =
          ["Step 1: Economic analysis completed";
           "Step 2: Environmental comparison completed";
           "Step 3: Complete synthesis with technological perspective"].
Proof.
  unfold run_node, judge_evaluation_node, step3_technological_synthesis_node,
    step2_environmental_analysis_node, step1_economic_analysis_node,
    baseline_analysis_node, _step2_analysis, _step3_synthesis,
    _analyze_perspective, _get_baseline, judge_text, invoke.
  cbn -[insert].
  destruct (backend JUDGE JUDGE_EVALUATION); cbn -[insert]; eexists;
    (split; [reflexivity|]); (split; [done|]); (split; [done|]);
    intros [] Hm; try done; cbn; eauto 10.
Qed.

(** The run as a whole: the state it returns and what it did. *)
Lemma ainvoke_result st0 :
  exists st metrics,
    ainvoke float_of_str backend st0 =
      (Returned (merge st [U_improvement_metrics metrics; U_logging_complete true]),
       stage_calls
         ++ [LogResult (InputPackage.query (input_package st0)) (final_synthesis st)]) /\
    fst (performance_logging_node st) =
      Some [U_improvement_metrics metrics; U_logging_complete true] /\
    (baselines_complete st = true /\ step1_complete st = true /\
     step2_complete st = true /\ step3_complete st = true /\
     judging_complete st = true) /\
    input_package st = input_package st0 /\
    forall m, m <> JUDGE ->
      is_Some (baseline_of m st) /\
      exists a r,
        analysis_of m st = Some a /\
        MultiPerspectiveAnalysis.model_type a = m /\
        MultiPerspectiveAnalysis.step1_economic a = Some r /\
        MultiPerspectiveAnalysis.step2_economic_environmental a =
          match backend m STEP2 with
          | Returned content => content
          | Raised e => "Error in Step 2 analysis: " +:+ e
          end /\
        MultiPerspectiveAnalysis.reasoning_evolution a =
          ["Step 1: Economic analysis completed";
           "Step 2: Environmental comparison completed";
           "Step 3: Complete synthesis with technological perspective"].
Proof.
  destruct (run_before_logging st0) as (st & Hrun & Hflags & Hpkg & Han).
  destruct (performance_logging_node_returns st) as [metrics Hperf].
  exists st, metrics. unfold ainvoke. rewrite Hrun, Hperf, Hpkg. done.
Qed.

(** The flags of the state a run returns. *)
Lemma ainvoke_flags st0 :
  exists final,
    fst (ainvoke float_of_str backend st0) = Returned final /\
    baselines_complete final = true /\ step1_complete final = true /\
    step2_complete final = true /\ step3_complete final = true /\
    judging_complete final = true /\ logging_complete final = true /\
    input_package final = input_package st0.
Proof.
  destruct (ainvoke_result st0)
    as (st & metrics & -> & _ & (H0 & H1 & H2 & H3 & H4) & Hpkg & _).
  eexists. split; [reflexivity|]. cbn. by rewrite H0, H1, H2, H3, H4, Hpkg.
Qed.

End RunFacts.





Lemma advantage_metrics_returns final_state :
  is_Some (MultiPerspectiveEnsembleGraph._calculate_advantage_metrics final_state).
Proof.
  unfold MultiPerspectiveEnsembleGraph._calculate_advantage_metrics.
  destruct (comprehensiveness_metrics_returns final_state) as [metrics0 ->].
  cbn [mbind option_bind].
  destruct (Pipeline.present _ _) as [|f fs]; [eauto|].
  destruct (average_cons f fs) as [avg ->].
  rewrite average_default_baseline. cbn [mbind option_bind]. eauto.
Qed.



(** ** The judge's final evaluation *)

Lemma judge_score_clamped_default_aux
    (float_of_str : string -> option pyfloat) (content : string) :
  forall score_name,
    PyFloat.in_unit (Nodes._extract_judge_score float_of_str content score_name).
Proof.
  intros score_name. unfold Nodes._extract_judge_score.
  rewrite judge_score_scan_find.
  destruct (find _ _) as [line|]; [|apply default_score_in_unit].
  destruct (PyStr.split1_snd _ line); [|apply default_score_in_unit].
  destruct (float_of_str _); [apply clamp_in_unit | apply default_score_in_unit].
Qed.

(** X5.  After the final evaluation the quality scores are sound in both
    cases.  When the judge answers, the scores are exactly those of
    [claude], [gpt] and [grok], each a number of [0, 1]; when the judge's
    call raises, the scores keep the value they had, the final synthesis
    is the text [Unable to complete judge evaluation], and the judge
    analysis is the error text.  The stage is marked complete either way. *)
Theorem judge_evaluation_scores
    (float_of_str : string -> option pyfloat)
    (backend : ModelType -> stage -> outcome string) (st : State.t) :
  let st' :=
    State.merge st (fst (Pipeline.judge_evaluation_node float_of_str backend st)) in
  State.judging_complete st' = true /\
  (forall content, backend JUDGE JUDGE_EVALUATION = Returned content ->
     dom (State.quality_scores st') = ({["claude"; "gpt"; "grok"]} : gset string) /\
     (forall k v, State.quality_scores st' !! k = Some v -> PyFloat.in_unit v) /\
     State.final_synthesis st' = Nodes._extract_judge_section content "FINAL_SYNTHESIS") /\
  (forall e, backend JUDGE JUDGE_EVALUATION = Raised e ->
     State.quality_scores st' = State.quality_scores st /\
     State.final_synthesis st' = "Unable to complete judge evaluation" /\
     State.judge_analysis st' = "Error in judge evaluation: " +:+ e).
Proof.
  intros st'. unfold st', Pipeline.judge_evaluation_node, Pipeline.invoke.
  destruct (backend JUDGE JUDGE_EVALUATION) as [content|e]; cbn -[insert].
  - split; [done|]. split; [|done]. intros c [= <-]. split; [|split; [|done]].
    + rewrite !dom_insert_L, dom_empty_L. set_solver.
    + intros k v Hk.
      pose proof (judge_score_clamped_default_aux float_of_str content) as H.
      apply lookup_insert_Some in Hk as [[_ <-]|[_ Hk]]; [apply H|].
      apply lookup_insert_Some in Hk as [[_ <-]|[_ Hk]]; [apply H|].
      apply lookup_insert_Some in Hk as [[_ <-]|[_ Hk]]; [apply H|].
      by rewrite lookup_empty in Hk.
  - split; [done|]. split; [done|]. by intros e' [= <-].
Qed.

(** The judge of [Examples.flaky_backend] answers without score lines:
    the three scores are the default. *)
Lemma judge_evaluation_scores_witness :
  State.quality_scores
    (State.merge Examples.after_step3
       (fst (Pipeline.judge_evaluation_node Decimal.float_of_str
               Examples.flaky_backend Examples.after_step3))) !! "gpt" =
  Some (Fin (1 # 2)) /\
  PyFloat.in_unit (Fin (1 # 2)).
Proof.
  split; [reflexivity|].
  destruct (judge_evaluation_scores Decimal.float_of_str Examples.flaky_backend
              Examples.after_step3) as (_ & H & _).
  destruct (H _ eq_refl) as (_ & Hin & _).
  apply (Hin "gpt"). reflexivity.
Defined.

(** ** The metrics of the performance node *)

Section MetricBounds.
Import PyStr State Pipeline.
Local Open Scope Q_scope.

Lemma capped_ratio_bounded ens b : in_interval 0 5 (capped_ratio ens b).
Proof.
  unfold capped_ratio.
  destruct (min_cap (Qred (inject_Z (Z.of_nat (String.length ens))
                           / inject_Z (Z.of_nat
                               (Nat.max (String.length (BaselineResponse.content b)) 1)))))
    as (q & -> & Hq & Hle).
  exists q. split; [done|]. split; [|done].
  rewrite Hq, Qred_correct. apply Q.min_glb; [|discriminate].
  apply Qle_shift_div_l.
  - unfold Qlt. simpl. lia.
  - unfold Qle. simpl. lia.
Qed.

(** The length-based entries are capped ratios, and there are no others. *)
Lemma length_metrics_values st m0 :
  length_metrics st = Some m0 ->
  forall k v, m0 !! k = Some v ->
    In k length_keys /\ in_interval 0 5 v.
Proof.
  unfold length_metrics. destruct (truthy (final_synthesis st)).
  - destruct (claude_baseline st) as [cb|];
      destruct (gpt_baseline st) as [gb|];
      destruct (grok_baseline st) as [kb|];
      repeat (rewrite ?length_improvement_baseline, ?length_improvement_none;
              cbn [mbind option_bind]);
      intros [= <-] k v Hk;
      repeat (apply lookup_insert_Some in Hk as [[<- <-]|[_ Hk]];
              [split; [cbn; tauto | apply capped_ratio_bounded]|]);
      by rewrite lookup_empty in Hk.
  - intros [= <-] k v Hk. by rewrite lookup_empty in Hk.
Qed.

(** The sum of numbers of [0, 5]. *)
Lemma sum_bounded xs :
  Forall (in_interval 0 5) xs ->
  forall acc, exists q,
    fold_left PyFloat.add xs (Fin acc) = Fin q /\
    acc <= q /\ q <= acc + 5 * inject_Z (Z.of_nat (List.length xs)).
Proof.
  induction 1 as [|x xs (x' & -> & Hx0 & Hx5) _ IH]; intros acc.
  - exists acc. split; [done|]. change (inject_Z (Z.of_nat (List.length (@nil pyfloat)))) with 0. lra.
  - destruct (IH (Qred (acc + x'))) as (q & Hq & Hlo & Hhi).
    exists q. split; [exact Hq|].
    rewrite Qred_correct in Hlo, Hhi.
    change (List.length (Fin x' :: xs)) with (S (List.length xs)).
    rewrite Nat2Z.inj_succ. unfold Z.succ. rewrite inject_Z_plus.
    change (inject_Z 1) with 1. lra.
Qed.

(** The average of numbers of [0, 5]. *)
Lemma average_bounded x xs :
  Forall (in_interval 0 5) (x :: xs) ->
  exists v, average (x :: xs) = Some v /\ in_interval 0 5 v.
Proof.
  intros H. unfold average, PyFloat.sum.
  destruct (sum_bounded _ H 0) as (q & -> & Hlo & Hhi).
  unfold PyFloat.div, PyFloat.of_nat. rewrite of_nat_positive by done.
  eexists. split; [reflexivity|]. eexists. split; [reflexivity|].
  rewrite Qred_correct.
  assert (0 < Z.of_nat (List.length (x :: xs)) # 1) as Hn.
  { unfold Qlt. simpl. lia. }
  change (Z.of_nat (List.length (x :: xs)) # 1)
    with (inject_Z (Z.of_nat (List.length (x :: xs)))) in *.
  split.
  - apply Qle_shift_div_l; [done|]. lra.
  - apply Qle_shift_div_r; [done|]. lra.
Qed.

Lemma overall_metrics_other m3 :
  exists metrics, overall_metrics m3 = Some metrics /\
    (forall k, k <> "average_length_improvement" -> metrics !! k = m3 !! k) /\
    (forall v, metrics !! "average_length_improvement" = Some v ->
       m3 !! "average_length_improvement" = Some v \/
       exists x xs, omap (fun k => m3 !! k) length_keys = x :: xs /\
                    average (x :: xs) = Some v).
Proof.
  unfold overall_metrics.
  destruct (omap _ length_keys) as [|x xs] eqn:E.
  - exists m3. split; [done|]. split; [done|]. eauto.
  - destruct (average_cons x xs) as [avg Havg]. rewrite Havg.
    eexists; split; [reflexivity|]. split.
    + intros k Hk. by rewrite lookup_insert_ne.
    + intros v. rewrite lookup_insert_eq. intros [= <-]. right. eauto.
Qed.

Lemma confidence_metrics_entries (st : State.t) m0 :
  let finals :=
    present MultiPerspectiveAnalysis.final_confidence
      [claude_analysis st; gpt_analysis st; grok_analysis st] in
  let bases :=
    present BaselineResponse.confidence
      [claude_baseline st; gpt_baseline st; grok_baseline st] in
  exists m3, confidence_metrics st m0 = Some m3 /\
    (forall k, k <> "confidence_improvement" ->
       k <> "average_final_confidence" -> k <> "average_baseline_confidence" ->
       m3 !! k = m0 !! k) /\
    (finals <> [] -> bases <> [] ->
       exists af ab, average finals = Some af /\ average bases = Some ab /\
         m3 !! "confidence_improvement" = Some (PyFloat.sub af ab) /\
         m3 !! "average_final_confidence" = Some af /\
         m3 !! "average_baseline_confidence" = Some ab) /\
    (finals = [] \/ bases = [] -> m3 = m0).
Proof.
  intros finals bases. unfold confidence_metrics. fold finals bases.
  destruct finals as [|f fs].
  { exists m0. split; [done|]. split; [done|]. split; [done|]. done. }
  destruct bases as [|b bs].
  { exists m0. split; [done|]. split; [done|]. split; [done|]. done. }
  destruct (average_cons f fs) as [af Haf], (average_cons b bs) as [ab Hab].
  rewrite Haf, Hab. cbn [mbind option_bind].
  eexists; split; [reflexivity|]. split; [|split].
  - intros k H1 H2 H3. by rewrite !lookup_insert_ne.
  - intros _ _. exists af, ab. by simplify_map_eq.
  - by intros [|].
Qed.

End MetricBounds.

Section PerformanceNodeFacts.
Import PyStr State Pipeline.

(** The three phases of the node, taken together. *)
Lemma performance_phases st :
  exists m0 m3 metrics,
    length_metrics st = Some m0 /\
    confidence_metrics st m0 = Some m3 /\
    overall_metrics m3 = Some metrics /\
    fst (performance_logging_node st) =
      Some [U_improvement_metrics metrics; U_logging_complete true].
Proof.
  destruct (length_metrics_returns st) as [m0 H0].
  destruct (confidence_metrics_keeps st m0) as (m3 & H3 & _).
  destruct (overall_metrics_keeps m3) as (metrics & H & _).
  exists m0, m3, metrics. unfold performance_logging_node.
  rewrite H0. cbn [mbind option_bind]. rewrite H3. cbn [mbind option_bind].
  by rewrite H.
Qed.

End PerformanceNodeFacts.

(** X6.  The confidence improvement that the performance node records is
    measured against the baseline responses themselves: it is the average
    of the final confidences minus the average of the confidences of the
    baseline responses that exist, recorded together with the two
    averages.  When no backend has an analysis, or none has a baseline,
    the entry is not made. *)
Theorem performance_confidence_improvement (st : State.t) :
  let finals :=
    Pipeline.present MultiPerspectiveAnalysis.final_confidence
      [State.claude_analysis st; State.gpt_analysis st; State.grok_analysis st] in
  let bases :=
    Pipeline.present BaselineResponse.confidence
      [State.claude_baseline st; State.gpt_baseline st; State.grok_baseline st] in
  exists metrics,
    fst (Pipeline.performance_logging_node st) =
      Some [State.U_improvement_metrics metrics; State.U_logging_complete true] /\
    (finals <> [] -> bases <> [] ->
       exists avg_final avg_baseline,
         Pipeline.average finals = Some avg_final /\
         Pipeline.average bases = Some avg_baseline /\
         metrics !! "confidence_improvement" =
           Some (PyFloat.sub avg_final avg_baseline) /\
         metrics !! "average_final_confidence" = Some avg_final /\
         metrics !! "average_baseline_confidence" = Some avg_baseline) /\
    (finals = [] \/ bases = [] -> metrics !! "confidence_improvement" = None).
Proof.
  intros finals bases.
  destruct (performance_phases st) as (m0 & m3 & metrics & H0 & H3 & H & Hnode).
  exists metrics. split; [exact Hnode|].
  destruct (confidence_metrics_entries st m0) as (m3' & H3' & _ & Hsome & Hnone).
  rewrite H3 in H3'. injection H3' as <-.
  destruct (overall_metrics_other m3) as (metrics' & H' & Hother & _).
  rewrite H in H'. injection H' as <-.
  split.
  - intros Hf Hb. destruct (Hsome Hf Hb) as (af & ab & Haf & Hab & Hc & Hcf & Hcb).
    exists af, ab. rewrite !Hother by done. done.
  - intros Hempty. rewrite Hother by done. rewrite (Hnone Hempty).
    destruct (m0 !! "confidence_improvement") as [v|] eqn:E; [|done].
    destruct (length_metrics_values st m0 H0 _ _ E) as [Hin _].
    cbn in Hin. by repeat destruct Hin as [Hin|Hin].
Qed.

(** In the run of [Examples.flaky_backend] Claude's baseline has
    confidence 0.0 and the two others 0.5: the final confidences of 0.8
    are 7/15 above their average, not 0.3. *)
Lemma performance_confidence_improvement_witness :
  exists metrics,
    fst (Pipeline.performance_logging_node Examples.after_step3) =
      Some [State.U_improvement_metrics metrics; State.U_logging_complete true] /\
    metrics !! "confidence_improvement" = Some (Fin (7 # 15)).
Proof.
  destruct (performance_confidence_improvement Examples.after_step3)
    as (metrics & Hnode & Hsome & _).
  exists metrics. split; [exact Hnode|].
  destruct Hsome as (af & ab & Haf & Hab & -> & _); [discriminate..|].
  vm_compute in Haf, Hab. injection Haf as <-. injection Hab as <-. reflexivity.
Defined.

(** The entry of a backend with a baseline. *)
Lemma performance_length_entry st m b metrics :
  PyStr.truthy (State.final_synthesis st) = true ->
  Pipeline.baseline_of m st = Some b ->
  fst (Pipeline.performance_logging_node st) =
    Some [State.U_improvement_metrics metrics; State.U_logging_complete true] ->
  metrics !! Pipeline.length_key m =
    Some (Pipeline.capped_ratio (State.final_synthesis st) b).
Proof.
  intros Ht Hb Hnode.
  destruct (performance_phases st) as (m0 & m3 & metrics' & H0 & H3 & H & Hnode').
  rewrite Hnode in Hnode'. injection Hnode' as <-.
  destruct (length_metrics_entries st Ht) as (m0' & H0' & Hentry).
  rewrite H0 in H0'. injection H0' as <-.
  destruct (confidence_metrics_keeps st m0) as (m3' & H3' & K3).
  rewrite H3 in H3'. injection H3' as <-.
  destruct (overall_metrics_keeps m3) as (metrics' & H' & K).
  rewrite H in H'. injection H' as <-.
  by rewrite K, K3, (Hentry m b Hb).
Qed.

(** X7.  Every length-based entry of the improvement metrics is a number
    between 0 and 5, the average length improvement included: no outlier
    gets past the cap, and the summary figure built from the average stays
    in that range. *)
Theorem length_improvements_bounded (st : State.t) :
  exists metrics,
    fst (Pipeline.performance_logging_node st) =
      Some [State.U_improvement_metrics metrics; State.U_logging_complete true] /\
    forall k v,
      In k ("average_length_improvement" :: Pipeline.length_keys) ->
      metrics !! k = Some v -> in_interval 0 5 v.
Proof.
  destruct (performance_phases st) as (m0 & m3 & metrics & H0 & H3 & H & Hnode).
  exists metrics. split; [exact Hnode|].
  destruct (confidence_metrics_entries st m0) as (m3' & H3' & Hkeep & _).
  rewrite H3 in H3'. injection H3' as <-.
  destruct (overall_metrics_other m3) as (metrics' & H' & Hother & Havg).
  rewrite H in H'. injection H' as <-.
  assert (forall k v, m3 !! k = Some v ->
            In k ("average_length_improvement" :: Pipeline.length_keys) ->
            in_interval 0 5 v) as Hm3.
  { intros k v Hk Hin. rewrite Hkeep in Hk.
    - by destruct (length_metrics_values st m0 H0 _ _ Hk).
    - cbn in Hin. by repeat destruct Hin as [<-|Hin].
    - cbn in Hin. by repeat destruct Hin as [<-|Hin].
    - cbn in Hin. by repeat destruct Hin as [<-|Hin]. }
  intros k v [<-|Hin] Hk.
  - destruct (Havg v Hk) as [Hold|(x & xs & Hl & Hav)].
    + apply (Hm3 _ _ Hold). by left.
    + destruct (average_bounded x xs) as (v' & Hv' & Hb).
      * rewrite <- Hl. apply Forall_forall. intros y Hy.
        apply list_elem_of_omap in Hy as (k & Hk' & Hy).
        apply (Hm3 _ _ Hy). right. by apply list_elem_of_In.
      * rewrite Hav in Hv'. by injection Hv' as <-.
  - rewrite Hother in Hk.
    + apply (Hm3 _ _ Hk). by right.
    + cbn in Hin. by repeat destruct Hin as [<-|Hin].
Qed.

(** Lengths 10000 and 1: the entry of Claude is there, and within the
    bounds. *)
Lemma length_improvements_bounded_witness :
  exists metrics v,
    fst (Pipeline.performance_logging_node Examples.short_baseline_state) =
      Some [State.U_improvement_metrics metrics; State.U_logging_complete true] /\
    metrics !! "claude_length_improvement" = Some v /\
    in_interval 0 5 v.
Proof.
  destruct (length_improvements_bounded Examples.short_baseline_state)
    as (metrics & Hnode & Hb).
  pose proof (performance_length_entry Examples.short_baseline_state CLAUDE
                (BaselineResponse.mk CLAUDE "x" (Fin (1 # 2))) metrics
                eq_refl eq_refl Hnode) as Hk.
  eexists metrics, _. split; [exact Hnode|]. split; [exact Hk|].
  apply (Hb "claude_length_improvement"); [|exact Hk].
  right. by left.
Defined.

(** ** The field-extraction protocol *)

Section ProtocolFacts.
Import PyStr.
Variable stops : list string.
Variable name : string.

Lemma capture_skip pre ls acc :
  (forall line, In line pre -> tagged name line = false) ->
  Nodes.capture stops name (pre ++ ls) false acc = Nodes.capture stops name ls false acc.
Proof.
  induction pre as [|l pre IH]; intros H; simpl; [done|].
  rewrite (H l) by (by left). simpl. apply IH. intros; apply H; by right.
Qed.

Lemma capture_body body ls acc :
  (forall line, In line body ->
     tagged name line = false /\ existsb (fun s => tagged s line) stops = false) ->
  Nodes.capture stops name (body ++ ls) true acc =
  Nodes.capture stops name ls true (acc ++ body).
Proof.
  revert acc. induction body as [|l body IH]; intros acc H; simpl.
  - by rewrite app_nil_r.
  - destruct (H l) as [-> ->]; [by left|]. simpl.
    rewrite IH by (intros; apply H; by right). by rewrite <- app_assoc.
Qed.

(** First matching tag wins, scan until the next known tag. *)
Lemma capture_protocol pre l0 body rest :
  (forall line, In line pre -> tagged name line = false) ->
  tagged name l0 = true ->
  (forall line, In line body ->
     tagged name line = false /\ existsb (fun s => tagged s line) stops = false) ->
  match rest with
  | [] => True
  | stop :: _ =>
      tagged name stop = false /\ existsb (fun s => tagged s stop) stops = true
  end ->
  exists v, split1_snd colon l0 = Some v /\
    Nodes.capture stops name (pre ++ l0 :: body ++ rest) false [] =
    Some (strip v :: body).
Proof.
  intros Hpre H0 Hbody Hrest.
  destruct (tagged_colon _ _ H0) as (v & Hv & _). exists v. split; [done|].
  rewrite capture_skip by done. simpl. rewrite H0, Hv.
  rewrite capture_body by done.
  destruct rest as [|stop post]; simpl; [done|].
  by destruct Hrest as [-> ->].
Qed.

End ProtocolFacts.

(** X8.  The protocol of the field extraction, for the two extractors of
    the stage nodes.  When the lines of a response are some lines without
    the tag, then a line with the tag, then lines that carry neither the
    tag nor a stop tag of the extractor, and then either nothing or a
    line with a stop tag, the extracted field is the trimmed text after
    the first colon of the tagged line followed by the lines in between,
    joined by line breaks and trimmed as a whole.  What follows the stop
    line plays no part. *)
Theorem section_runs_until_next_tag
    (content section_name : string) (pre : list string) (l0 : string)
    (body rest : list string) (stops : list string) :
  PyStr.lines content = pre ++ l0 :: body ++ rest ->
  (forall line, In line pre -> PyStr.tagged section_name line = false) ->
  PyStr.tagged section_name l0 = true ->
  (forall line, In line body ->
     PyStr.tagged section_name line = false /\
     existsb (fun s => PyStr.tagged s line) stops = false) ->
  match rest with
  | [] => True
  | stop :: _ =>
      PyStr.tagged section_name stop = false /\
      existsb (fun s => PyStr.tagged s stop) stops = true
  end ->
  exists v, PyStr.split1_snd PyStr.colon l0 = Some v /\
    (stops = Nodes.section_stops ->
     Nodes._extract_section content section_name =
     PyStr.strip (PyStr.unlines (PyStr.strip v :: body))) /\
    (stops = Nodes.judge_stops ->
     Nodes._extract_judge_section content section_name =
     PyStr.strip (PyStr.unlines (PyStr.strip v :: body))).
Proof.
  intros Hl Hpre H0 Hbody Hrest.
  destruct (capture_protocol stops section_name pre l0 body rest Hpre H0 Hbody Hrest)
    as (v & Hv & Hc).
  exists v. split; [exact Hv|]. split; intros ->.
  - unfold Nodes._extract_section. by rewrite Hl, Hc.
  - unfold Nodes._extract_judge_section. by rewrite Hl, Hc.
Qed.

(** The final synthesis of a judge response runs over the line of the
    methodology assessment, whose tag is no stop tag of the extractor,
    up to the first score line. *)
Lemma section_runs_until_next_tag_witness :
  Nodes._extract_judge_section MoreExamples.final_evaluation "FINAL_SYNTHESIS" =
  PyStr.strip
    (PyStr.unlines
       ["Solar is viable."; "  It pays back in ten years.";
        "METHODOLOGY_ASSESSMENT: three lenses helped"]).
Proof.
  destruct (section_runs_until_next_tag MoreExamples.final_evaluation
              "FINAL_SYNTHESIS" [] "FINAL_SYNTHESIS: Solar is viable."
              ["  It pays back in ten years.";
               "METHODOLOGY_ASSESSMENT: three lenses helped"]
              ["CLAUDE_SCORE: 0.9"; "GPT_SCORE: 0.8"] Nodes.judge_stops)
    as (v & Hv & _ & H).
  - reflexivity.
  - intros line [].
  - reflexivity.
  - intros line [<-|[<-|[]]]; split; reflexivity.
  - split; reflexivity.
  - injection Hv as <-. exact (H eq_refl).
Defined.

Section TrimFacts.
Import PyStr.

Lemma lstrip_headed s : headed (lstrip s).
Proof.
  induction s as [|c s IH]; simpl; [done|].
  destruct (is_space c) eqn:E; simpl; done.
Qed.

Lemma rstrip_headed s : headed s -> headed (rstrip s).
Proof.
  destruct s as [|c s]; simpl; [done|]. intros H.
  destruct (rstrip s); [rewrite H|]; done.
Qed.

Lemma lstrip_of_headed s : headed s -> lstrip s = s.
Proof. destruct s as [|c s]; simpl; [done|]. by intros ->. Qed.

Lemma rstrip_rstrip s : rstrip (rstrip s) = rstrip s.
Proof.
  induction s as [|c s IH]; simpl; [done|].
  destruct (rstrip s) as [|d r] eqn:E.
  - destruct (is_space c) eqn:Ec; simpl; [done|]. by rewrite Ec.
  - simpl in *. by rewrite IH.
Qed.

(** Trimming twice is trimming once. *)
Lemma strip_strip s : strip (strip s) = strip s.
Proof.
  unfold strip.
  rewrite (lstrip_of_headed (rstrip (lstrip s))).
  - apply rstrip_rstrip.
  - apply rstrip_headed, lstrip_headed.
Qed.

End TrimFacts.

(** X9.  The two section extractors of the stage nodes never fall back to
    the raw response: the [IndexError] that their [except] branch guards
    against cannot occur, so that the extracted field is always a trimmed
    text (trimming it again changes nothing) and is never longer than the
    response it was taken from. *)
Theorem extracted_section_trimmed_and_bounded (content section_name : string) :
  (PyStr.strip (Nodes._extract_section content section_name)
     = Nodes._extract_section content section_name /\
   String.length (Nodes._extract_section content section_name)
     <= String.length content) /\
  (PyStr.strip (Nodes._extract_judge_section content section_name)
     = Nodes._extract_judge_section content section_name /\
   String.length (Nodes._extract_judge_section content section_name)
     <= String.length content).
Proof.
  unfold Nodes._extract_section, Nodes._extract_judge_section.
  destruct (capture_weight Nodes.section_stops section_name (PyStr.lines content) false [])
    as (out & -> & Hw & _).
  destruct (capture_weight Nodes.judge_stops section_name (PyStr.lines content) false [])
    as (out' & -> & Hw' & _).
  rewrite weight_lines in Hw, Hw'. simpl in Hw, Hw'.
  pose proof (length_strip (PyStr.unlines out)) as Hs.
  pose proof (length_strip (PyStr.unlines out')) as Hs'.
  rewrite length_unlines in Hs, Hs'.
  rewrite !strip_strip. repeat split; lia.
Qed.

Lemma judge_capture_returns name ls : forall capturing acc,
  is_Some (UnbiasedJudge.capture name ls capturing acc).
Proof.
  induction ls as [|l ls IH]; intros capturing acc; simpl; [eauto|].
  destruct (PyStr.tagged name l) eqn:Ht.
  - destruct (tagged_colon _ _ Ht) as (v & -> & _).
    destruct (PyStr.truthy (PyStr.strip v)); apply IH.
  - destruct (capturing && _); [eauto|].
    destruct capturing; apply IH.
Qed.

(** X10.  The section extractor of the judge never answers with an empty
    text for a response that is not empty: it returns a trimmed text that
    is not empty, or else the whole response. *)
Theorem judge_section_never_empty (content section_name : string) :
  (UnbiasedJudge._extract_section content section_name = content \/
   (PyStr.strip (UnbiasedJudge._extract_section content section_name)
      = UnbiasedJudge._extract_section content section_name /\
    PyStr.truthy (UnbiasedJudge._extract_section content section_name) = true)) /\
  (PyStr.truthy content = true ->
   PyStr.truthy (UnbiasedJudge._extract_section content section_name) = true).
Proof.
  unfold UnbiasedJudge._extract_section.
  destruct (judge_capture_returns section_name (PyStr.lines content) false [])
    as [out ->].
  destruct (PyStr.truthy (PyStr.strip (PyStr.unlines out))) eqn:Ht.
  - split; [|done]. right. by rewrite strip_strip.
  - split; [by left | done].
Qed.

Lemma judge_section_never_empty_witness :
  PyStr.truthy (UnbiasedJudge._extract_section Examples.untagged "ANALYSIS") = true.
Proof.
  apply (proj2 (judge_section_never_empty Examples.untagged "ANALYSIS")).
  reflexivity.
Defined.

(** ** Stage 2 without a stage-1 analysis *)

Set Warnings "-clear-no-such-hyp".

(** X11.  Stage 2 calls a model backend exactly when the state holds an
    analysis record of that backend with a stage-1 response.  A backend
    without record is not called and gets none; for a record without
    stage-1 response no call is made and the slot receives the text
    [No economic analysis available for comparison].  The judge is called
    in every case. *)
Theorem step2_calls_only_analysed_backends
    (backend : ModelType -> stage -> outcome string) (st : State.t)
    (m : ModelType) :
  m <> JUDGE ->
  let node := Pipeline.step2_environmental_analysis_node backend st in
  (In (Invoke m STEP2) (snd node) <->
   exists a r, Pipeline.analysis_of m st = Some a /\
               MultiPerspectiveAnalysis.step1_economic a = Some r) /\
  In (Invoke JUDGE STEP2) (snd node) /\
  (forall a, Pipeline.analysis_of m st = Some a ->
     MultiPerspectiveAnalysis.step1_economic a = None ->
     MultiPerspectiveAnalysis.step2_economic_environmental
       <$> Pipeline.analysis_of m (State.merge st (fst node)) =
     Some "No economic analysis available for comparison").
Proof.
  intros Hm node. unfold node, Pipeline.step2_environmental_analysis_node,
    Pipeline._step2_analysis, Pipeline.invoke, Pipeline.judge_text.
  destruct m; try done; cbn [Pipeline.analysis_of];
    destruct (State.claude_analysis st) as [[? [?|] ? ? ? ?]|] eqn:?;
    destruct (State.gpt_analysis st) as [[? [?|] ? ? ? ?]|] eqn:?;
    destruct (State.grok_analysis st) as [[? [?|] ? ? ? ?]|] eqn:?;
    cbn; (split; [|split]); try naive_solver.
Qed.

(** Before stage 1 no backend has a record, and stage 2 calls the judge
    only. *)
Lemma step2_calls_only_analysed_backends_witness :
  snd (Pipeline.step2_environmental_analysis_node Examples.flaky_backend
         (State.initial
            (InputPackage.mk "q" "economic" "environmental" "technological"
               EmptyString ∅))) = [Invoke JUDGE STEP2] /\
  ~ In (Invoke GPT STEP2)
      (snd (Pipeline.step2_environmental_analysis_node Examples.flaky_backend
              (State.initial
                 (InputPackage.mk "q" "economic" "environmental" "technological"
                    EmptyString ∅)))).
Proof.
  split; [reflexivity|].
  assert (GPT <> JUDGE) as Hm by discriminate.
  destruct (step2_calls_only_analysed_backends Examples.flaky_backend
              (State.initial
                 (InputPackage.mk "q" "economic" "environmental" "technological"
                    EmptyString ∅)) GPT Hm) as ([H _] & _).
  intros Hin. destruct (H Hin) as (a & r & Ha & _). discriminate Ha.
Defined.

(** ** The system entry point *)

Section SystemFacts.
Import PyStr State Pipeline.

(** The keys that the performance node writes. *)
Lemma performance_metrics_keys st metrics :
  fst (performance_logging_node st) =
    Some [U_improvement_metrics metrics; U_logging_complete true] ->
  forall k, is_Some (metrics !! k) ->
    In k ("average_length_improvement" :: "confidence_improvement"
          :: "average_final_confidence" :: "average_baseline_confidence"
          :: length_keys).
Proof.
  intros Hnode k [v Hk].
  destruct (performance_phases st) as (m0 & m3 & metrics' & H0 & H3 & H & Hnode').
  rewrite Hnode in Hnode'. injection Hnode' as <-.
  destruct (confidence_metrics_entries st m0) as (m3' & H3' & Hkeep & _).
  rewrite H3 in H3'. injection H3' as <-.
  destruct (overall_metrics_other m3) as (metrics' & H' & Hother & _).
  rewrite H in H'. injection H' as <-.
  destruct (decide (k = "average_length_improvement")) as [->|H1]; [by left|].
  destruct (decide (k = "confidence_improvement")) as [->|H2]; [right; by left|].
  destruct (decide (k = "average_final_confidence")) as [->|H4];
    [right; right; by left|].
  destruct (decide (k = "average_baseline_confidence")) as [->|H5];
    [right; right; right; by left|].
  rewrite Hother, Hkeep in Hk by done.
  destruct (length_metrics_values st m0 H0 _ _ Hk) as [Hin _].
  by do 4 right.
Qed.

(** With an analysis and a baseline the node records a confidence
    improvement. *)
Lemma performance_metrics_nonempty st metrics :
  fst (performance_logging_node st) =
    Some [U_improvement_metrics metrics; U_logging_complete true] ->
  is_Some (analysis_of CLAUDE st) -> is_Some (baseline_of CLAUDE st) ->
  is_Some (metrics !! "confidence_improvement").
Proof.
  intros Hnode [a Ha] [b Hb].
  destruct (performance_phases st) as (m0 & m3 & metrics' & H0 & H3 & H & Hnode').
  rewrite Hnode in Hnode'. injection Hnode' as <-.
  destruct (confidence_metrics_entries st m0) as (m3' & H3' & _ & Hsome & _).
  rewrite H3 in H3'. injection H3' as <-.
  destruct (overall_metrics_other m3) as (metrics' & H' & Hother & _).
  rewrite H in H'. injection H' as <-.
  cbn in Ha, Hb. unfold present in Hsome. cbn in Hsome. rewrite Ha, Hb in Hsome.
  destruct Hsome as (af & ab & _ & _ & Hc & _); [done..|].
  rewrite Hother by done. eauto.
Qed.

End SystemFacts.

(** What a completed run of the graph returns. *)
Lemma graph_process_result
    (float_of_str : string -> option pyfloat)
    (backend : ModelType -> stage -> outcome string)
    (start_time end_time : pyfloat)
    (query p1 p2 p3 ucot c1 c2 c3 : string) :
  PyStr.truthy (PyStr.strip query) = true ->
  exists st metrics advantage,
    MultiPerspectiveEnsembleGraph.process_multi_perspective_query
      float_of_str backend start_time end_time query p1 p2 p3 ucot c1 c2 c3 =
    (Completed
       (RunResult.mk query
          (State.merge st [State.U_improvement_metrics metrics;
                           State.U_logging_complete true])
          advantage (PyFloat.sub end_time start_time)),
     stage_calls ++ [LogResult query (State.final_synthesis st)]) /\
    fst (Pipeline.performance_logging_node st) =
      Some [State.U_improvement_metrics metrics; State.U_logging_complete true] /\
    is_Some (Pipeline.analysis_of CLAUDE st) /\
    is_Some (Pipeline.baseline_of CLAUDE st).
Proof.
  intros Hq.
  unfold MultiPerspectiveEnsembleGraph.process_multi_perspective_query,
    MultiPerspectiveEnsembleGraph.validate_and_prepare_inputs,
    InputPackage.validate_inputs.
  cbn [InputPackage.query]. rewrite Hq.
  match goal with
  | |- context [MultiPerspectiveEnsembleGraph.ainvoke _ _ ?s] =>
      destruct (ainvoke_result float_of_str backend s)
        as (st & metrics & -> & Hnode & _ & _ & Han)
  end.
  destruct (advantage_metrics_returns
              (State.merge st [State.U_improvement_metrics metrics;
                               State.U_logging_complete true]))
    as [advantage ->].
  exists st, metrics, advantage. split; [reflexivity|]. split; [exact Hnode|].
  destruct (Han CLAUDE) as (Hb & a & r & Ha & _); [done|]. eauto.
Qed.

(** X12.  The performance analysis of the entry point never reports more
    than a minimal improvement.  It reads the entry [average_improvement],
    which the performance node never writes (the node's average is stored
    as [average_length_improvement]); so for every completed run the
    summary starts with [Minimal improvement over baselines. ], whatever
    the metrics are, followed by the part made from the advantage metrics. *)
Theorem performance_analysis_always_minimal
    (float_of_str : string -> option pyfloat)
    (backend : ModelType -> stage -> outcome string)
    (start_time end_time : pyfloat)
    (query perspective_1 perspective_2 perspective_3 universal_cot
       chain_of_thought_1 chain_of_thought_2 chain_of_thought_3 : string)
    (r : RunResult.t) (fx : list effect) :
  MultiPerspectiveEnsembleGraph.process_multi_perspective_query
    float_of_str backend start_time end_time query perspective_1
    perspective_2 perspective_3 universal_cot chain_of_thought_1
    chain_of_thought_2 chain_of_thought_3 = (Completed r, fx) ->
  State.improvement_metrics (RunResult.final_state r) !! "average_improvement" = None /\
  exists a,
    EnhancedLLMEnsembleSystem.analyze_performance_improvement (Completed r) = inr a /\
    EnhancedLLMEnsembleSystem.summary a =
      "Minimal improvement over baselines. "
      +:+ EnhancedLLMEnsembleSystem.advantage_summary
            (RunResult.multi_perspective_advantage r).
Proof.
  intros Hrun.
  destruct (PyStr.truthy (PyStr.strip query)) eqn:Hq.
  - destruct (graph_process_result float_of_str backend start_time end_time query
                perspective_1 perspective_2 perspective_3 universal_cot
                chain_of_thought_1 chain_of_thought_2 chain_of_thought_3 Hq)
      as (st & metrics & advantage & Heq & Hnode & Ha & Hb).
    rewrite Heq in Hrun. injection Hrun as <- <-.
    cbn [RunResult.final_state RunResult.multi_perspective_advantage].
    change (State.improvement_metrics
              (State.merge st [State.U_improvement_metrics metrics;
                               State.U_logging_complete true])) with metrics.
    assert (metrics !! "average_improvement" = None) as Hnone.
    { destruct (metrics !! "average_improvement") as [v|] eqn:E; [|done].
      pose proof (performance_metrics_keys st metrics Hnode _ (mk_is_Some _ _ E)) as Hin.
      cbn in Hin. by repeat destruct Hin as [Hin|Hin]. }
    split; [exact Hnone|].
    eexists. split; [reflexivity|].
    cbn [EnhancedLLMEnsembleSystem.summary RunResult.final_state
         RunResult.multi_perspective_advantage State.improvement_metrics
         State.merge fold_left State.apply_update].
    f_equal. unfold EnhancedLLMEnsembleSystem.improvement_summary,
      EnhancedLLMEnsembleSystem.metric, EnhancedLLMEnsembleSystem.nonempty.
    rewrite Hnone.
    destruct (performance_metrics_nonempty st metrics Hnode Ha Hb) as [v Hv].
    rewrite bool_decide_eq_false_2; [done|].
    intros ->. by rewrite lookup_empty in Hv.
  - exfalso. revert Hrun.
    unfold MultiPerspectiveEnsembleGraph.process_multi_perspective_query,
      MultiPerspectiveEnsembleGraph.validate_and_prepare_inputs,
      InputPackage.validate_inputs.
    cbn [InputPackage.query]. by rewrite Hq.
Qed.

Lemma performance_analysis_always_minimal_witness :
  exists r fx a,
    MultiPerspectiveEnsembleGraph.process_multi_perspective_query
      Decimal.float_of_str Examples.flaky_backend (Fin 10) (Fin 11)
      "Is solar power viable?" "economic" "environmental" "technological"
      EmptyString EmptyString EmptyString EmptyString = (Completed r, fx) /\
    EnhancedLLMEnsembleSystem.analyze_performance_improvement (Completed r) = inr a /\
    EnhancedLLMEnsembleSystem.summary a =
      "Minimal improvement over baselines. "
      +:+ EnhancedLLMEnsembleSystem.advantage_summary
            (RunResult.multi_perspective_advantage r).
Proof.
  destruct (graph_process_result Decimal.float_of_str Examples.flaky_backend
              (Fin 10) (Fin 11) "Is solar power viable?" "economic"
              "environmental" "technological" EmptyString EmptyString
              EmptyString EmptyString eq_refl)
    as (st & metrics & advantage & Heq & _).
  eexists _, _. 
  destruct (performance_analysis_always_minimal _ _ _ _ _ _ _ _ _ _ _ _ _ _ Heq)
    as (_ & a & Ha & Hs).
  exists a. split; [exact Heq|]. split; [exact Ha | exact Hs].
Defined.

Lemma strip_truthy query :
  PyStr.truthy (PyStr.strip query) = true -> PyStr.truthy query = true.
Proof. by destruct query. Qed.



(** ** The order of floats and the builtin [max] and [min] *)

Section OrderFacts.
Local Open Scope Q_scope.

Lemma lt_Fin x y : PyFloat.lt (Fin x) (Fin y) = true <-> x < y.
Proof.
  simpl. rewrite Qlt_alt. destruct (x ?= y); split; congruence.
Qed.

Lemma lt_irrefl a : PyFloat.lt a a = false.
Proof.
  destruct a as [x| | |]; try done.
  destruct (PyFloat.lt (Fin x) (Fin x)) eqn:E; [|done].
  apply lt_Fin in E. by apply Qlt_irrefl in E.
Qed.

Lemma lt_trans a b c :
  PyFloat.lt a b = true -> PyFloat.lt b c = true -> PyFloat.lt a c = true.
Proof.
  destruct a as [x| | |], b as [y| | |], c as [z| | |]; try done.
  rewrite !lt_Fin. apply Qlt_trans.
Qed.

Lemma lt_asym a b : PyFloat.lt a b = true -> PyFloat.lt b a = false.
Proof.
  intros H. destruct (PyFloat.lt b a) eqn:E; [|done].
  pose proof (lt_trans _ _ _ H E) as Hc. by rewrite lt_irrefl in Hc.
Qed.

End OrderFacts.

Section MaxFacts.
Context {A : Type} (key : A -> pyfloat).

(** The element that [max] returns is one of the sequence, its key is
    that of the first element or greater, and no key of the sequence is
    greater than its key. *)
Lemma max_by_spec rest : forall best,
  let b := Stats.max_by key best rest in
  In b (best :: rest) /\
  (b = best \/ PyFloat.lt (key best) (key b) = true) /\
  forall x, In x (best :: rest) -> PyFloat.lt (key b) (key x) = false.
Proof.
  induction rest as [|x rest IH]; intros best; cbn [Stats.max_by].
  - split; [by left|]. split; [by left|]. intros x [<-|[]]. apply lt_irrefl.
  - destruct (PyFloat.lt (key best) (key x)) eqn:E.
    + destruct (IH x) as (Hin & Hdom & Hmax). split; [by right|].
      assert (PyFloat.lt (key best) (key (Stats.max_by key x rest)) = true) as Hb.
      { destruct Hdom as [->|Hdom]; [done|]. by apply lt_trans with (key x). }
      split; [by right|].
      intros y [<-|Hy]; [by apply lt_asym | by apply Hmax].
    + destruct (IH best) as (Hin & Hdom & Hmax). split.
      { destruct Hin as [Hin|Hin]; [by left | by right; right]. }
      split; [done|].
      intros y [<-|[<-|Hy]]; [by apply Hmax; left | | by apply Hmax; right].
      destruct Hdom as [->|Hdom]; [done|].
      destruct (PyFloat.lt (key (Stats.max_by key best rest)) (key x)) eqn:E'; [|done].
      by rewrite (lt_trans _ _ _ Hdom E') in E.
Qed.

End MaxFacts.

(** [max(scores)] and [min(scores)]. *)
Lemma fold_max_spec xs : forall x,
  let r := fold_left PyFloat.max xs x in
  (r = x \/ PyFloat.lt x r = true) /\
  forall y, In y (x :: xs) -> PyFloat.lt r y = false.
Proof.
  induction xs as [|z xs IH]; intros x; cbn [fold_left].
  - split; [by left|]. intros y [<-|[]]. apply lt_irrefl.
  - destruct (IH (PyFloat.max x z)) as (Hdom & Hmax).
    unfold PyFloat.max in *. destruct (PyFloat.lt x z) eqn:E.
    + split.
      { right. destruct Hdom as [->|Hdom]; [done|]. by apply lt_trans with z. }
      intros y [<-|Hy]; [|by apply Hmax].
      apply lt_asym. destruct Hdom as [->|Hdom]; [done|]. by apply lt_trans with z.
    + split; [done|].
      intros y [<-|[<-|Hy]]; [by apply Hmax; left | | by apply Hmax; right].
      destruct Hdom as [->|Hdom]; [done|].
      destruct (PyFloat.lt (fold_left _ xs x) z) eqn:E'; [|done].
      by rewrite (lt_trans _ _ _ Hdom E') in E.
Qed.

Lemma fold_min_spec xs : forall x,
  let r := fold_left PyFloat.min xs x in
  (r = x \/ PyFloat.lt r x = true) /\
  forall y, In y (x :: xs) -> PyFloat.lt y r = false.
Proof.
  induction xs as [|z xs IH]; intros x; cbn [fold_left].
  - split; [by left|]. intros y [<-|[]]. apply lt_irrefl.
  - destruct (IH (PyFloat.min x z)) as (Hdom & Hmin).
    unfold PyFloat.min in *. destruct (PyFloat.lt z x) eqn:E.
    + split.
      { right. destruct Hdom as [->|Hdom]; [done|]. by apply lt_trans with z. }
      intros y [<-|Hy]; [|by apply Hmin].
      apply lt_asym. destruct Hdom as [->|Hdom]; [done|]. by apply lt_trans with z.
    + split; [done|].
      intros y [<-|[<-|Hy]]; [by apply Hmin; left | | by apply Hmin; right].
      destruct Hdom as [->|Hdom]; [done|].
      destruct (PyFloat.lt z (fold_left _ xs x)) eqn:E'; [|done].
      by rewrite (lt_trans _ _ _ E' Hdom) in E.
Qed.

(** ** Statistics over the evaluation history *)

Lemma stat_of_spec scores :
  exists s, CompareModels.stat_of scores = Some s /\
    CompareModels.total_evaluations s = List.length scores /\
    forall x, In x scores ->
      PyFloat.lt (CompareModels.max_score s) x = false /\
      PyFloat.lt x (CompareModels.min_score s) = false.
Proof.
  destruct scores as [|x xs]; cbn [CompareModels.stat_of].
  - eexists. split; [reflexivity|]. split; [done|]. intros x [].
  - destruct (average_cons x xs) as [avg ->]. cbn [mbind option_bind].
    eexists. split; [reflexivity|]. split; [done|].
    intros y Hy. cbn. split.
    + by apply fold_max_spec.
    + by apply fold_min_spec.
Qed.

(** X14.  [compare_models] answers an empty history with its error
    message.  For any other history it returns statistics for [claude],
    [gpt] and [grok], in this order: each counts the scores the history
    holds for the model, no score of the model is greater than its
    maximum or smaller than its minimum, and the best performing model is
    one of the three whose average no other average exceeds. *)
Theorem compare_models_sound (evaluation_history : list (gmap string pyfloat)) :
  (evaluation_history = [] ->
   CompareModels.compare_models evaluation_history =
   Some (inl "No evaluation history provided")) /\
  (evaluation_history <> [] ->
   exists c best_stat,
     CompareModels.compare_models evaluation_history = Some (inr c) /\
     CompareModels.total c = List.length evaluation_history /\
     map fst (CompareModels.model_statistics c) = ["claude"; "gpt"; "grok"] /\
     In (CompareModels.best_performing_model c, best_stat)
        (CompareModels.model_statistics c) /\
     forall name s, In (name, s) (CompareModels.model_statistics c) ->
       PyFloat.lt (CompareModels.average_score best_stat)
                  (CompareModels.average_score s) = false /\
       CompareModels.total_evaluations s =
         List.length (Stats.collect evaluation_history name) /\
       forall x, In x (Stats.collect evaluation_history name) ->
         PyFloat.lt (CompareModels.max_score s) x = false /\
         PyFloat.lt x (CompareModels.min_score s) = false).
Proof.
  split; [by intros ->|]. intros Hne.
  destruct evaluation_history as [|e history]; [done|].
  unfold CompareModels.compare_models.
  destruct (stat_of_spec (Stats.collect (e :: history) "claude")) as (c & -> & Hc).
  destruct (stat_of_spec (Stats.collect (e :: history) "gpt")) as (g & -> & Hg).
  destruct (stat_of_spec (Stats.collect (e :: history) "grok")) as (k & -> & Hk).
  cbn [mbind option_bind].
  pose proof (max_by_spec
                (fun kv : string * CompareModels.model_stat =>
                   CompareModels.average_score (snd kv))
                [("gpt", g); ("grok", k)] ("claude", c)) as (Hin & _ & Hmax).
  destruct (Stats.max_by _ _ _) as [best best_stat] eqn:Eb.
  eexists _, best_stat. split; [reflexivity|]. split; [done|]. split; [done|].
  split; [exact Hin|].
  intros name s Hs. split; [exact (Hmax (name, s) Hs)|].
  destruct Hs as [[= <- <-]|[[= <- <-]|[[= <- <-]|[]]]]; done.
Qed.

(** In [StatsExamples.history] Grok has the best average. *)
Lemma compare_models_sound_witness :
  exists c,
    CompareModels.compare_models StatsExamples.history = Some (inr c) /\
    CompareModels.best_performing_model c = "grok" /\
    CompareModels.total c = 3.
Proof.
  destruct (proj2 (compare_models_sound StatsExamples.history))
    as (c & best_stat & Hc & Ht & _); [discriminate|].
  exists c. split; [exact Hc|]. split; [|exact Ht].
  vm_compute in Hc. injection Hc as <-. reflexivity.
Defined.

Lemma average_or_zero_returns scores :
  exists avg, Stats.average_or_zero scores = Some avg /\
    (scores = [] -> avg = Fin 0).
Proof.
  destruct scores as [|x xs]; cbn [Stats.average_or_zero].
  - by eexists.
  - destruct (average_cons x xs) as [avg ->]. by eexists.
Qed.

(** X15.  [get_best_performing_model] answers an empty log with its
    message.  For any other log it returns the averages of [claude],
    [gpt] and [grok], in this order, with 0.0 for a model that no record
    has a score for; the best performing model is one of the three whose
    average no other average exceeds, and it is [claude] when no record
    holds any score. *)
Theorem best_performing_model_sound (memory : list MemoryLogger.entry) :
  let history := map MemoryLogger.confidence_scores memory in
  (memory = [] ->
   MemoryLogger.get_best_performing_model memory = Some (inl "No data available")) /\
  (memory <> [] ->
   exists b best_average,
     MemoryLogger.get_best_performing_model memory = Some (inr b) /\
     MemoryLogger.total_evaluations b = List.length memory /\
     map fst (MemoryLogger.model_averages b) = ["claude"; "gpt"; "grok"] /\
     In (MemoryLogger.best_performing_model b, best_average)
        (MemoryLogger.model_averages b) /\
     (forall name avg, In (name, avg) (MemoryLogger.model_averages b) ->
        PyFloat.lt best_average avg = false /\
        (Stats.collect history name = [] -> avg = Fin 0)) /\
     ((forall name, Stats.collect history name = []) ->
      MemoryLogger.best_performing_model b = "claude")).
Proof.
  intros history. split; [by intros ->|]. intros Hne.
  destruct memory as [|e memory]; [done|].
  unfold MemoryLogger.get_best_performing_model. fold history.
  destruct (average_or_zero_returns (Stats.collect history "claude")) as (c & -> & Hc).
  destruct (average_or_zero_returns (Stats.collect history "gpt")) as (g & -> & Hg).
  destruct (average_or_zero_returns (Stats.collect history "grok")) as (k & -> & Hk).
  cbn [mbind option_bind].
  pose proof (max_by_spec (fun kv : string * pyfloat => snd kv)
                [("gpt", g); ("grok", k)] ("claude", c)) as (Hin & _ & Hmax).
  destruct (Stats.max_by _ ("claude", c) _) as [best best_average] eqn:Eb.
  eexists _, best_average. split; [reflexivity|]. split; [done|]. split; [done|].
  split; [exact Hin|]. split.
  - intros name avg Ha. split; [exact (Hmax (name, avg) Ha)|].
    destruct Ha as [[= <- <-]|[[= <- <-]|[[= <- <-]|[]]]]; done.
  - intros Hempty. rewrite (Hc (Hempty _)), (Hg (Hempty _)), (Hk (Hempty _)) in Eb.
    cbn in Eb. by injection Eb as <- _.
Qed.

(** The records of [StatsExamples.memory] hold no scores. *)
Lemma best_performing_model_sound_witness :
  exists b,
    MemoryLogger.get_best_performing_model StatsExamples.memory = Some (inr b) /\
    MemoryLogger.best_performing_model b = "claude".
Proof.
  destruct (proj2 (best_performing_model_sound StatsExamples.memory))
    as (b & avg & Hb & _ & _ & _ & _ & Hclaude); [discriminate|].
  exists b. split; [exact Hb|]. apply Hclaude. by intros name.
Defined.

(** ** Searching the log *)

Lemma lower_char_idem c : PyText.lower_char (PyText.lower_char c) = PyText.lower_char c.
Proof. destruct c as [[] [] [] [] [] [] [] []]; reflexivity. Qed.

Lemma lower_idem s : PyText.lower (PyText.lower s) = PyText.lower s.
Proof. induction s as [|c s IH]; simpl; [done|]. by rewrite lower_char_idem, IH. Qed.

Lemma contains_empty hay : PyText.contains EmptyString hay = true.
Proof. by destruct hay. Qed.

(** X16.  [search_memory] does not depend on the case of the keyword, the
    empty keyword finds every record, and the records found come in the
    order of the log, each with a query that contains the keyword when
    both are put in lower case. *)
Theorem search_memory_case_insensitive
    (memory : list MemoryLogger.entry) (query_keyword : string) :
  MemoryLogger.search_memory memory (PyText.lower query_keyword)
    = MemoryLogger.search_memory memory query_keyword /\
  MemoryLogger.search_memory memory EmptyString = memory /\
  sublist (MemoryLogger.search_memory memory query_keyword) memory /\
  forall result, In result (MemoryLogger.search_memory memory query_keyword) ->
    PyText.contains (PyText.lower query_keyword)
      (PyText.lower (MemoryLogger.query result)) = true.
Proof.
  unfold MemoryLogger.search_memory. split; [by rewrite lower_idem|].
  split.
  - induction memory as [|e memory IH]; [done|].
    cbn. rewrite contains_empty. cbn in IH. by rewrite IH.
  - split.
    + induction memory as [|e memory IH]; [done|].
      cbn [List.filter]. destruct (PyText.contains _ _).
      * by apply sublist_skip.
      * by apply sublist_cons.
    + intros result Hin. by apply filter_In in Hin as [_ H].
Qed.

Lemma search_memory_case_insensitive_witness :
  MemoryLogger.search_memory StatsExamples.memory "SOLAR" =
  [MemoryLogger.mk_entry "Is Solar power viable?" ∅].
Proof.
  rewrite <- (proj1 (search_memory_case_insensitive StatsExamples.memory "SOLAR")).
  reflexivity.
Defined.

(** ** The quality of a reasoning chain *)

Section QualityFacts.
Local Open Scope Q_scope.

Lemma zero_in_unit : in_interval 0 1 (Fin 0).
Proof. eexists. split; [done|]. split; discriminate. Qed.

Lemma ratio_nonneg n d :
  (d <> 0)%nat -> 0 <= inject_Z (Z.of_nat n) / inject_Z (Z.of_nat d).
Proof.
  intros Hd. apply Qle_shift_div_l.
  - unfold Qlt. simpl. lia.
  - unfold Qle. simpl. lia.
Qed.

(** [n / d] for [n <= d]. *)
Lemma ratio_unit n d :
  (n <= d)%nat -> (d <> 0)%nat ->
  exists v, PyFloat.div (PyFloat.of_nat n) (PyFloat.of_nat d) = Some v /\
            in_interval 0 1 v.
Proof.
  intros Hn Hd. rewrite div_of_nat by done. eexists. split; [reflexivity|].
  eexists. split; [reflexivity|]. rewrite Qred_correct. split.
  - by apply ratio_nonneg.
  - apply Qle_shift_div_r.
    + unfold Qlt. simpl. lia.
    + unfold Qle. simpl. lia.
Qed.

(** [min(1.0, n / d)] *)
Lemma ratio_capped n d :
  (d <> 0)%nat ->
  exists v, PyFloat.div (PyFloat.of_nat n) (PyFloat.of_nat d) = Some v /\
            in_interval 0 1 (PyFloat.min (Fin 1) v).
Proof.
  intros Hd. rewrite div_of_nat by done. eexists. split; [reflexivity|].
  pose proof (ratio_nonneg n d Hd) as H0.
  unfold PyFloat.min.
  destruct (PyFloat.lt (Fin (Qred _)) (Fin 1)) eqn:E.
  - apply lt_Fin in E. eexists. split; [reflexivity|].
    split; [by rewrite Qred_correct | by apply Qlt_le_weak].
  - eexists. split; [reflexivity|]. split; discriminate.
Qed.

(** [(a + b) / 2] *)
Lemma half_sum a b :
  in_interval 0 1 a -> in_interval 0 1 b ->
  exists v, PyFloat.div (PyFloat.add a b) (PyFloat.of_nat 2) = Some v /\
            in_interval 0 1 v.
Proof.
  intros (x & -> & Hx0 & Hx1) (y & -> & Hy0 & Hy1).
  unfold PyFloat.add, PyFloat.div, PyFloat.of_nat.
  change (Z.of_nat 2 # 1) with 2. change (2 ?= 0) with Gt.
  eexists. split; [reflexivity|]. eexists. split; [reflexivity|].
  rewrite !Qred_correct. split.
  - apply Qle_shift_div_l; [done|]. lra.
  - apply Qle_shift_div_r; [done|]. lra.
Qed.

End QualityFacts.

(** X17.  [analyze_reasoning_quality] never raises and returns exactly the
    five metrics [completeness], [logical_consistency], [depth], [clarity]
    and [perspective_integration], each a number of [0, 1], for every
    reasoning chain. *)
Theorem reasoning_quality_in_unit (reasoning_chain : gmap string string) :
  exists quality_metrics,
    ChainOfThoughtEnhancer.analyze_reasoning_quality reasoning_chain
      = Some quality_metrics /\
    dom quality_metrics =
      ({["completeness"; "logical_consistency"; "depth"; "clarity";
         "perspective_integration"]} : gset string) /\
    forall k v, quality_metrics !! k = Some v -> in_interval 0 1 v.
Proof.
  unfold ChainOfThoughtEnhancer.analyze_reasoning_quality.
  destruct (ratio_unit
              (PyText.count (ChainOfThoughtEnhancer.has reasoning_chain)
                 ChainOfThoughtEnhancer.basic_components)
              (List.length ChainOfThoughtEnhancer.basic_components))
    as (c & -> & Hc); [apply filter_length_le | done |].
  cbn [mbind option_bind].
  pose proof zero_in_unit as Hz.
  assert (exists (qm1 : gmap string pyfloat) (i : pyfloat),
            (if (0 <? PyText.count (ChainOfThoughtEnhancer.has reasoning_chain)
                        ChainOfThoughtEnhancer.perspective_components)%nat
             then
               integration ←
                 PyFloat.div
                   (PyFloat.of_nat
                      (PyText.count (ChainOfThoughtEnhancer.has reasoning_chain)
                         ChainOfThoughtEnhancer.perspective_components))
                   (PyFloat.of_nat
                      (List.length ChainOfThoughtEnhancer.perspective_components));
               Some (<["perspective_integration" := integration]>
                       (<["completeness" := c]>
                          (<["perspective_integration" := Fin 0]>
                             (<["clarity" := Fin 0]>
                                (<["depth" := Fin 0]>
                                   (<["logical_consistency" := Fin 0]>
                                      (<["completeness" := Fin 0]> ∅)))))))
             else
               Some (<["completeness" := c]>
                       (<["perspective_integration" := Fin 0]>
                          (<["clarity" := Fin 0]>
                             (<["depth" := Fin 0]>
                                (<["logical_consistency" := Fin 0]>
                                   (<["completeness" := Fin 0]> ∅)))))))
            = Some qm1 /\
            in_interval 0 1 i /\
            qm1 = <["perspective_integration" := i]>
                    (<["completeness" := c]>
                       (<["clarity" := Fin 0]>
                          (<["depth" := Fin 0]>
                             (<["logical_consistency" := Fin 0]> ∅)))))
    as (qm1 & i & -> & Hi & ->).
  { destruct (0 <? _)%nat.
    - destruct (ratio_unit
                  (PyText.count (ChainOfThoughtEnhancer.has reasoning_chain)
                     ChainOfThoughtEnhancer.perspective_components)
                  (List.length ChainOfThoughtEnhancer.perspective_components))
        as (i & -> & Hi); [apply filter_length_le | done |].
      cbn [mbind option_bind]. eexists _, i. split; [reflexivity|].
      split; [done|]. apply map_eq. intros k.
      repeat (rewrite lookup_insert; case_decide; [done|]). done.
    - eexists _, (Fin 0). split; [reflexivity|]. split; [done|].
      apply map_eq. intros k.
      repeat (rewrite lookup_insert; case_decide; [done|]). done. }
  cbn [mbind option_bind].
  set (reasoning_text :=
         ChainOfThoughtEnhancer.text_of reasoning_chain "reasoning"
         +:+ ChainOfThoughtEnhancer.text_of reasoning_chain "perspective_reasoning").
  assert (exists (qm2 : gmap string pyfloat) (d : pyfloat),
            (if (200 <? String.length reasoning_text)%nat
             then
               ratio ← PyFloat.div (PyFloat.of_nat (String.length reasoning_text))
                         (PyFloat.of_nat 500);
               Some (<["depth" := PyFloat.min (Fin 1) ratio]>
                       (<["perspective_integration" := i]>
                          (<["completeness" := c]>
                             (<["clarity" := Fin 0]>
                                (<["depth" := Fin 0]>
                                   (<["logical_consistency" := Fin 0]> ∅))))))
             else
               Some (<["perspective_integration" := i]>
                       (<["completeness" := c]>
                          (<["clarity" := Fin 0]>
                             (<["depth" := Fin 0]>
                                (<["logical_consistency" := Fin 0]> ∅))))))
            = Some qm2 /\
            in_interval 0 1 d /\
            qm2 = <["depth" := d]>
                    (<["perspective_integration" := i]>
                       (<["completeness" := c]>
                          (<["clarity" := Fin 0]>
                             (<["logical_consistency" := Fin 0]> ∅)))))
    as (qm2 & d & -> & Hd & ->).
  { destruct (200 <? _)%nat.
    - destruct (ratio_capped (String.length reasoning_text) 500) as (r & -> & Hr);
        [done|].
      cbn [mbind option_bind]. eexists _, _. split; [reflexivity|].
      split; [exact Hr|]. apply map_eq. intros k.
      repeat (rewrite lookup_insert; case_decide; [done|]). done.
    - eexists _, (Fin 0). split; [reflexivity|]. split; [done|].
      apply map_eq. intros k.
      repeat (rewrite lookup_insert; case_decide; [done|]). done. }
  cbn [mbind option_bind].
  destruct (ratio_capped
              (PyText.count
                 (fun word => PyText.contains word (PyText.lower reasoning_text))
                 ChainOfThoughtEnhancer.logical_words) 3) as (r & -> & Hr); [done|].
  cbn [mbind option_bind].
  destruct (half_sum c i Hc Hi) as (cl & Hcl & Hclb).
  eexists. split; [|split].
  - repeat first [rewrite lookup_insert_eq | rewrite lookup_insert_ne by done].
    cbn [mbind option_bind]. rewrite Hcl. cbn [mbind option_bind]. reflexivity.
  - rewrite !dom_insert_L, dom_empty_L. set_solver.
  - intros k v Hk.
    repeat (apply lookup_insert_Some in Hk as [[_ <-]|[_ Hk]]; [done|]).
    by rewrite lookup_empty in Hk.
Qed.

(** A chain with two of the five basic components. *)
Lemma reasoning_quality_in_unit_witness :
  exists quality_metrics v,
    ChainOfThoughtEnhancer.analyze_reasoning_quality QualityExamples.chain
      = Some quality_metrics /\
    quality_metrics !! "completeness" = Some v /\
    in_interval 0 1 v.
Proof.
  destruct (reasoning_quality_in_unit QualityExamples.chain) as (qm & Hq & Hdom & Hb).
  assert (is_Some (qm !! "completeness")) as [v Hv].
  { apply elem_of_dom. rewrite Hdom. set_solver. }
  exists qm, v. split; [exact Hq|]. split; [exact Hv|]. exact (Hb _ _ Hv).
Defined.

(** ** The registry of connections *)

Section DictFacts.
Import Registry.
Context {V : Type}.
Implicit Types d : dict V.

Lemma dict_has_In d key : dict_has d key = true <-> In key (map fst d).
Proof.
  unfold dict_has. rewrite existsb_exists, in_map_iff. split.
  - intros (kv & Hin & He). apply String.eqb_eq in He. eauto.
  - intros (kv & He & Hin). exists kv. split; [done|]. by apply String.eqb_eq.
Qed.

Lemma dict_del_absent d key : ~ In key (map fst d) -> dict_del d key = d.
Proof.
  induction d as [|[k v] d IH]; intros H; simpl in *; [done|].
  destruct (String.eqb_spec k key) as [->|Hne]; [tauto|].
  rewrite IH; [done | tauto].
Qed.

(** Deleting a key of a dictionary removes its entry and nothing else. *)
Lemma dict_del_filter d key :
  NoDup (map fst d) ->
  dict_del d key = List.filter (fun kv => negb (String.eqb (fst kv) key)) d.
Proof.
  induction d as [|[k v] d IH]; intros Hd; simpl in *; [done|].
  apply NoDup_cons in Hd as [Hk Hd].
  destruct (String.eqb_spec k key) as [->|Hne]; simpl.
  - rewrite <- (dict_del_absent d key) at 1 by (by rewrite <- list_elem_of_In).
    rewrite IH by done. done.
  - by rewrite IH.
Qed.

Lemma filter_keys_NoDup (p : string * V -> bool) d :
  NoDup (map fst d) -> NoDup (map fst (List.filter p d)).
Proof.
  induction d as [|kv d IH]; intros Hd; simpl in *; [done|].
  apply NoDup_cons in Hd as [Hk Hd]. destruct (p kv); simpl; [|by apply IH].
  apply NoDup_cons. split; [|by apply IH].
  rewrite list_elem_of_In in *. intros Hin. apply Hk.
  apply in_map_iff in Hin as (kv' & <- & Hin').
  apply filter_In in Hin' as [Hin' _]. by apply in_map.
Qed.

(** The guarded deletion of the second loop, for a list of keys. *)
Lemma remove_keys_filter (keys : list string) d :
  NoDup (map fst d) ->
  fold_left (fun d key => if dict_has d key then dict_del d key else d) keys d
  = List.filter (fun kv => negb (existsb (String.eqb (fst kv)) keys)) d.
Proof.
  revert d. induction keys as [|key keys IH]; intros d Hd; simpl.
  - induction d as [|kv d IHd]; simpl; [done|].
    apply NoDup_cons in Hd as [_ Hd]. by rewrite <- IHd.
  - assert ((if dict_has d key then dict_del d key else d) = dict_del d key) as ->.
    { destruct (dict_has d key) eqn:E; [done|]. symmetry. apply dict_del_absent.
      rewrite <- dict_has_In. by rewrite E. }
    rewrite dict_del_filter by done.
    rewrite IH by (by apply filter_keys_NoDup).
    clear. induction d as [|kv d IHd]; simpl; [done|].
    destruct (String.eqb (fst kv) key); simpl; [done|].
    destruct (existsb _ keys); simpl; by rewrite IHd.
Qed.

Lemma keys_determine d kv kv' :
  NoDup (map fst d) -> In kv d -> In kv' d -> fst kv = fst kv' -> kv = kv'.
Proof.
  induction d as [|e d IH]; intros Hd Hin Hin' He; simpl in *; [done|].
  apply NoDup_cons in Hd as [Hk Hd]. rewrite list_elem_of_In in Hk.
  destruct Hin as [<-|Hin], Hin' as [<-|Hin']; [done| | |by apply IH].
  - exfalso. apply Hk. rewrite He. by apply in_map.
  - exfalso. apply Hk. rewrite <- He. by apply in_map.
Qed.

End DictFacts.

Section RegistryFacts.
Import Registry WebSocketServer.
Context {info : Type}.
Variable send : websocket -> server_message -> outcome unit.

Lemma fold_remove_client keys : forall self : server info,
  fold_left remove_client keys self =
  mk_server
    (fold_left (fun d key => if dict_has d key then dict_del d key else d)
       keys (connected_clients self))
    (fold_left (fun d key => if dict_has d key then dict_del d key else d)
       keys (client_info self)).
Proof.
  induction keys as [|key keys IH]; intros self; simpl; [by destruct self|].
  by rewrite IH.
Qed.

(** An identifier is among the disconnected ones exactly when the send
    to its own connection raised. *)
Lemma disconnected_reachable d message kv :
  NoDup (map fst d) -> In kv d ->
  negb (existsb (String.eqb (fst kv)) (disconnected send d message))
  = reachable send message kv.
Proof.
  intros Hd Hin. unfold reachable, disconnected.
  destruct (send (snd kv) message) as [[]|e] eqn:Es.
  - apply negb_true_iff, not_true_is_false. intros (k & Hk & He)%existsb_exists.
    apply String.eqb_eq in He. subst k.
    apply in_map_iff in Hk as (kv' & He & Hf).
    apply filter_In in Hf as [Hin' Hf].
    rewrite (keys_determine d kv' kv Hd Hin' Hin He), Es in Hf. done.
  - apply negb_false_iff, existsb_exists. exists (fst kv). split.
    + apply in_map, filter_In. split; [done|]. by rewrite Es.
    + apply String.eqb_refl.
Qed.

End RegistryFacts.

(** X18.  A broadcast sends the message once to every registered
    connection, in the order of registration, and afterwards the registry
    holds exactly the clients whose send did not raise, in their old
    order: a closed connection costs its own entry (in both dictionaries)
    and no other, and identifiers stay unique. *)
Theorem broadcast_drops_exactly_unreachable {info : Type}
    (send : Registry.websocket -> WebSocketServer.server_message -> outcome unit)
    (self : Registry.server info) (message : WebSocketServer.server_message) :
  NoDup (map fst (Registry.connected_clients self)) ->
  NoDup (map fst (Registry.client_info self)) ->
  let after := fst (Registry.broadcast_to_all send self message) in
  snd (Registry.broadcast_to_all send self message) =
    map (fun kv => (snd kv, message)) (Registry.connected_clients self) /\
  Registry.connected_clients after =
    List.filter (Registry.reachable send message) (Registry.connected_clients self) /\
  Registry.client_info after =
    List.filter
      (fun kv => negb (existsb (String.eqb (fst kv))
                         (Registry.disconnected send
                            (Registry.connected_clients self) message)))
      (Registry.client_info self) /\
  NoDup (map fst (Registry.connected_clients after)).
Proof.
  intros Hd Hi after. unfold after, Registry.broadcast_to_all.
  destruct (Registry.connected_clients self) as [|kv d] eqn:E.
  - cbn. rewrite E. split; [done|]. split; [done|]. split; [|constructor].
    clear. induction (Registry.client_info self) as [|kv d IH]; [done|].
    cbn. by rewrite <- IH.
  - cbn [fst snd]. rewrite fold_remove_client. cbn [Registry.connected_clients
      Registry.client_info]. rewrite E.
    rewrite !remove_keys_filter by done.
    split; [done|]. split; [|split; [done|]].
    + apply filter_ext_in. intros kv' Hin. by apply disconnected_reachable.
    + apply filter_keys_NoDup. done.
Qed.

(** Three clients, the second with a closed connection: it alone is
    dropped. *)
Lemma broadcast_drops_exactly_unreachable_witness :
  Registry.connected_clients
    (fst (Registry.broadcast_to_all RegistryExamples.send RegistryExamples.three
            WebSocketServer.pong)) = [("a", 1); ("c", 3)].
Proof.
  destruct (broadcast_drops_exactly_unreachable RegistryExamples.send
              RegistryExamples.three WebSocketServer.pong) as (_ & H & _).
  - repeat constructor; set_solver.
  - repeat constructor; set_solver.
  - rewrite H. reflexivity.
Defined.

Section RoundTrip.
Import Registry.

Lemma dict_set_fresh {V : Type} (d : dict V) key v :
  ~ In key (map fst d) -> dict_set d key v = d ++ [(key, v)].
Proof.
  induction d as [|[k v'] d IH]; intros H; simpl in *; [done|].
  destruct (String.eqb_spec k key) as [->|Hne]; [tauto|].
  rewrite IH; [done | tauto].
Qed.

Lemma dict_del_last {V : Type} (d : dict V) key v :
  ~ In key (map fst d) -> dict_del (d ++ [(key, v)]) key = d.
Proof.
  induction d as [|[k v'] d IH]; intros H; simpl in *.
  - by rewrite String.eqb_refl.
  - destruct (String.eqb_spec k key) as [->|Hne]; [tauto|].
    rewrite IH; [done | tauto].
Qed.

Lemma find_client_last d ws client_id :
  ~ In ws (map snd d) -> find_client (d ++ [(client_id, ws)]) ws = Some client_id.
Proof.
  induction d as [|[k w] d IH]; intros H; simpl in *.
  - by rewrite Nat.eqb_refl.
  - destruct (Nat.eqb_spec w ws) as [->|Hne]; [tauto|]. apply IH. tauto.
Qed.

Lemma find_client_none d ws :
  ~ In ws (map snd d) -> find_client d ws = None.
Proof.
  induction d as [|[k w] d IH]; intros H; simpl in *; [done|].
  destruct (Nat.eqb_spec w ws) as [->|Hne]; [tauto|]. apply IH. tauto.
Qed.

End RoundTrip.

(** X19.  Registering a new connection under a fresh identifier that is
    not empty and then unregistering the connection gives back the
    registry as it was, in both dictionaries.  Unregistering a connection
    that is not registered changes nothing. *)
Theorem register_unregister_round_trip {info : Type}
    (self : Registry.server info) (ws : Registry.websocket)
    (client_id : string) (i : info) :
  ~ In ws (map snd (Registry.connected_clients self)) ->
  (Registry.unregister_client self ws = self) /\
  (~ In client_id (map fst (Registry.connected_clients self)) ->
   ~ In client_id (map fst (Registry.client_info self)) ->
   PyStr.truthy client_id = true ->
   Registry.unregister_client
     (fst (Registry.register_client self ws client_id i)) ws = self).
Proof.
  intros Hws. split.
  - unfold Registry.unregister_client. by rewrite find_client_none.
  - intros Hc Hi Ht.
    unfold Registry.unregister_client, Registry.register_client.
    cbn [fst Registry.connected_clients Registry.client_info].
    rewrite !dict_set_fresh by done.
    rewrite find_client_last by done. rewrite Ht.
    rewrite !dict_del_last by done.
    assert (Registry.dict_has (Registry.client_info self ++ [(client_id, i)])
              client_id = true) as ->.
    { apply dict_has_In. rewrite map_app, in_app_iff. right. by left. }
    by destruct self.
Qed.

Lemma register_unregister_round_trip_witness :
  Registry.unregister_client
    (fst (Registry.register_client RegistryExamples.three 4 "d" tt)) 4
  = RegistryExamples.three.
Proof.
  refine (proj2 (register_unregister_round_trip RegistryExamples.three 4 "d" tt _)
            _ _ eq_refl); cbn; intuition discriminate.
Defined.
